(** * util/pointer.h: Buffer, SharedBuffer and IntrusiveReferenceCounted

    A shallow embedding of the three classes of [src/util/pointer.h] and the
    properties of their ownership protocol.

    - Integers are [Z] with the wrap-around of their C++ type written out:
      [u32] and [unsigned int] are 32 bits wide, [size_t] is 64 bits wide
      (the LP64 and LLP64 targets: x86-64, AArch64).
    - The free store is a pair of finite maps, one for the [T] arrays and one
      for the [u32] counter cells; a pointer is [None] ([nullptr]) or an
      address.  Storage fresh from [new] holds indeterminate values ([None]).
    - Every C++ object is identified by its address, so that [this == &buffer]
      is decidable and aliasing between instances is visible.
    - [assert] depends on the build: it aborts in a debug build and expands to
      nothing when [NDEBUG] is defined.
    - Running out of memory is not modelled: [new] always succeeds. *)

From Stdlib Require Import ZArith NArith Lia.
From stdpp Require Import gmap fin_maps.

Local Open Scope Z_scope.

(** * Part I: the model *)

(** ** Machine integers *)

Definition U32_MOD : Z := 4294967296.
Definition SIZE_MOD : Z := 18446744073709551616.

(** Conversion to [u32], which is [unsigned int]. *)
Definition to_u32 (z : Z) : Z := z mod U32_MOD.

(** The values of type [size_t]. *)
Definition is_size_t (z : Z) : Prop := 0 <= z < SIZE_MOD.

(** ** IntrusiveReferenceCounted *)

(** The object is either allocated, with its [m_refcount], or gone;
    [deletions] counts the executions of [delete this]. *)
Record IntrusiveReferenceCounted : Type := Intrusive {
  m_refcount : option Z;
  deletions : N
}.

(** [IntrusiveReferenceCounted() = default], with [u32 m_refcount = 1]. *)
Definition IntrusiveReferenceCounted_new : IntrusiveReferenceCounted :=
  Intrusive (Some 1) 0.

(** [void grab() noexcept { ++m_refcount; }]; a call on a deleted object has
    no defined behaviour ([None]). *)
Definition grab (w : IntrusiveReferenceCounted)
    : option IntrusiveReferenceCounted :=
  match m_refcount w with
  | Some c => Some (Intrusive (Some (to_u32 (c + 1))) (deletions w))
  | None => None
  end.

(** [void drop() noexcept { if (--m_refcount == 0) delete this; }] *)
Definition drop (w : IntrusiveReferenceCounted)
    : option IntrusiveReferenceCounted :=
  match m_refcount w with
  | Some c =>
      let c' := to_u32 (c - 1) in
      if c' =? 0 then Some (Intrusive None (deletions w + 1))
      else Some (Intrusive (Some c') (deletions w))
  | None => None
  end.

(** [n] successive calls of [op] on the same object. *)
Definition times (op : IntrusiveReferenceCounted -> option IntrusiveReferenceCounted)
    (n : N) (w : option IntrusiveReferenceCounted)
    : option IntrusiveReferenceCounted :=
  N.iter n (fun r => match r with Some w' => op w' | None => None end) w.

(** The calls that the holders of references make on one object, in the
    order in which a single-threaded program makes them. *)
Inductive IntrusiveReferenceCounted_call : Type :=
  | call_grab
  | call_drop.

Definition call_on (c : IntrusiveReferenceCounted_call)
    (w : IntrusiveReferenceCounted) : option IntrusiveReferenceCounted :=
  match c with
  | call_grab => grab w
  | call_drop => drop w
  end.

(** The calls of [l], one after the other, on the same object. *)
Fixpoint calls (l : list IntrusiveReferenceCounted_call)
    (w : option IntrusiveReferenceCounted)
    : option IntrusiveReferenceCounted :=
  match l with
  | [] => w
  | c :: l' =>
      calls l' (match w with Some w' => call_on c w' | None => None end)
  end.

(** What the calls of [l] add to the number of references held: one for
    every [grab], minus one for every [drop]. *)
Fixpoint balance (l : list IntrusiveReferenceCounted_call) : Z :=
  match l with
  | [] => 0
  | call_grab :: l' => 1 + balance l'
  | call_drop :: l' => balance l' - 1
  end.

(** ** The store *)

(** Addresses of heap storage and of C++ objects are positive numbers; a
    pointer is null or an address. *)
Abbreviation addr := positive (only parsing).
Abbreviation obj := positive (only parsing).
Abbreviation ptr := (option positive) (only parsing).

(** Is the pointer non-null?  ([if (p)], [!p]) *)
Definition nonnull (p : ptr) : bool :=
  match p with Some _ => true | None => false end.

(** An array obtained from [new T[n]]: its length and its elements. *)
Record block (T : Type) : Type := Block {
  blen : Z;
  bval : Z -> option T
}.
Arguments Block {T} _ _.
Arguments blen {T} _.
Arguments bval {T} _ _.

(** The members of [Buffer<T>]: [T *data; size_t m_size;]. *)
Record Buffer : Type := mkBuffer {
  Buffer_data : ptr;
  Buffer_m_size : Z
}.

(** The members of [SharedBuffer<T>]:
    [T *data; unsigned int m_size; unsigned int *refcount;]. *)
Record SharedBuffer : Type := mkSharedBuffer {
  SharedBuffer_data : ptr;
  SharedBuffer_m_size : Z;
  SharedBuffer_refcount : ptr
}.

(** The default member initializers of [SharedBuffer]:
    [data = nullptr], [m_size = 0], [refcount = nullptr]. *)
Definition SharedBuffer_default : SharedBuffer :=
  mkSharedBuffer None 0 None.

(** The program state: the free store and the live objects. *)
Record state (T : Type) : Type := State {
  arrays : gmap positive (block T);
  cells : gmap positive (option Z);
  buffers : gmap positive Buffer;
  shareds : gmap positive SharedBuffer
}.
Arguments State {T} _ _ _ _.
Arguments arrays {T} _.
Arguments cells {T} _.
Arguments buffers {T} _.
Arguments shareds {T} _.

(** Nothing allocated, no object alive. *)
Definition initial (T : Type) : state T := State ∅ ∅ ∅ ∅.

(** ** Computations *)

(** A call returns and leaves a state, or an assertion aborts the program, or
    the behaviour is undefined. *)
Inductive outcome (S A : Type) : Type :=
  | Ok (a : A) (s : S)
  | AssertionFailed
  | Undefined.
Arguments Ok {S A} _ _.
Arguments AssertionFailed {S A}.
Arguments Undefined {S A}.

Definition M (T A : Type) : Type := state T -> outcome (state T) A.

Definition ret {T A : Type} (a : A) : M T A := fun s => Ok a s.

Definition bind {T A B : Type} (m : M T A) (k : A -> M T B) : M T B :=
  fun s =>
    match m s with
    | Ok a s' => k a s'
    | AssertionFailed => AssertionFailed
    | Undefined => Undefined
    end.

Declare Scope cxx_scope.
Delimit Scope cxx_scope with cxx.
Notation "'let*' x := m 'in' k" := (bind m (fun x => k))
  (at level 10, x name, m at level 100, k at level 200) : cxx_scope.
Notation "m >> k" := (bind m (fun _ => k))
  (at level 100, k at level 200, right associativity) : cxx_scope.
Local Open Scope cxx_scope.

Section Model.
Context {T : Type}.
(** The element whose bytes are all zero. *)
Context (zero : T).
(** Is [NDEBUG] defined? *)
Context (NDEBUG : bool).

(** [assert(c)] *)
Definition assert (c : bool) : M T unit :=
  fun s => if NDEBUG then Ok tt s
           else if c then Ok tt s else AssertionFailed.

(** *** The free store *)

(** [new T[n]] *)
Definition new_array (n : Z) : M T ptr :=
  fun s =>
    let a := fresh (dom (arrays s)) in
    Ok (Some a)
       (State (<[a := Block n (fun _ => None)]> (arrays s))
              (cells s) (buffers s) (shareds s)).

(** [delete[] p]: nothing for a null pointer, undefined for storage that is
    not allocated. *)
Definition delete_array (p : ptr) : M T unit :=
  fun s =>
    match p with
    | None => Ok tt s
    | Some a =>
        match arrays s !! a with
        | Some _ =>
            Ok tt (State (delete a (arrays s)) (cells s) (buffers s) (shareds s))
        | None => Undefined
        end
    end.

(** [new u32] *)
Definition new_u32 : M T ptr :=
  fun s =>
    let a := fresh (dom (cells s)) in
    Ok (Some a)
       (State (arrays s) (<[a := None]> (cells s)) (buffers s) (shareds s)).

(** [delete p] *)
Definition delete_u32 (p : ptr) : M T unit :=
  fun s =>
    match p with
    | None => Ok tt s
    | Some a =>
        match cells s !! a with
        | Some _ =>
            Ok tt (State (arrays s) (delete a (cells s)) (buffers s) (shareds s))
        | None => Undefined
        end
    end.

(** [*p] read *)
Definition load_u32 (p : ptr) : M T Z :=
  fun s =>
    match p with
    | None => Undefined
    | Some a =>
        match cells s !! a with
        | Some (Some v) => Ok v s
        | _ => Undefined
        end
    end.

(** [*p = v] *)
Definition store_u32 (p : ptr) (v : Z) : M T unit :=
  fun s =>
    match p with
    | None => Undefined
    | Some a =>
        match cells s !! a with
        | Some _ =>
            Ok tt (State (arrays s) (<[a := Some v]> (cells s))
                         (buffers s) (shareds s))
        | None => Undefined
        end
    end.

(** Is index [i] among the first [n] elements? *)
Definition below (n i : Z) : bool := (0 <=? i) && (i <? n).

(** [memcpy(dst, src, sizeof(T) * n)]: both ranges must lie in allocated
    arrays, which must not overlap. *)
Definition memcpy (dst src : ptr) (n : Z) : M T unit :=
  fun s =>
    match dst, src with
    | Some d, Some a =>
        match arrays s !! d, arrays s !! a with
        | Some bd, Some bs =>
            if (n <=? blen bd) && (n <=? blen bs) && negb (Pos.eqb d a) then
              Ok tt (State
                (<[d := Block (blen bd)
                          (fun i => if below n i then bval bs i else bval bd i)]>
                   (arrays s))
                (cells s) (buffers s) (shareds s))
            else Undefined
        | _, _ => Undefined
        end
    | _, _ => Undefined
    end.

(** [memset(dst, 0, sizeof(T) * n)] *)
Definition memset (dst : ptr) (n : Z) : M T unit :=
  fun s =>
    match dst with
    | Some d =>
        match arrays s !! d with
        | Some bd =>
            if n <=? blen bd then
              Ok tt (State
                (<[d := Block (blen bd)
                          (fun i => if below n i then Some zero else bval bd i)]>
                   (arrays s))
                (cells s) (buffers s) (shareds s))
            else Undefined
        | None => Undefined
        end
    | None => Undefined
    end.

(** [p[i]] read: undefined outside the allocated array. *)
Definition load_elem (p : ptr) (i : Z) : M T (option T) :=
  fun s =>
    match p with
    | Some a =>
        match arrays s !! a with
        | Some b => if below (blen b) i then Ok (bval b i) s else Undefined
        | None => Undefined
        end
    | None => Undefined
    end.

(** [p[i] = v] *)
Definition store_elem (p : ptr) (i : Z) (v : T) : M T unit :=
  fun s =>
    match p with
    | Some a =>
        match arrays s !! a with
        | Some b =>
            if below (blen b) i then
              Ok tt (State
                (<[a := Block (blen b)
                          (fun j => if j =? i then Some v else bval b j)]>
                   (arrays s))
                (cells s) (buffers s) (shareds s))
            else Undefined
        | None => Undefined
        end
    | None => Undefined
    end.

(** *** Buffer objects *)

(** The members of the live [Buffer] at [o]. *)
Definition Buffer_get (o : obj) : M T Buffer :=
  fun s =>
    match buffers s !! o with
    | Some b => Ok b s
    | None => Undefined
    end.

Definition Buffer_put (o : obj) (b : Buffer) : M T unit :=
  fun s => Ok tt (State (arrays s) (cells s) (<[o := b]> (buffers s)) (shareds s)).

Definition Buffer_get_data (o : obj) : M T ptr :=
  let* b := Buffer_get o in ret (Buffer_data b).

Definition Buffer_get_m_size (o : obj) : M T Z :=
  let* b := Buffer_get o in ret (Buffer_m_size b).

(** [o.data = p] *)
Definition Buffer_set_data (o : obj) (p : ptr) : M T unit :=
  let* b := Buffer_get o in Buffer_put o (mkBuffer p (Buffer_m_size b)).

(** [o.m_size = n] *)
Definition Buffer_set_m_size (o : obj) (n : Z) : M T unit :=
  let* b := Buffer_get o in Buffer_put o (mkBuffer (Buffer_data b) n).

(** The lifetime of a [Buffer] begins at address [o], which must not hold a
    live one.  The members have no initializer; every constructor assigns
    both before it reads any, so their first value does not matter. *)
Definition Buffer_begin (o : obj) : M T unit :=
  fun s =>
    match buffers s !! o with
    | Some _ => Undefined
    | None => Buffer_put o (mkBuffer None 0) s
    end.

(** The lifetime of the [Buffer] at [o] ends. *)
Definition Buffer_end (o : obj) : M T unit :=
  let* _ := Buffer_get o in
  fun s => Ok tt (State (arrays s) (cells s) (delete o (buffers s)) (shareds s)).

(** [Buffer()] *)
Definition Buffer_ctor (this : obj) : M T unit :=
  Buffer_begin this >>
  Buffer_set_m_size this 0 >>
  Buffer_set_data this None.

(** [Buffer(size_t size)] *)
Definition Buffer_ctor_size (this : obj) (size : Z) : M T unit :=
  Buffer_begin this >>
  Buffer_set_m_size this size >>
  if negb (size =? 0) then
    let* p := new_array size in Buffer_set_data this p
  else
    Buffer_set_data this None.

(** [Buffer(Buffer &&buffer)] *)
Definition Buffer_ctor_move (this buffer : obj) : M T unit :=
  let* _ := Buffer_get buffer in
  Buffer_begin this >>
  let* n := Buffer_get_m_size buffer in
  Buffer_set_m_size this n >>
  let* n' := Buffer_get_m_size this in
  if negb (n' =? 0) then
    let* d := Buffer_get_data buffer in
    Buffer_set_data this d >>
    Buffer_set_data buffer None >>
    Buffer_set_m_size buffer 0
  else
    Buffer_set_data this None.

(** [Buffer(const T *t, size_t size)], "copies whole buffer" *)
Definition Buffer_ctor_span (this : obj) (t : ptr) (size : Z) : M T unit :=
  Buffer_begin this >>
  Buffer_set_m_size this size >>
  if negb (size =? 0) then
    let* p := new_array size in
    Buffer_set_data this p >>
    let* d := Buffer_get_data this in
    memcpy d t size
  else
    Buffer_set_data this None.

(** [void drop() { delete[] data; }] *)
Definition Buffer_drop (this : obj) : M T unit :=
  let* d := Buffer_get_data this in delete_array d.

(** [~Buffer() { drop(); }] *)
Definition Buffer_dtor (this : obj) : M T unit :=
  Buffer_drop this >> Buffer_end this.

(** [Buffer& operator=(Buffer &&buffer)] *)
Definition Buffer_assign (this buffer : obj) : M T unit :=
  let* _ := Buffer_get this in
  let* _ := Buffer_get buffer in
  if Pos.eqb this buffer then ret tt
  else
    Buffer_drop this >>
    let* n := Buffer_get_m_size buffer in
    Buffer_set_m_size this n >>
    let* n' := Buffer_get_m_size this in
    if negb (n' =? 0) then
      let* d := Buffer_get_data buffer in
      Buffer_set_data this d >>
      Buffer_set_data buffer None >>
      Buffer_set_m_size buffer 0
    else
      Buffer_set_data this None.

(** [void copyTo(Buffer &buffer) const] *)
Definition Buffer_copyTo (this buffer : obj) : M T unit :=
  let* _ := Buffer_get this in
  Buffer_drop buffer >>
  let* n := Buffer_get_m_size this in
  Buffer_set_m_size buffer n >>
  let* n' := Buffer_get_m_size this in
  if negb (n' =? 0) then
    let* n'' := Buffer_get_m_size this in
    let* p := new_array n'' in
    Buffer_set_data buffer p >>
    let* dst := Buffer_get_data buffer in
    let* src := Buffer_get_data this in
    let* k := Buffer_get_m_size this in
    memcpy dst src k
  else
    Buffer_set_data buffer None.

(** [T & operator[](size_t i) const], read through the reference *)
Definition Buffer_at (this : obj) (i : Z) : M T (option T) :=
  let* d := Buffer_get_data this in load_elem d i.

(** [T & operator[](size_t i) const], assignment through the reference *)
Definition Buffer_at_put (this : obj) (i : Z) (v : T) : M T unit :=
  let* d := Buffer_get_data this in store_elem d i v.

(** [T * operator*() const] *)
Definition Buffer_deref (this : obj) : M T ptr := Buffer_get_data this.

(** [size_t getSize() const] *)
Definition Buffer_getSize (this : obj) : M T Z := Buffer_get_m_size this.

(** [operator std::string_view() const]: the view's pointer and length. *)
Definition Buffer_string_view (this : obj) : M T (ptr * Z) :=
  let* d := Buffer_get_data this in
  if negb (nonnull d) then ret (None, 0)
  else
    let* n := Buffer_get_m_size this in ret (d, n).

(** [void shrinkSize(size_t new_size)] *)
Definition Buffer_shrinkSize (this : obj) (new_size : Z) : M T unit :=
  let* n := Buffer_get_m_size this in
  assert (new_size <=? n) >>
  let* n' := Buffer_get_m_size this in
  if new_size <=? n' then Buffer_set_m_size this new_size
  else ret tt.

(** *** SharedBuffer objects *)

Definition SharedBuffer_get (o : obj) : M T SharedBuffer :=
  fun s =>
    match shareds s !! o with
    | Some b => Ok b s
    | None => Undefined
    end.

Definition SharedBuffer_put (o : obj) (b : SharedBuffer) : M T unit :=
  fun s => Ok tt (State (arrays s) (cells s) (buffers s) (<[o := b]> (shareds s))).

Definition SharedBuffer_get_data (o : obj) : M T ptr :=
  let* b := SharedBuffer_get o in ret (SharedBuffer_data b).

Definition SharedBuffer_get_m_size (o : obj) : M T Z :=
  let* b := SharedBuffer_get o in ret (SharedBuffer_m_size b).

Definition SharedBuffer_get_refcount (o : obj) : M T ptr :=
  let* b := SharedBuffer_get o in ret (SharedBuffer_refcount b).

(** [o.data = p] *)
Definition SharedBuffer_set_data (o : obj) (p : ptr) : M T unit :=
  let* b := SharedBuffer_get o in
  SharedBuffer_put o
    (mkSharedBuffer p (SharedBuffer_m_size b) (SharedBuffer_refcount b)).

(** [o.m_size = n]; where the source assigns a [size_t] to the
    [unsigned int] member, the caller writes the conversion [to_u32]. *)
Definition SharedBuffer_set_m_size (o : obj) (n : Z) : M T unit :=
  let* b := SharedBuffer_get o in
  SharedBuffer_put o
    (mkSharedBuffer (SharedBuffer_data b) n (SharedBuffer_refcount b)).

(** [o.refcount = p] *)
Definition SharedBuffer_set_refcount (o : obj) (p : ptr) : M T unit :=
  let* b := SharedBuffer_get o in
  SharedBuffer_put o
    (mkSharedBuffer (SharedBuffer_data b) (SharedBuffer_m_size b) p).

(** The lifetime of a [SharedBuffer] begins at address [o]: the members take
    their default member initializers before the constructor body runs. *)
Definition SharedBuffer_begin (o : obj) : M T unit :=
  fun s =>
    match shareds s !! o with
    | Some _ => Undefined
    | None => SharedBuffer_put o SharedBuffer_default s
    end.

Definition SharedBuffer_end (o : obj) : M T unit :=
  let* _ := SharedBuffer_get o in
  fun s => Ok tt (State (arrays s) (cells s) (buffers s) (delete o (shareds s))).

(** [SharedBuffer()] *)
Definition SharedBuffer_ctor (this : obj) : M T unit :=
  SharedBuffer_begin this >>
  SharedBuffer_set_m_size this 0 >>
  SharedBuffer_set_data this None >>
  SharedBuffer_set_refcount this None.

(** [SharedBuffer(size_t size)] *)
Definition SharedBuffer_ctor_size (this : obj) (size : Z) : M T unit :=
  SharedBuffer_begin this >>
  SharedBuffer_set_m_size this (to_u32 size) >>
  let* n := SharedBuffer_get_m_size this in
  if negb (n =? 0) then
    let* n1 := SharedBuffer_get_m_size this in
    let* p := new_array n1 in
    SharedBuffer_set_data this p >>
    let* r := new_u32 in
    SharedBuffer_set_refcount this r >>
    let* d := SharedBuffer_get_data this in
    let* n2 := SharedBuffer_get_m_size this in
    memset d n2 >>
    let* r' := SharedBuffer_get_refcount this in
    store_u32 r' 1
  else ret tt.

(** [SharedBuffer(const SharedBuffer &buffer)] *)
Definition SharedBuffer_ctor_copy (this buffer : obj) : M T unit :=
  let* _ := SharedBuffer_get buffer in
  SharedBuffer_begin this >>
  let* r0 := SharedBuffer_get_refcount this in
  let* n0 := SharedBuffer_get_m_size this in
  let* d0 := SharedBuffer_get_data this in
  assert (nonnull r0 || (n0 =? 0) && negb (nonnull d0)) >>
  let* n := SharedBuffer_get_m_size buffer in
  SharedBuffer_set_m_size this n >>
  let* d := SharedBuffer_get_data buffer in
  SharedBuffer_set_data this d >>
  let* r := SharedBuffer_get_refcount buffer in
  SharedBuffer_set_refcount this r >>
  let* r' := SharedBuffer_get_refcount this in
  if nonnull r' then
    let* v := load_u32 r' in store_u32 r' (to_u32 (v + 1))
  else ret tt.

(** [SharedBuffer(SharedBuffer&& buffer)] *)
Definition SharedBuffer_ctor_move (this buffer : obj) : M T unit :=
  let* _ := SharedBuffer_get buffer in
  SharedBuffer_begin this >>
  let* n := SharedBuffer_get_m_size buffer in
  SharedBuffer_set_m_size this n >>
  let* d := SharedBuffer_get_data buffer in
  SharedBuffer_set_data this d >>
  let* r := SharedBuffer_get_refcount buffer in
  SharedBuffer_set_refcount this r >>
  SharedBuffer_set_m_size buffer 0 >>
  SharedBuffer_set_data buffer None >>
  SharedBuffer_set_refcount buffer None.

(** [void drop()] *)
Definition SharedBuffer_drop (this : obj) : M T unit :=
  let* r := SharedBuffer_get_refcount this in
  if negb (nonnull r) then ret tt
  else
    let* v := load_u32 r in
    assert (0 <? v) >>
    let* v1 := load_u32 r in
    store_u32 r (to_u32 (v1 - 1)) >>
    let* v2 := load_u32 r in
    if v2 =? 0 then
      let* d := SharedBuffer_get_data this in
      delete_array d >>
      let* r' := SharedBuffer_get_refcount this in
      delete_u32 r'
    else ret tt.

(** [SharedBuffer & operator=(const SharedBuffer &buffer)] *)
Definition SharedBuffer_assign (this buffer : obj) : M T unit :=
  let* _ := SharedBuffer_get this in
  let* _ := SharedBuffer_get buffer in
  if Pos.eqb this buffer then ret tt
  else
    SharedBuffer_drop this >>
    let* n := SharedBuffer_get_m_size buffer in
    SharedBuffer_set_m_size this n >>
    let* d := SharedBuffer_get_data buffer in
    SharedBuffer_set_data this d >>
    let* r := SharedBuffer_get_refcount buffer in
    SharedBuffer_set_refcount this r >>
    let* r' := SharedBuffer_get_refcount this in
    if nonnull r' then
      let* v := load_u32 r' in store_u32 r' (to_u32 (v + 1))
    else ret tt.

(** Assignment from an rvalue, [a = std::move(b)].  The class declares a copy
    constructor, a move constructor, a copy assignment operator and a
    destructor, hence no move assignment operator is declared implicitly, and
    the rvalue binds to [const SharedBuffer &]: the call runs [operator=]
    above. *)
Definition SharedBuffer_assign_rvalue (this buffer : obj) : M T unit :=
  SharedBuffer_assign this buffer.

(** [SharedBuffer(const T *t, size_t size)], "copies whole buffer" *)
Definition SharedBuffer_ctor_span (this : obj) (t : ptr) (size : Z) : M T unit :=
  SharedBuffer_begin this >>
  SharedBuffer_set_m_size this (to_u32 size) >>
  let* n := SharedBuffer_get_m_size this in
  if negb (n =? 0) then
    let* n1 := SharedBuffer_get_m_size this in
    let* p := new_array n1 in
    SharedBuffer_set_data this p >>
    let* d := SharedBuffer_get_data this in
    let* n2 := SharedBuffer_get_m_size this in
    memcpy d t n2 >>
    let* r := new_u32 in
    SharedBuffer_set_refcount this r >>
    let* r' := SharedBuffer_get_refcount this in
    store_u32 r' 1
  else
    SharedBuffer_set_data this None >>
    SharedBuffer_set_refcount this None.

(** [SharedBuffer(const Buffer<T> &buffer)
      : SharedBuffer( *buffer, buffer.getSize())] *)
Definition SharedBuffer_ctor_Buffer (this buffer : obj) : M T unit :=
  let* t := Buffer_deref buffer in
  let* size := Buffer_getSize buffer in
  SharedBuffer_ctor_span this t size.

(** [~SharedBuffer() { drop(); }] *)
Definition SharedBuffer_dtor (this : obj) : M T unit :=
  SharedBuffer_drop this >> SharedBuffer_end this.

(** [T & operator[](size_t i) const], read through the reference *)
Definition SharedBuffer_at (this : obj) (i : Z) : M T (option T) :=
  let* n := SharedBuffer_get_m_size this in
  assert (i <? n) >>
  let* d := SharedBuffer_get_data this in
  load_elem d i.

(** [T & operator[](size_t i) const], assignment through the reference *)
Definition SharedBuffer_at_put (this : obj) (i : Z) (v : T) : M T unit :=
  let* n := SharedBuffer_get_m_size this in
  assert (i <? n) >>
  let* d := SharedBuffer_get_data this in
  store_elem d i v.

(** [T * operator*() const] *)
Definition SharedBuffer_deref (this : obj) : M T ptr :=
  SharedBuffer_get_data this.

(** [size_t getSize() const] *)
Definition SharedBuffer_getSize (this : obj) : M T Z :=
  SharedBuffer_get_m_size this.

(** [void shrinkSize(size_t new_size)] *)
Definition SharedBuffer_shrinkSize (this : obj) (new_size : Z) : M T unit :=
  let* n := SharedBuffer_get_m_size this in
  assert (new_size <=? n) >>
  let* n' := SharedBuffer_get_m_size this in
  if new_size <=? n' then SharedBuffer_set_m_size this (to_u32 new_size)
  else ret tt.

(** [operator Buffer<T>() const { return Buffer<T>(data, m_size); }]; the
    returned object is constructed at [result]. *)
Definition SharedBuffer_operator_Buffer (this result : obj) : M T unit :=
  let* d := SharedBuffer_get_data this in
  let* n := SharedBuffer_get_m_size this in
  Buffer_ctor_span result d n.

(** ** Executions *)

(** The calls through which a program changes the state: constructors,
    destructors and the mutating members of the two classes, and the
    assignment of an element through a pointer that [operator*] has
    returned.  (The [const] accessors [getSize], [operator*] and the reading
    use of [operator[]] leave the state as it is.) *)
Inductive call : Type :=
  | new_Buffer (this : obj)
  | new_Buffer_size (this : obj) (size : Z)
  | new_Buffer_move (this buffer : obj)
  | new_Buffer_span (this : obj) (t : ptr) (size : Z)
  | delete_Buffer (this : obj)
  | call_Buffer_assign (this buffer : obj)
  | call_Buffer_copyTo (this buffer : obj)
  | call_Buffer_at_put (this : obj) (i : Z) (v : T)
  | call_Buffer_shrinkSize (this : obj) (new_size : Z)
  | new_SharedBuffer (this : obj)
  | new_SharedBuffer_size (this : obj) (size : Z)
  | new_SharedBuffer_copy (this buffer : obj)
  | new_SharedBuffer_move (this buffer : obj)
  | new_SharedBuffer_span (this : obj) (t : ptr) (size : Z)
  | new_SharedBuffer_Buffer (this buffer : obj)
  | delete_SharedBuffer (this : obj)
  | call_SharedBuffer_assign (this buffer : obj)
  | call_SharedBuffer_at_put (this : obj) (i : Z) (v : T)
  | call_SharedBuffer_shrinkSize (this : obj) (new_size : Z)
  | call_SharedBuffer_operator_Buffer (this result : obj)
  | store_through (p : ptr) (i : Z) (v : T).

(** The arguments of type [size_t] are values of that type. *)
Definition well_typed (c : call) : Prop :=
  match c with
  | new_Buffer_size _ n | new_Buffer_span _ _ n
  | call_Buffer_at_put _ n _ | call_Buffer_shrinkSize _ n
  | new_SharedBuffer_size _ n | new_SharedBuffer_span _ _ n
  | call_SharedBuffer_at_put _ n _ | call_SharedBuffer_shrinkSize _ n =>
      is_size_t n
  | _ => True
  end.

Definition exec (c : call) : M T unit :=
  match c with
  | new_Buffer this => Buffer_ctor this
  | new_Buffer_size this size => Buffer_ctor_size this size
  | new_Buffer_move this buffer => Buffer_ctor_move this buffer
  | new_Buffer_span this t size => Buffer_ctor_span this t size
  | delete_Buffer this => Buffer_dtor this
  | call_Buffer_assign this buffer => Buffer_assign this buffer
  | call_Buffer_copyTo this buffer => Buffer_copyTo this buffer
  | call_Buffer_at_put this i v => Buffer_at_put this i v
  | call_Buffer_shrinkSize this n => Buffer_shrinkSize this n
  | new_SharedBuffer this => SharedBuffer_ctor this
  | new_SharedBuffer_size this size => SharedBuffer_ctor_size this size
  | new_SharedBuffer_copy this buffer => SharedBuffer_ctor_copy this buffer
  | new_SharedBuffer_move this buffer => SharedBuffer_ctor_move this buffer
  | new_SharedBuffer_span this t size => SharedBuffer_ctor_span this t size
  | new_SharedBuffer_Buffer this buffer => SharedBuffer_ctor_Buffer this buffer
  | delete_SharedBuffer this => SharedBuffer_dtor this
  | call_SharedBuffer_assign this buffer => SharedBuffer_assign this buffer
  | call_SharedBuffer_at_put this i v => SharedBuffer_at_put this i v
  | call_SharedBuffer_shrinkSize this n => SharedBuffer_shrinkSize this n
  | call_SharedBuffer_operator_Buffer this result =>
      SharedBuffer_operator_Buffer this result
  | store_through p i v => store_elem p i v
  end.

(** The calls of the members of [SharedBuffer] that construct no [Buffer],
    and among them the ones that construct, destroy or assign to an
    instance or change its size. *)
Definition on_SharedBuffer (c : call) : bool :=
  match c with
  | new_SharedBuffer _ | new_SharedBuffer_size _ _
  | new_SharedBuffer_copy _ _ | new_SharedBuffer_move _ _
  | new_SharedBuffer_span _ _ _ | new_SharedBuffer_Buffer _ _
  | delete_SharedBuffer _ | call_SharedBuffer_assign _ _
  | call_SharedBuffer_at_put _ _ _ | call_SharedBuffer_shrinkSize _ _ => true
  | _ => false
  end.

Definition changes_SharedBuffer (c : call) : bool :=
  match c with
  | call_SharedBuffer_at_put _ _ _ => false
  | _ => on_SharedBuffer c
  end.

(** What a call requires of its arguments: a constructor runs at an
    address that holds no live object of the class, and the other members
    are called on live objects; a span consists of allocated elements; an
    index is below the size; [shrinkSize] is given a size that is not
    larger; [copyTo] is not given the buffer itself, unless it has size 0. *)
Definition applicable (c : call) (s : state T) : Prop :=
  match c with
  | new_Buffer this | new_Buffer_size this _ => buffers s !! this = None
  | new_Buffer_move this buffer =>
      buffers s !! this = None /\ is_Some (buffers s !! buffer)
  | new_Buffer_span this t size =>
      buffers s !! this = None /\
      (size <> 0 -> exists a blk,
         t = Some a /\ arrays s !! a = Some blk /\ size <= blen blk)
  | delete_Buffer this => is_Some (buffers s !! this)
  | call_Buffer_assign this buffer =>
      is_Some (buffers s !! this) /\ is_Some (buffers s !! buffer)
  | call_Buffer_copyTo this buffer =>
      is_Some (buffers s !! buffer) /\
      exists b, buffers s !! this = Some b /\
        (this = buffer -> Buffer_m_size b = 0)
  | call_Buffer_at_put this i _ =>
      exists b, buffers s !! this = Some b /\ 0 <= i < Buffer_m_size b
  | call_Buffer_shrinkSize this n =>
      exists b, buffers s !! this = Some b /\ n <= Buffer_m_size b
  | new_SharedBuffer this | new_SharedBuffer_size this _ =>
      shareds s !! this = None
  | new_SharedBuffer_copy this buffer | new_SharedBuffer_move this buffer =>
      shareds s !! this = None /\ is_Some (shareds s !! buffer)
  | new_SharedBuffer_span this t size =>
      shareds s !! this = None /\
      (to_u32 size <> 0 -> exists a blk,
         t = Some a /\ arrays s !! a = Some blk /\ to_u32 size <= blen blk)
  | new_SharedBuffer_Buffer this buffer =>
      shareds s !! this = None /\ is_Some (buffers s !! buffer)
  | delete_SharedBuffer this => is_Some (shareds s !! this)
  | call_SharedBuffer_assign this buffer =>
      is_Some (shareds s !! this) /\ is_Some (shareds s !! buffer)
  | call_SharedBuffer_at_put this i _ =>
      exists b, shareds s !! this = Some b /\
        0 <= i < SharedBuffer_m_size b
  | call_SharedBuffer_shrinkSize this n =>
      exists b, shareds s !! this = Some b /\ n <= SharedBuffer_m_size b
  | call_SharedBuffer_operator_Buffer this result =>
      is_Some (shareds s !! this) /\ buffers s !! result = None
  | store_through p i _ =>
      exists a blk, p = Some a /\ arrays s !! a = Some blk /\
        0 <= i < blen blk
  end.

(** The states of the executions that start with nothing allocated, make
    calls that return, and stay inside [P]. *)
Inductive reachable_in (P : state T -> Prop) : state T -> Prop :=
  | reachable_initial : P (initial T) -> reachable_in P (initial T)
  | reachable_call s c s' :
      reachable_in P s -> well_typed c -> exec c s = Ok tt s' -> P s' ->
      reachable_in P s'.

(** Every state a single-threaded execution can reach. *)
Definition reachable : state T -> Prop := reachable_in (fun _ => True).

End Model.

(** ** The reference count invariant *)

(** The number of live [SharedBuffer] instances whose [refcount] is [p]. *)
Definition holders (p : addr) (m : gmap positive SharedBuffer) : nat :=
  size (filter (fun kv => SharedBuffer_refcount kv.2 = Some p) m).

(** Every non-empty instance has a counter, and the counter of every
    instance holds the number of live instances that share it. *)
Definition counted_by (m : gmap positive SharedBuffer)
    (c : gmap positive (option Z)) : Prop :=
  forall o b, m !! o = Some b ->
    (SharedBuffer_m_size b <> 0 -> SharedBuffer_refcount b <> None) /\
    (forall p, SharedBuffer_refcount b = Some p ->
       c !! p = Some (Some (Z.of_nat (holders p m)))).

Definition counted {T : Type} (s : state T) : Prop :=
  counted_by (shareds s) (cells s).

(** The [SharedBuffer] instances and the counters are the same in both
    states. *)
Definition same_counters {T : Type} (s s' : state T) : Prop :=
  shareds s' = shareds s /\ cells s' = cells s.

(** Fewer live [SharedBuffer] instances than a [u32] can count. *)
Definition few_shareds {T : Type} (s : state T) : Prop :=
  Z.of_nat (size (shareds s)) < U32_MOD.

(** ** Storage of an object's array *)

(** May [delete[] p] be executed: is [p] null or allocated? *)
Definition deletable {T : Type} (p : ptr) (m : gmap positive (block T)) : Prop :=
  match p with
  | Some a => is_Some (m !! a)
  | None => True
  end.

(** The arrays that remain after [delete[] p]. *)
Definition free_array {T : Type} (p : ptr) (m : gmap positive (block T))
    : gmap positive (block T) :=
  match p with
  | Some a => delete a m
  | None => m
  end.

(** The members a move leaves in the source and gives to the destination,
    for a source with members [b]: both constructors test [m_size != 0]. *)
Definition Buffer_moved_from (b : Buffer) : Buffer :=
  if Buffer_m_size b =? 0 then b else mkBuffer None 0.

Definition Buffer_moved_to (b : Buffer) : Buffer :=
  if Buffer_m_size b =? 0 then mkBuffer None 0 else b.

(** ** SharedBuffer: giving up and taking a stake *)

(** The state [drop] leaves, called on an instance with members [b]: without
    a counter nothing changes; otherwise the counter goes down by one, and
    at zero the array and the counter cell are deleted. *)
Definition SharedBuffer_released {T : Type} (b : SharedBuffer) (s : state T)
    : state T :=
  match SharedBuffer_refcount b with
  | None => s
  | Some r =>
      match cells s !! r with
      | Some (Some v) =>
          if to_u32 (v - 1) =? 0 then
            State (free_array (SharedBuffer_data b) (arrays s))
                  (delete r (cells s)) (buffers s) (shareds s)
          else
            State (arrays s) (<[r := Some (to_u32 (v - 1))]> (cells s))
                  (buffers s) (shareds s)
      | _ => s
      end
  end.

(** What [drop] needs in order to return: a counter cell that holds a value,
    which is positive when assertions are checked, and at zero an array that
    may be deleted. *)
Definition SharedBuffer_releasable {T : Type} (NDEBUG : bool)
    (b : SharedBuffer) (s : state T) : Prop :=
  match SharedBuffer_refcount b with
  | None => True
  | Some r =>
      exists v, cells s !! r = Some (Some v) /\
        (NDEBUG = true \/ 0 < v) /\
        (to_u32 (v - 1) = 0 -> deletable (SharedBuffer_data b) (arrays s))
  end.

(** The state in which the instance at [this] has become one more holder of
    the storage of [b]: it has the members of [b], and the counter of [b],
    if there is one, has gone up by one. *)
Definition SharedBuffer_joined {T : Type} (this : obj) (b : SharedBuffer)
    (s : state T) : state T :=
  State (arrays s)
        (match SharedBuffer_refcount b with
         | Some r =>
             match cells s !! r with
             | Some (Some v) => <[r := Some (to_u32 (v + 1))]> (cells s)
             | _ => cells s
             end
         | None => cells s
         end)
        (buffers s) (<[this := b]> (shareds s)).

(** The counter of [b], if there is one, is allocated and holds a value. *)
Definition SharedBuffer_joinable {T : Type} (b : SharedBuffer) (s : state T)
    : Prop :=
  match SharedBuffer_refcount b with
  | None => True
  | Some r => exists v, cells s !! r = Some (Some v)
  end.

(** ** Ownership of the arrays *)

(** An array belongs to one [Buffer] object, or to the [SharedBuffer]
    instances that share one counter. *)
Inductive owner : Type :=
  | owner_Buffer (o : obj)
  | owner_counter (r : addr).

(** [G] records the owner of every array that has one: the arrays it
    records are allocated, the [data] of every [Buffer] is recorded as its
    own, and every [SharedBuffer] with a counter has [data], recorded as
    belonging to that counter. *)
Definition owned_by {T : Type} (G : gmap positive owner) (s : state T) : Prop :=
  (forall d w, G !! d = Some w -> is_Some (arrays s !! d)) /\
  (forall o b d, buffers s !! o = Some b -> Buffer_data b = Some d ->
     G !! d = Some (owner_Buffer o)) /\
  (forall o b r, shareds s !! o = Some b -> SharedBuffer_refcount b = Some r ->
     exists d, SharedBuffer_data b = Some d /\ G !! d = Some (owner_counter r)).

(** No array has two owners, and no owner has lost its array. *)
Definition owned {T : Type} (s : state T) : Prop :=
  exists G, owned_by G s.

(** ** Sizes and storage *)

(** [n] elements can be reached through [p]: unless [n] is 0, [p] points to
    an allocated array of at least [n] elements. *)
Definition fits {T : Type} (p : ptr) (n : Z) (m : gmap positive (block T))
    : Prop :=
  n <> 0 -> exists d blk, p = Some d /\ m !! d = Some blk /\ n <= blen blk.

(** The member [m_size] holds a value of its type, [size_t] in [Buffer] and
    [unsigned int] in [SharedBuffer], and that many elements can be reached
    through [data]. *)
Definition Buffer_fits {T : Type} (m : gmap positive (block T)) (b : Buffer)
    : Prop :=
  is_size_t (Buffer_m_size b) /\ fits (Buffer_data b) (Buffer_m_size b) m.

Definition SharedBuffer_fits {T : Type} (m : gmap positive (block T))
    (b : SharedBuffer) : Prop :=
  0 <= SharedBuffer_m_size b < U32_MOD /\
  fits (SharedBuffer_data b) (SharedBuffer_m_size b) m.

(** This holds of every live object. *)
Definition in_bounds {T : Type} (s : state T) : Prop :=
  (forall o b, buffers s !! o = Some b -> Buffer_fits (arrays s) b) /\
  (forall o b, shareds s !! o = Some b -> SharedBuffer_fits (arrays s) b).

(** The arrays that are allocated in both stores are at least as long in
    the second one. *)
Definition blen_stable {T : Type} (m m' : gmap positive (block T)) : Prop :=
  forall d blk blk',
    m !! d = Some blk -> m' !! d = Some blk' -> blen blk <= blen blk'.

(** An instance without counter has no data, and the instances that share
    a counter share the array. *)
Definition coherent_map (m : gmap positive SharedBuffer) : Prop :=
  (forall o b, m !! o = Some b ->
     SharedBuffer_refcount b = None -> SharedBuffer_data b = None) /\
  (forall o o' b b' r, m !! o = Some b -> m !! o' = Some b' ->
     SharedBuffer_refcount b = Some r -> SharedBuffer_refcount b' = Some r ->
     SharedBuffer_data b = SharedBuffer_data b').

Definition coherent {T : Type} (s : state T) : Prop :=
  coherent_map (shareds s).

(** Some live object of the map has the property [P]. *)
Definition in_use {V : Type} (P : V -> Prop) (m : gmap positive V) : Prop :=
  exists o b, m !! o = Some b /\ P b.

(** The array at [d] is the [data] of a live object; the counter cell at
    [r] is the [refcount] of a live instance. *)
Definition array_in_use {T : Type} (s : state T) (d : addr) : Prop :=
  in_use (fun b => Buffer_data b = Some d) (buffers s) \/
  in_use (fun b => SharedBuffer_data b = Some d) (shareds s).

Definition cell_in_use {T : Type} (s : state T) (r : addr) : Prop :=
  in_use (fun b => SharedBuffer_refcount b = Some r) (shareds s).

(** Nothing is allocated that no live object refers to. *)
Definition no_garbage {T : Type} (s : state T) : Prop :=
  (forall d, is_Some (arrays s !! d) -> array_in_use s d) /\
  (forall r, is_Some (cells s !! r) -> cell_in_use s r).

(** ** Sample states *)

(** The state a run leaves (the state it started from if it does not
    return). *)
Definition after {T : Type} (m : M T unit) (s : state T) : state T :=
  match m s with
  | Ok _ s' => s'
  | _ => s
  end.

(** [Buffer<u8> b(4); SharedBuffer<u8> x(4); SharedBuffer<u8> y(x);] with
    [b] and [x] at address 1 and [y] at address 2. *)
Definition sample : state Byte.byte :=
  after (Buffer_ctor_size 1 4 >>
         SharedBuffer_ctor_size Byte.x00 1 4 >>
         SharedBuffer_ctor_copy false 2 1)
        (initial Byte.byte).

(** [SharedBuffer<u8> x(4);] at address 1, the only holder of its storage. *)
Definition sample_single : state Byte.byte :=
  after (SharedBuffer_ctor_size Byte.x00 1 4) (initial Byte.byte).

(** [SharedBuffer<u8> x(4); SharedBuffer<u8> y;] at addresses 1 and 2. *)
Definition sample_pair : state Byte.byte :=
  after (SharedBuffer_ctor_size Byte.x00 1 4 >> SharedBuffer_ctor 2)
        (initial Byte.byte).

(** [Buffer<u8> b(4294967296);] at address 1: [2^32] bytes. *)
Definition sample_large : state Byte.byte :=
  after (Buffer_ctor_size 1 4294967296) (initial Byte.byte).

(** [Buffer<u8> b(4); b.shrinkSize(0);] at address 1. *)
Definition sample_shrunk (NDEBUG : bool) : state Byte.byte :=
  after (Buffer_ctor_size 1 4 >> Buffer_shrinkSize NDEBUG 1 0)
        (initial Byte.byte).

(** [Buffer<u8> a(2); a[0] = 'A'; a[1] = 'B'; Buffer<u8> b(3);] with [a] at
    address 1 and [b] at address 2. *)
Definition sample_buffers : state Byte.byte :=
  after (Buffer_ctor_size 1 2 >>
         Buffer_at_put 1 0 Byte.x41 >>
         Buffer_at_put 1 1 Byte.x42 >>
         Buffer_ctor_size 2 3)
        (initial Byte.byte).

(** The objects of [sample], destroyed one after the other. *)
Definition sample_destroyed : state Byte.byte :=
  after (Buffer_dtor 1 >> SharedBuffer_dtor false 1 >> SharedBuffer_dtor false 2)
        sample.

(** A corrupted state: the [SharedBuffer] at address 1 has three elements
    and no counter. *)
Definition sample_corrupted : state Byte.byte :=
  State {[ 1%positive := Block 3 (fun _ => Some Byte.x00) ]} ∅ ∅
        {[ 1%positive := mkSharedBuffer (Some 1%positive) 3 None;
           2%positive := SharedBuffer_default ]}.

(** [SharedBuffer<T> x(1);] at address 1 and [n] copies of it,
    [SharedBuffer<T> y(x);], at the addresses 2, ..., [n + 1]: the members
    of each instance, the instances, and the state, in which the counter has
    been incremented [n] times. *)
Definition crowd_member : SharedBuffer :=
  mkSharedBuffer (Some 1%positive) 1 (Some 1%positive).

Definition crowd_instances (n : N) : gmap positive SharedBuffer :=
  N.peano_rect (fun _ => gmap positive SharedBuffer)
    {[ 1%positive := crowd_member ]}
    (fun k m => <[N.succ_pos (N.succ k) := crowd_member]> m)
    n.

Definition crowd {T : Type} (zero : T) (n : N) : state T :=
  State {[ 1%positive :=
             Block 1 (fun i => if below 1 i then Some zero else None) ]}
        {[ 1%positive := Some (to_u32 (1 + Z.of_N n)) ]}
        ∅
        (crowd_instances n).

(** * Part II: properties *)

(** ** Machine integers *)

Lemma to_u32_small z : 0 <= z < U32_MOD -> to_u32 z = z.
Proof. intros H. unfold to_u32. now apply Z.mod_small. Qed.

Lemma to_u32_range z : 0 <= to_u32 z < U32_MOD.
Proof. unfold to_u32, U32_MOD. apply Z.mod_pos_bound. lia. Qed.

Lemma to_u32_succ z : to_u32 (to_u32 z + 1) = to_u32 (z + 1).
Proof. unfold to_u32. now rewrite Zplus_mod_idemp_l. Qed.

Lemma to_u32_pred z : to_u32 (to_u32 z - 1) = to_u32 (z - 1).
Proof. unfold to_u32. now rewrite Zminus_mod_idemp_l. Qed.

(** ** IntrusiveReferenceCounted *)

Lemma times_succ op n w :
  times op (N.succ n) w =
  match times op n w with Some w' => op w' | None => None end.
Proof. unfold times. now rewrite N.iter_succ. Qed.

Lemma times_None op n : times op n None = None.
Proof.
  induction n as [|n IH] using N.peano_ind; [reflexivity|].
  now rewrite times_succ, IH.
Qed.

(** [n] acquisitions add [n] to the counter, modulo [2^32]. *)
Lemma times_grab n c d :
  times grab n (Some (Intrusive (Some (to_u32 c)) d)) =
  Some (Intrusive (Some (to_u32 (c + Z.of_N n))) d).
Proof.
  induction n as [|n IH] using N.peano_ind.
  - cbn. now rewrite Z.add_0_r.
  - rewrite times_succ, IH. unfold grab; cbn [m_refcount deletions].
    rewrite to_u32_succ.
    now replace (c + Z.of_N n + 1) with (c + Z.of_N (N.succ n)) by lia.
Qed.

(** Releases that do not bring the counter to zero leave the object alive. *)
Lemma times_drop_live k c d :
  (forall j, 0 < j <= Z.of_N k -> to_u32 (c - j) <> 0) ->
  times drop k (Some (Intrusive (Some (to_u32 c)) d)) =
  Some (Intrusive (Some (to_u32 (c - Z.of_N k))) d).
Proof.
  induction k as [|k IH] using N.peano_ind; intros Hnz.
  - cbn. now rewrite Z.sub_0_r.
  - rewrite times_succ, IH by (intros j Hj; apply Hnz; lia).
    unfold drop; cbn [m_refcount deletions]. rewrite to_u32_pred.
    replace (c - Z.of_N k - 1) with (c - Z.of_N (N.succ k)) by lia.
    destruct (Z.eqb_spec (to_u32 (c - Z.of_N (N.succ k))) 0) as [E|E];
      [|reflexivity].
    exfalso. apply (Hnz (Z.of_N (N.succ k))); [lia|exact E].
Qed.

(** The release that brings the counter to zero deletes the object. *)
Lemma drop_last c d :
  to_u32 (c - 1) = 0 ->
  drop (Intrusive (Some (to_u32 c)) d) = Some (Intrusive None (d + 1)).
Proof.
  intros E. unfold drop; cbn [m_refcount deletions].
  now rewrite to_u32_pred, E.
Qed.

Lemma times_succ_r op n w :
  times op (N.succ n) w =
  times op n (match w with Some w' => op w' | None => None end).
Proof. unfold times. now rewrite N.iter_succ_r. Qed.

(** A call on a deleted object is undefined, and so is all that follows. *)
Lemma times_deleted m d :
  times drop (N.succ m) (Some (Intrusive None d)) = None.
Proof.
  induction m as [|m IH] using N.peano_ind; [reflexivity|].
  now rewrite times_succ, IH.
Qed.

Lemma grabbed n :
  times grab n (Some IntrusiveReferenceCounted_new) =
  Some (Intrusive (Some (to_u32 (1 + Z.of_N n))) 0).
Proof.
  unfold IntrusiveReferenceCounted_new.
  change (Some 1) with (Some (to_u32 1)). apply times_grab.
Qed.

(** C9, amended: the counter starts at 1; for every [n < 2^32], after [n]
    calls of [grab] the first [n] calls of [drop] leave the object alive and
    undeleted (after the [n]-th the counter is back at 1), and the
    [n+1]-st call of [drop], whose decrement reaches zero, deletes it: one
    deletion in all. *)
Theorem intrusive_grab_drop (n : N) :
  Z.of_N n < U32_MOD ->
  m_refcount IntrusiveReferenceCounted_new = Some 1 /\
  (forall k, (k <= n)%N ->
     times drop k (times grab n (Some IntrusiveReferenceCounted_new)) =
     Some (Intrusive (Some (to_u32 (1 + Z.of_N n - Z.of_N k))) 0)) /\
  times drop n (times grab n (Some IntrusiveReferenceCounted_new)) =
    Some (Intrusive (Some 1) 0) /\
  times drop (N.succ n) (times grab n (Some IntrusiveReferenceCounted_new)) =
    Some (Intrusive None 1).
Proof.
  intros Hn.
  assert (Hlive : forall k, (k <= n)%N ->
     times drop k (times grab n (Some IntrusiveReferenceCounted_new)) =
     Some (Intrusive (Some (to_u32 (1 + Z.of_N n - Z.of_N k))) 0)).
  { intros k Hk. rewrite grabbed. apply times_drop_live.
    intros j Hj. rewrite to_u32_small; unfold U32_MOD in *; lia. }
  assert (Hn1 : times drop n (times grab n (Some IntrusiveReferenceCounted_new)) =
                Some (Intrusive (Some (to_u32 1)) 0)).
  { rewrite (Hlive n) by lia.
    now replace (1 + Z.of_N n - Z.of_N n) with 1 by lia. }
  split; [reflexivity|]. split; [exact Hlive|]. split; [exact Hn1|].
  rewrite times_succ, Hn1. now apply drop_last.
Qed.

Lemma intrusive_grab_drop_witness :
  times drop 2 (times grab 2 (Some IntrusiveReferenceCounted_new)) =
    Some (Intrusive (Some 1) 0) /\
  times drop 3 (times grab 2 (Some IntrusiveReferenceCounted_new)) =
    Some (Intrusive None 1).
Proof.
  pose proof (intrusive_grab_drop 2 ltac:(reflexivity)) as (_ & _ & H2 & H3).
  split; [exact H2 | exact H3].
Defined.

(** After [2^32] calls of [grab] the [u32] counter has wrapped around to its
    initial value 1: the first call of [drop] deletes the object with [2^32]
    references outstanding, and the calls of [drop] that follow act on a
    deleted object. *)
Lemma intrusive_counter_wraps :
  times drop 1 (times grab 4294967296 (Some IntrusiveReferenceCounted_new)) =
    Some (Intrusive None 1) /\
  times drop 4294967296
    (times grab 4294967296 (Some IntrusiveReferenceCounted_new)) = None.
Proof.
  rewrite grabbed. split; [reflexivity|].
  change 4294967296%N with (N.succ (N.succ 4294967294)).
  rewrite times_succ_r. apply times_deleted.
Qed.

(** ** Running the model *)

(** Unfold the members down to the store and the object maps. *)
Ltac unfold_members :=
  cbv beta iota zeta delta
    [bind ret assert new_array delete_array new_u32 delete_u32 load_u32
     store_u32 memcpy memset load_elem store_elem
     Buffer_get Buffer_put Buffer_get_data Buffer_get_m_size Buffer_set_data
     Buffer_set_m_size Buffer_begin Buffer_end Buffer_ctor Buffer_ctor_size
     Buffer_ctor_move Buffer_ctor_span Buffer_drop Buffer_dtor Buffer_assign
     Buffer_copyTo Buffer_at Buffer_at_put Buffer_deref Buffer_getSize
     Buffer_shrinkSize
     SharedBuffer_get SharedBuffer_put SharedBuffer_get_data
     SharedBuffer_get_m_size SharedBuffer_get_refcount SharedBuffer_set_data
     SharedBuffer_set_m_size SharedBuffer_set_refcount SharedBuffer_begin
     SharedBuffer_end SharedBuffer_ctor SharedBuffer_ctor_size
     SharedBuffer_ctor_copy SharedBuffer_ctor_move SharedBuffer_drop
     SharedBuffer_assign SharedBuffer_assign_rvalue SharedBuffer_ctor_span
     SharedBuffer_ctor_Buffer SharedBuffer_dtor SharedBuffer_at
     SharedBuffer_at_put SharedBuffer_deref SharedBuffer_getSize
     SharedBuffer_shrinkSize SharedBuffer_operator_Buffer
     SharedBuffer_default exec];
  cbn [arrays cells buffers shareds Buffer_data Buffer_m_size
       SharedBuffer_data SharedBuffer_m_size SharedBuffer_refcount
       blen bval nonnull negb andb orb].

Ltac unfold_members_in H :=
  cbv beta iota zeta delta
    [bind ret assert new_array delete_array new_u32 delete_u32 load_u32
     store_u32 memcpy memset load_elem store_elem
     Buffer_get Buffer_put Buffer_get_data Buffer_get_m_size Buffer_set_data
     Buffer_set_m_size Buffer_begin Buffer_end Buffer_ctor Buffer_ctor_size
     Buffer_ctor_move Buffer_ctor_span Buffer_drop Buffer_dtor Buffer_assign
     Buffer_copyTo Buffer_at Buffer_at_put Buffer_deref Buffer_getSize
     Buffer_shrinkSize
     SharedBuffer_get SharedBuffer_put SharedBuffer_get_data
     SharedBuffer_get_m_size SharedBuffer_get_refcount SharedBuffer_set_data
     SharedBuffer_set_m_size SharedBuffer_set_refcount SharedBuffer_begin
     SharedBuffer_end SharedBuffer_ctor SharedBuffer_ctor_size
     SharedBuffer_ctor_copy SharedBuffer_ctor_move SharedBuffer_drop
     SharedBuffer_assign SharedBuffer_assign_rvalue SharedBuffer_ctor_span
     SharedBuffer_ctor_Buffer SharedBuffer_dtor SharedBuffer_at
     SharedBuffer_at_put SharedBuffer_deref SharedBuffer_getSize
     SharedBuffer_shrinkSize SharedBuffer_operator_Buffer
     SharedBuffer_default exec] in H;
  cbn [arrays cells buffers shareds Buffer_data Buffer_m_size
       SharedBuffer_data SharedBuffer_m_size SharedBuffer_refcount
       blen bval nonnull negb andb orb] in H.

Lemma lookup_fresh {A} (m : gmap positive A) : m !! fresh (dom m) = None.
Proof. apply not_elem_of_dom, is_fresh. Qed.

(** One step of a run in the goal: resolve the next lookup or test from the
    hypotheses. *)
Ltac run_step :=
  match goal with
  | H : ?m !! ?k = _ |- context [?m !! ?k] => rewrite H
  | |- context [?m !! fresh (dom ?m)] => rewrite (lookup_fresh m)
  | |- context [<[?i := _]> _ !! ?i] => rewrite lookup_insert_eq
  | |- context [<[?i := _]> _ !! ?j] =>
      rewrite (lookup_insert_ne _ i j) by congruence
  | |- context [delete ?i _ !! ?i] => rewrite lookup_delete_eq
  | |- context [delete ?i _ !! ?j] =>
      rewrite (lookup_delete_ne _ i j) by congruence
  | |- context [Pos.eqb ?a ?a] => rewrite Pos.eqb_refl
  | |- context [Pos.eqb ?a ?b] =>
      destruct (Pos.eqb_spec a b); [try congruence | try congruence]
  | |- context [Z.eqb ?a ?b] =>
      destruct (Z.eqb_spec a b); [try lia | try lia]
  | |- context [Z.leb ?a ?b] =>
      destruct (Z.leb_spec a b); [try lia | try lia]
  | |- context [Z.ltb ?a ?b] =>
      destruct (Z.ltb_spec a b); [try lia | try lia]
  end; unfold_members.

Ltac run := unfold_members; repeat run_step.

(** One step of a run in a hypothesis [H : m s = Ok a s']: split on the next
    lookup or test. *)
Ltac invert_step H :=
  match type of H with
  | Ok _ _ = Ok _ _ => injection H; clear H; intros
  | AssertionFailed = Ok _ _ => discriminate H
  | Undefined = Ok _ _ => discriminate H
  | context [?m !! fresh (dom ?m)] => rewrite (lookup_fresh m) in H
  | context [<[?i := _]> _ !! ?i] => rewrite lookup_insert_eq in H
  | context [<[?i := _]> _ !! ?j] =>
      rewrite (lookup_insert_ne _ i j) in H by congruence
  | context [delete ?i _ !! ?i] => rewrite lookup_delete_eq in H
  | context [delete ?i _ !! ?j] =>
      rewrite (lookup_delete_ne _ i j) in H by congruence
  | context [Pos.eqb ?a ?a] => rewrite Pos.eqb_refl in H
  | context [Pos.eqb ?a ?b] => destruct (Pos.eqb_spec a b)
  | context [Z.eqb ?a ?b] => destruct (Z.eqb_spec a b)
  | context [Z.leb ?a ?b] => destruct (Z.leb_spec a b)
  | context [Z.ltb ?a ?b] => destruct (Z.ltb_spec a b)
  | context [<[?i := _]> _ !! ?j] => destruct (decide (i = j))
  | context [delete ?i _ !! ?j] => destruct (decide (i = j))
  | context [match ?m !! ?k with _ => _ end] =>
      let E := fresh "E" in destruct (m !! k) eqn:E
  | context [match ?x with Some _ => _ | None => _ end] =>
      let E := fresh "E" in destruct x eqn:E
  | context [if ?c then _ else _] =>
      let E := fresh "E" in destruct c eqn:E
  end; simplify_eq; try unfold_members_in H.

Ltac invert_run H := unfold_members_in H; repeat invert_step H.

(** A closed run: compute the state it leaves and read the facts off it. *)
Ltac by_running :=
  match goal with
  | |- exists s', ?m ?s = Ok tt s' /\ _ => exists (after m s)
  end;
  repeat split; vm_compute; first [reflexivity | eexists; reflexivity].

(** ** shrinkSize *)

Lemma Buffer_shrinkSize_ok {T} NDEBUG (s : state T) this b new_size :
  buffers s !! this = Some b ->
  new_size <= Buffer_m_size b ->
  Buffer_shrinkSize NDEBUG this new_size s =
  Ok tt (State (arrays s) (cells s)
               (<[this := mkBuffer (Buffer_data b) new_size]> (buffers s))
               (shareds s)).
Proof. intros Hb Hle. destruct NDEBUG; run; reflexivity. Qed.

Lemma Buffer_shrinkSize_larger {T} (s : state T) this b new_size :
  buffers s !! this = Some b ->
  Buffer_m_size b < new_size ->
  Buffer_shrinkSize false this new_size s = AssertionFailed /\
  Buffer_shrinkSize true this new_size s = Ok tt s.
Proof. intros Hb Hlt. split; run; reflexivity. Qed.

Lemma SharedBuffer_shrinkSize_ok {T} NDEBUG (s : state T) this b new_size :
  shareds s !! this = Some b ->
  SharedBuffer_m_size b < U32_MOD ->
  0 <= new_size <= SharedBuffer_m_size b ->
  SharedBuffer_shrinkSize NDEBUG this new_size s =
  Ok tt (State (arrays s) (cells s) (buffers s)
               (<[this := mkSharedBuffer (SharedBuffer_data b) new_size
                                         (SharedBuffer_refcount b)]>
                  (shareds s))).
Proof.
  intros Hb Hu Hle. destruct NDEBUG; run; rewrite to_u32_small by lia;
    reflexivity.
Qed.

Lemma SharedBuffer_shrinkSize_larger {T} (s : state T) this b new_size :
  shareds s !! this = Some b ->
  SharedBuffer_m_size b < new_size ->
  SharedBuffer_shrinkSize false this new_size s = AssertionFailed /\
  SharedBuffer_shrinkSize true this new_size s = Ok tt s.
Proof. intros Hb Hlt. split; run; reflexivity. Qed.

(** C7: for both classes, [shrinkSize(new_size)] with [new_size] at most the
    current size returns with the logical size set to [new_size], the same
    [data] pointer and the store untouched (no reallocation, the tail is left
    as it is); with [new_size] above the current size it fails its assertion
    in a debug build, and with assertions compiled out it returns and leaves
    the state, hence the size, unchanged. *)
Theorem shrinkSize_contract {T} (s : state T) (this : obj) (new_size : Z) :
  is_size_t new_size ->
  (forall b, buffers s !! this = Some b ->
     (new_size <= Buffer_m_size b ->
      forall NDEBUG,
        Buffer_shrinkSize NDEBUG this new_size s =
        Ok tt (State (arrays s) (cells s)
                 (<[this := mkBuffer (Buffer_data b) new_size]> (buffers s))
                 (shareds s))) /\
     (Buffer_m_size b < new_size ->
        Buffer_shrinkSize false this new_size s = AssertionFailed /\
        Buffer_shrinkSize true this new_size s = Ok tt s)) /\
  (forall b, shareds s !! this = Some b ->
     SharedBuffer_m_size b < U32_MOD ->
     (new_size <= SharedBuffer_m_size b ->
      forall NDEBUG,
        SharedBuffer_shrinkSize NDEBUG this new_size s =
        Ok tt (State (arrays s) (cells s) (buffers s)
                 (<[this := mkSharedBuffer (SharedBuffer_data b) new_size
                                           (SharedBuffer_refcount b)]>
                    (shareds s)))) /\
     (SharedBuffer_m_size b < new_size ->
        SharedBuffer_shrinkSize false this new_size s = AssertionFailed /\
        SharedBuffer_shrinkSize true this new_size s = Ok tt s)).
Proof.
  intros [Hlo _]. split.
  - intros b Hb. split.
    + intros Hle NDEBUG. now apply Buffer_shrinkSize_ok.
    + intros Hlt. now apply Buffer_shrinkSize_larger with b.
  - intros b Hb Hu. split.
    + intros Hle NDEBUG. now apply SharedBuffer_shrinkSize_ok.
    + intros Hlt. now apply SharedBuffer_shrinkSize_larger with b.
Qed.

Lemma shrinkSize_contract_witness :
  is_size_t 2 /\
  Buffer_shrinkSize false 1 2 sample =
    Ok tt (State (arrays sample) (cells sample)
             (<[1%positive := mkBuffer (Some 1%positive) 2]> (buffers sample))
             (shareds sample)) /\
  SharedBuffer_shrinkSize false 1 2 sample =
    Ok tt (State (arrays sample) (cells sample) (buffers sample)
             (<[1%positive :=
                  mkSharedBuffer (Some 2%positive) 2 (Some 1%positive)]>
                (shareds sample))).
Proof.
  assert (Hs : is_size_t 2) by (unfold is_size_t, SIZE_MOD; lia).
  split; [exact Hs|].
  destruct (shrinkSize_contract sample 1 2 Hs) as [HB HS]. split.
  - apply (HB (mkBuffer (Some 1%positive) 4)); [reflexivity | simpl; lia].
  - apply (HS (mkSharedBuffer (Some 2%positive) 4 (Some 1%positive)));
      [reflexivity | simpl; unfold U32_MOD; lia | simpl; lia].
Defined.

(** ** Buffer: moves *)

Lemma Buffer_ctor_move_nonempty {T} (s : state T) this buffer b :
  buffers s !! buffer = Some b ->
  buffers s !! this = None ->
  Buffer_m_size b <> 0 ->
  Buffer_ctor_move this buffer s =
  Ok tt (State (arrays s) (cells s)
               (<[buffer := mkBuffer None 0]> (<[this := b]> (buffers s)))
               (shareds s)).
Proof.
  intros Hb Ht Hn. destruct b as [d n]; simpl in *.
  assert (this <> buffer) by congruence.
  run. rewrite !insert_insert_eq. reflexivity.
Qed.

Lemma Buffer_ctor_move_empty {T} (s : state T) this buffer b :
  buffers s !! buffer = Some b ->
  buffers s !! this = None ->
  Buffer_m_size b = 0 ->
  Buffer_ctor_move this buffer s =
  Ok tt (State (arrays s) (cells s)
               (<[this := mkBuffer None 0]> (buffers s))
               (shareds s)).
Proof.
  intros Hb Ht Hn. destruct b as [d n]; simpl in *. subst n.
  assert (this <> buffer) by congruence.
  run. rewrite !insert_insert_eq. reflexivity.
Qed.

Lemma Buffer_dtor_ok {T} (s : state T) this b :
  buffers s !! this = Some b ->
  deletable (Buffer_data b) (arrays s) ->
  Buffer_dtor this s =
  Ok tt (State (free_array (Buffer_data b) (arrays s)) (cells s)
               (delete this (buffers s)) (shareds s)).
Proof.
  intros Hb Hd. destruct b as [[a|] n]; simpl in *.
  - destruct Hd as [blk Hblk]. run. reflexivity.
  - run. reflexivity.
Qed.

Lemma Buffer_assign_self {T} (s : state T) this b :
  buffers s !! this = Some b ->
  Buffer_assign this this s = Ok tt s.
Proof. intros Hb. run. reflexivity. Qed.

Lemma Buffer_assign_nonempty {T} (s : state T) this buffer bt b :
  this <> buffer ->
  buffers s !! this = Some bt ->
  buffers s !! buffer = Some b ->
  deletable (Buffer_data bt) (arrays s) ->
  Buffer_m_size b <> 0 ->
  Buffer_assign this buffer s =
  Ok tt (State (free_array (Buffer_data bt) (arrays s)) (cells s)
               (<[buffer := mkBuffer None 0]> (<[this := b]> (buffers s)))
               (shareds s)).
Proof.
  intros Hne Ht Hb Hd Hn. destruct b as [d n], bt as [[a|] m]; simpl in *.
  - destruct Hd as [blk Hblk]. run. rewrite !insert_insert_eq. reflexivity.
  - run. rewrite !insert_insert_eq. reflexivity.
Qed.

Lemma Buffer_assign_empty {T} (s : state T) this buffer bt b :
  this <> buffer ->
  buffers s !! this = Some bt ->
  buffers s !! buffer = Some b ->
  deletable (Buffer_data bt) (arrays s) ->
  Buffer_m_size b = 0 ->
  Buffer_assign this buffer s =
  Ok tt (State (free_array (Buffer_data bt) (arrays s)) (cells s)
               (<[this := mkBuffer None 0]> (buffers s))
               (shareds s)).
Proof.
  intros Hne Ht Hb Hd Hn. destruct b as [d n], bt as [[a|] m]; simpl in *;
    subst n.
  - destruct Hd as [blk Hblk]. run. rewrite !insert_insert_eq. reflexivity.
  - run. rewrite !insert_insert_eq. reflexivity.
Qed.

Lemma Buffer_ctor_move_ok {T} (s : state T) this buffer b :
  buffers s !! buffer = Some b ->
  buffers s !! this = None ->
  Buffer_ctor_move this buffer s =
  Ok tt (State (arrays s) (cells s)
               (<[buffer := Buffer_moved_from b]>
                  (<[this := Buffer_moved_to b]> (buffers s)))
               (shareds s)).
Proof.
  intros Hb Ht. assert (this <> buffer) by congruence.
  unfold Buffer_moved_from, Buffer_moved_to.
  destruct (Z.eqb_spec (Buffer_m_size b) 0) as [E|E].
  - rewrite (Buffer_ctor_move_empty s this buffer b) by assumption.
    rewrite (insert_id (<[this:=_]> _) buffer b); [reflexivity|].
    now rewrite lookup_insert_ne.
  - now apply Buffer_ctor_move_nonempty.
Qed.

Lemma Buffer_assign_ok {T} (s : state T) this buffer bt b :
  this <> buffer ->
  buffers s !! this = Some bt ->
  buffers s !! buffer = Some b ->
  deletable (Buffer_data bt) (arrays s) ->
  Buffer_assign this buffer s =
  Ok tt (State (free_array (Buffer_data bt) (arrays s)) (cells s)
               (<[buffer := Buffer_moved_from b]>
                  (<[this := Buffer_moved_to b]> (buffers s)))
               (shareds s)).
Proof.
  intros Hne Ht Hb Hd.
  unfold Buffer_moved_from, Buffer_moved_to.
  destruct (Z.eqb_spec (Buffer_m_size b) 0) as [E|E].
  - rewrite (Buffer_assign_empty s this buffer bt b) by assumption.
    rewrite (insert_id (<[this:=_]> _) buffer b); [reflexivity|].
    now rewrite lookup_insert_ne.
  - now apply Buffer_assign_nonempty.
Qed.

Lemma deletable_free_array {T} (p q : ptr) (m : gmap positive (block T)) :
  deletable p m -> q = None \/ q <> p -> deletable p (free_array q m).
Proof.
  intros Hp Hq. destruct q as [a|]; [|exact Hp].
  destruct Hq as [Hq|Hq]; [discriminate|].
  destruct p as [d|]; [|exact I]. simpl in *.
  rewrite lookup_delete_ne by congruence. exact Hp.
Qed.

Lemma lookup_free_array_ne {T} (q : ptr) (m : gmap positive (block T)) d :
  q <> Some d -> free_array q m !! d = m !! d.
Proof.
  intros Hq. destruct q as [a|]; [|reflexivity]. simpl.
  apply lookup_delete_ne. congruence.
Qed.

(** C6, amended: a move (by construction or by assignment) gives the
    destination the source's size, and leaves the source with size 0.  When
    the source's size was not 0 the destination takes over its [data] and
    the source is left with no data; a source of size 0 keeps its [data]
    pointer as it is (it may still hold storage, after [shrinkSize(0)]) and
    the destination gets none.  The storage the destination holds keeps its
    contents through the move and through the destruction of the source
    that follows.  A move assignment of a buffer to itself changes
    nothing. *)
Theorem Buffer_move_contract {T} (s : state T) (this buffer : obj) (b : Buffer) :
  buffers s !! buffer = Some b ->
  this <> buffer ->
  deletable (Buffer_data b) (arrays s) ->
  (Buffer_m_size (Buffer_moved_from b) = 0 /\
   Buffer_m_size (Buffer_moved_to b) = Buffer_m_size b /\
   (Buffer_m_size b <> 0 ->
    Buffer_data (Buffer_moved_from b) = None /\ Buffer_moved_to b = b) /\
   (Buffer_m_size b = 0 ->
    Buffer_moved_from b = b /\ Buffer_data (Buffer_moved_to b) = None)) /\
  (buffers s !! this = None ->
   Buffer_ctor_move this buffer s =
     Ok tt (State (arrays s) (cells s)
              (<[buffer := Buffer_moved_from b]>
                 (<[this := Buffer_moved_to b]> (buffers s)))
              (shareds s)) /\
   (Buffer_ctor_move this buffer >> Buffer_dtor buffer) s =
     Ok tt (State (free_array (Buffer_data (Buffer_moved_from b)) (arrays s))
              (cells s)
              (delete buffer (<[this := Buffer_moved_to b]> (buffers s)))
              (shareds s)) /\
   (forall d, Buffer_data (Buffer_moved_to b) = Some d ->
      free_array (Buffer_data (Buffer_moved_from b)) (arrays s) !! d =
      arrays s !! d)) /\
  (forall bt, buffers s !! this = Some bt ->
   deletable (Buffer_data bt) (arrays s) ->
   Buffer_data bt = None \/ Buffer_data bt <> Buffer_data b ->
   Buffer_assign this buffer s =
     Ok tt (State (free_array (Buffer_data bt) (arrays s)) (cells s)
              (<[buffer := Buffer_moved_from b]>
                 (<[this := Buffer_moved_to b]> (buffers s)))
              (shareds s)) /\
   (Buffer_assign this buffer >> Buffer_dtor buffer) s =
     Ok tt (State (free_array (Buffer_data (Buffer_moved_from b))
                     (free_array (Buffer_data bt) (arrays s)))
              (cells s)
              (delete buffer (<[this := Buffer_moved_to b]> (buffers s)))
              (shareds s)) /\
   (forall d, Buffer_data (Buffer_moved_to b) = Some d ->
      free_array (Buffer_data (Buffer_moved_from b))
        (free_array (Buffer_data bt) (arrays s)) !! d =
      arrays s !! d)) /\
  Buffer_assign buffer buffer s = Ok tt s.
Proof.
  intros Hb Hne Hdel.
  assert (Hfrom : Buffer_data (Buffer_moved_from b) = None \/
                  Buffer_moved_from b = b /\
                  Buffer_data (Buffer_moved_to b) = None).
  { unfold Buffer_moved_from, Buffer_moved_to.
    destruct (Z.eqb_spec (Buffer_m_size b) 0); [right|left]; easy. }
  assert (Hdel' : deletable (Buffer_data (Buffer_moved_from b)) (arrays s)).
  { destruct Hfrom as [-> | [-> _]]; [exact I | exact Hdel]. }
  assert (Hkeep : forall (m : gmap positive (block T)) d,
            Buffer_data (Buffer_moved_to b) = Some d ->
            free_array (Buffer_data (Buffer_moved_from b)) m !! d = m !! d).
  { intros m d Hd. destruct Hfrom as [-> | [_ E]]; [reflexivity|congruence]. }
  split; [|split; [|split]].
  - unfold Buffer_moved_from, Buffer_moved_to.
    destruct (Z.eqb_spec (Buffer_m_size b) 0) as [E|E]; simpl;
      repeat split; try easy; try congruence.
  - intros Ht. pose proof (Buffer_ctor_move_ok s this buffer b Hb Ht) as Hmove.
    split; [exact Hmove|]. split; [|now apply Hkeep].
    unfold bind. rewrite Hmove.
    erewrite Buffer_dtor_ok; [| apply lookup_insert_eq | exact Hdel'].
    cbn [arrays cells buffers shareds]. now rewrite delete_insert_eq.
  - intros bt Ht Hdt Hdisj.
    pose proof (Buffer_assign_ok s this buffer bt b Hne Ht Hb Hdt) as Hmove.
    split; [exact Hmove|]. split.
    + unfold bind. rewrite Hmove.
      erewrite Buffer_dtor_ok; [| apply lookup_insert_eq |].
      * cbn [arrays cells buffers shareds]. now rewrite delete_insert_eq.
      * cbn [arrays]. destruct Hfrom as [-> | [-> _]]; [exact I|].
        now apply deletable_free_array.
    + intros d Hd. rewrite Hkeep by exact Hd.
      apply lookup_free_array_ne.
      destruct Hfrom as [E | [_ E]]; [|congruence].
      unfold Buffer_moved_from, Buffer_moved_to in *.
      destruct (Z.eqb_spec (Buffer_m_size b) 0); [simpl in Hd; congruence|].
      destruct Hdisj as [-> | Hdisj]; congruence.
  - now apply Buffer_assign_self with b.
Qed.

Lemma Buffer_move_contract_witness :
  Buffer_ctor_move 2 1 sample =
    Ok tt (State (arrays sample) (cells sample)
             (<[1%positive := mkBuffer None 0]>
                (<[2%positive := mkBuffer (Some 1%positive) 4]>
                   (buffers sample)))
             (shareds sample)) /\
  Buffer_assign 1 1 sample = Ok tt sample.
Proof.
  assert (H1 : buffers sample !! 1%positive = Some (mkBuffer (Some 1%positive) 4))
    by reflexivity.
  assert (H2 : 2%positive <> 1%positive) by discriminate.
  assert (H3 : deletable (Buffer_data (mkBuffer (Some 1%positive) 4))
                 (arrays sample)) by (eexists; reflexivity).
  destruct (Buffer_move_contract sample 2 1 _ H1 H2 H3) as (_ & Hc & _ & Hs).
  split; [|exact Hs].
  apply Hc. reflexivity.
Defined.

(** [Buffer<u8> b(4); b.shrinkSize(0); Buffer<u8> c(std::move(b));] leaves
    the source [b] with size 0 and with its storage still in [data]; so does
    [c = std::move(b)] for a [c] that exists already. *)
Lemma Buffer_moved_from_keeps_data :
  buffers (sample_shrunk false) !! 1%positive =
    Some (mkBuffer (Some 1%positive) 0) /\
  (exists s', Buffer_ctor_move 2 1 (sample_shrunk false) = Ok tt s' /\
     buffers s' !! 1%positive = Some (mkBuffer (Some 1%positive) 0) /\
     buffers s' !! 2%positive = Some (mkBuffer None 0) /\
     is_Some (arrays s' !! 1%positive)) /\
  (exists s', (Buffer_ctor 2 >> Buffer_assign 2 1) (sample_shrunk false) =
              Ok tt s' /\
     buffers s' !! 1%positive = Some (mkBuffer (Some 1%positive) 0) /\
     buffers s' !! 2%positive = Some (mkBuffer None 0) /\
     is_Some (arrays s' !! 1%positive)).
Proof.
  split; [reflexivity|]. split.
  - by_running.
  - by_running.
Qed.

(** ** SharedBuffer: drop, copies and moves *)

Lemma SharedBuffer_drop_ok {T} NDEBUG (s : state T) this b :
  shareds s !! this = Some b ->
  SharedBuffer_releasable NDEBUG b s ->
  SharedBuffer_drop NDEBUG this s = Ok tt (SharedBuffer_released b s).
Proof.
  intros Hb Hrel. unfold SharedBuffer_releasable, SharedBuffer_released in *.
  destruct b as [d n [r|]]; cbn [SharedBuffer_refcount SharedBuffer_data] in *;
    [|run; reflexivity].
  destruct Hrel as (v & Hv & Hpos & Hdel). rewrite Hv.
  assert (Hpos' : NDEBUG = true \/ NDEBUG = false /\ 0 < v).
  { destruct NDEBUG; [now left|right]. destruct Hpos; easy. }
  destruct (Z.eqb_spec (to_u32 (v - 1)) 0) as [E|E].
  - destruct d as [a|]; cbn [free_array].
    + destruct (Hdel E) as [blk Hblk].
      destruct Hpos' as [-> | [-> Hv0]]; run; now rewrite delete_insert_eq.
    + destruct Hpos' as [-> | [-> Hv0]]; run; now rewrite delete_insert_eq.
  - destruct Hpos' as [-> | [-> Hv0]]; run; reflexivity.
Qed.

(** With assertions checked, [drop] on a counter that is not positive
    aborts. *)
Lemma SharedBuffer_drop_underflow {T} (s : state T) this b r v :
  shareds s !! this = Some b ->
  SharedBuffer_refcount b = Some r ->
  cells s !! r = Some (Some v) ->
  v <= 0 ->
  SharedBuffer_drop false this s = AssertionFailed.
Proof.
  intros Hb Hr Hv Hle. destruct b as [d n r']; simpl in Hr; subst r'.
  run. reflexivity.
Qed.

Lemma SharedBuffer_dtor_ok {T} NDEBUG (s : state T) this b :
  shareds s !! this = Some b ->
  SharedBuffer_releasable NDEBUG b s ->
  SharedBuffer_dtor NDEBUG this s =
  Ok tt (State (arrays (SharedBuffer_released b s))
               (cells (SharedBuffer_released b s))
               (buffers s) (delete this (shareds s))).
Proof.
  intros Hb Hrel. unfold SharedBuffer_dtor, bind.
  rewrite (SharedBuffer_drop_ok NDEBUG s this b Hb Hrel).
  assert (Hsame : shareds (SharedBuffer_released b s) = shareds s /\
                  buffers (SharedBuffer_released b s) = buffers s).
  { unfold SharedBuffer_released.
    destruct (SharedBuffer_refcount b) as [r|]; [|easy].
    destruct (cells s !! r) as [[v|]|]; try easy.
    now destruct (to_u32 (v - 1) =? 0). }
  destruct Hsame as [Hsh Hbu].
  unfold SharedBuffer_end, SharedBuffer_get, bind.
  rewrite Hsh, Hb. cbv beta iota. now rewrite Hsh, Hbu.
Qed.

Lemma SharedBuffer_dtor_underflow {T} (s : state T) this b r v :
  shareds s !! this = Some b ->
  SharedBuffer_refcount b = Some r ->
  cells s !! r = Some (Some v) ->
  v <= 0 ->
  SharedBuffer_dtor false this s = AssertionFailed.
Proof.
  intros Hb Hr Hv Hle. unfold SharedBuffer_dtor, bind.
  now rewrite (SharedBuffer_drop_underflow s this b r v).
Qed.

Lemma SharedBuffer_ctor_copy_ok {T} NDEBUG (s : state T) this buffer b :
  shareds s !! buffer = Some b ->
  shareds s !! this = None ->
  SharedBuffer_joinable b s ->
  SharedBuffer_ctor_copy NDEBUG this buffer s =
  Ok tt (SharedBuffer_joined this b s).
Proof.
  intros Hb Ht Hj. assert (this <> buffer) by congruence.
  unfold SharedBuffer_joinable, SharedBuffer_joined in *.
  destruct b as [d n [r|]]; cbn [SharedBuffer_refcount] in *.
  - destruct Hj as [v Hv]. rewrite Hv.
    destruct NDEBUG; run; rewrite !insert_insert_eq; reflexivity.
  - destruct NDEBUG; run; rewrite !insert_insert_eq; reflexivity.
Qed.

Lemma SharedBuffer_ctor_move_ok {T} (s : state T) this buffer b :
  shareds s !! buffer = Some b ->
  shareds s !! this = None ->
  SharedBuffer_ctor_move this buffer s =
  Ok tt (State (arrays s) (cells s) (buffers s)
               (<[buffer := SharedBuffer_default]>
                  (<[this := b]> (shareds s)))).
Proof.
  intros Hb Ht. assert (this <> buffer) by congruence.
  destruct b as [d n r]. run. rewrite !insert_insert_eq. reflexivity.
Qed.

Lemma SharedBuffer_assign_self {T} NDEBUG (s : state T) this b :
  shareds s !! this = Some b ->
  SharedBuffer_assign NDEBUG this this s = Ok tt s.
Proof. intros Hb. run. reflexivity. Qed.

Lemma SharedBuffer_released_objects {T} (b : SharedBuffer) (s : state T) :
  shareds (SharedBuffer_released b s) = shareds s /\
  buffers (SharedBuffer_released b s) = buffers s.
Proof.
  unfold SharedBuffer_released.
  destruct (SharedBuffer_refcount b) as [r|]; [|easy].
  destruct (cells s !! r) as [[v|]|]; try easy.
  now destruct (to_u32 (v - 1) =? 0).
Qed.

Lemma SharedBuffer_assign_ok {T} NDEBUG (s : state T) this buffer bt b :
  this <> buffer ->
  shareds s !! this = Some bt ->
  shareds s !! buffer = Some b ->
  SharedBuffer_releasable NDEBUG bt s ->
  SharedBuffer_joinable b (SharedBuffer_released bt s) ->
  SharedBuffer_assign NDEBUG this buffer s =
  Ok tt (SharedBuffer_joined this b (SharedBuffer_released bt s)).
Proof.
  intros Hne Ht Hb Hrel Hj.
  pose proof (SharedBuffer_drop_ok NDEBUG s this bt Ht Hrel) as Hdrop.
  destruct (SharedBuffer_released_objects bt s) as [Hsh _].
  revert Hdrop Hj Hsh. generalize (SharedBuffer_released bt s).
  intros s1 Hdrop Hj Hsh.
  assert (Ht1 : shareds s1 !! this = Some bt) by now rewrite Hsh.
  assert (Hb1 : shareds s1 !! buffer = Some b) by now rewrite Hsh.
  unfold SharedBuffer_assign.
  unfold bind at 1. unfold SharedBuffer_get at 1. rewrite Ht.
  unfold bind at 1. unfold SharedBuffer_get at 1. rewrite Hb.
  rewrite (proj2 (Pos.eqb_neq this buffer) Hne).
  unfold bind at 1. rewrite Hdrop.
  unfold SharedBuffer_joinable, SharedBuffer_joined in *.
  destruct b as [d n [r|]]; cbn [SharedBuffer_refcount] in *.
  - destruct Hj as [v Hv]. rewrite Hv.
    run. rewrite !insert_insert_eq. reflexivity.
  - run. rewrite !insert_insert_eq. reflexivity.
Qed.

(** What [SharedBuffer_joined] says of the new holder, of the other
    instances and of the counter. *)
Lemma SharedBuffer_joined_spec {T} (s : state T) this b :
  shareds (SharedBuffer_joined this b s) !! this = Some b /\
  (forall o, o <> this ->
     shareds (SharedBuffer_joined this b s) !! o = shareds s !! o) /\
  arrays (SharedBuffer_joined this b s) = arrays s /\
  (SharedBuffer_refcount b = None ->
     cells (SharedBuffer_joined this b s) = cells s) /\
  (forall r v, SharedBuffer_refcount b = Some r ->
     cells s !! r = Some (Some v) ->
     cells (SharedBuffer_joined this b s) =
     <[r := Some (to_u32 (v + 1))]> (cells s)).
Proof.
  unfold SharedBuffer_joined; cbn [arrays cells shareds].
  split; [apply lookup_insert_eq|].
  split; [intros o Ho; now apply lookup_insert_ne|].
  split; [reflexivity|]. split.
  - now intros ->.
  - intros r v -> Hv. now rewrite Hv.
Qed.

(** C10: copy-assigning a [SharedBuffer] to itself returns at once and
    leaves the whole state as it was: the size, the data pointer and the
    counter are unchanged and nothing is released, whatever the counter
    holds (also 1, for the last holder). *)
Theorem SharedBuffer_self_assign {T} (NDEBUG : bool) (s : state T)
    (this : obj) (b : SharedBuffer) :
  shareds s !! this = Some b ->
  SharedBuffer_assign NDEBUG this this s = Ok tt s.
Proof. intros Hb. now apply SharedBuffer_assign_self with b. Qed.

Lemma SharedBuffer_self_assign_witness :
  cells sample_single !! 1%positive = Some (Some 1) /\
  SharedBuffer_assign false 1 1 sample_single = Ok tt sample_single.
Proof.
  split; [reflexivity|].
  apply (SharedBuffer_self_assign false sample_single 1
           (mkSharedBuffer (Some 1%positive) 4 (Some 1%positive))).
  reflexivity.
Defined.

(** C1, amended: [shrinkSize(new_size)] with [new_size] at most the current
    size changes the logical size of the instance it is called on, and of
    no other: [m_size] is a member of each instance, so every other holder
    of the same storage keeps the size it had. *)
Theorem shrinkSize_one_instance {T} (NDEBUG : bool) (s : state T)
    (this other : obj) (b b' : SharedBuffer) (new_size : Z) :
  shareds s !! this = Some b ->
  shareds s !! other = Some b' ->
  other <> this ->
  SharedBuffer_m_size b < U32_MOD ->
  0 <= new_size <= SharedBuffer_m_size b ->
  exists s',
    SharedBuffer_shrinkSize NDEBUG this new_size s = Ok tt s' /\
    SharedBuffer_getSize this s' = Ok new_size s' /\
    SharedBuffer_getSize other s' = Ok (SharedBuffer_m_size b') s' /\
    shareds s' !! other = Some b' /\
    arrays s' = arrays s /\ cells s' = cells s.
Proof.
  intros Hb Hb' Hne Hu Hle. eexists. split.
  - exact (SharedBuffer_shrinkSize_ok NDEBUG s this b new_size Hb Hu Hle).
  - repeat split.
    + run. reflexivity.
    + run. reflexivity.
    + cbn. now rewrite lookup_insert_ne.
Qed.

Lemma shrinkSize_one_instance_witness :
  exists s',
    SharedBuffer_shrinkSize false 1 2 sample = Ok tt s' /\
    SharedBuffer_getSize 1 s' = Ok 2 s' /\
    SharedBuffer_getSize 2 s' = Ok 4 s' /\
    shareds s' !! 2%positive =
      Some (mkSharedBuffer (Some 2%positive) 4 (Some 1%positive)) /\
    arrays s' = arrays sample /\ cells s' = cells sample.
Proof.
  apply (shrinkSize_one_instance false sample 1 2
           (mkSharedBuffer (Some 2%positive) 4 (Some 1%positive))
           (mkSharedBuffer (Some 2%positive) 4 (Some 1%positive)) 2).
  - reflexivity.
  - reflexivity.
  - discriminate.
  - reflexivity.
  - simpl; lia.
Defined.

(** Two instances share one array and one counter; [shrinkSize(2)] through
    the first leaves the size seen through the second at 4. *)
Lemma shrinkSize_other_holder_unchanged :
  shareds sample !! 1%positive =
    Some (mkSharedBuffer (Some 2%positive) 4 (Some 1%positive)) /\
  shareds sample !! 2%positive =
    Some (mkSharedBuffer (Some 2%positive) 4 (Some 1%positive)) /\
  cells sample !! 1%positive = Some (Some 2) /\
  exists s',
    SharedBuffer_shrinkSize false 1 2 sample = Ok tt s' /\
    SharedBuffer_getSize 1 s' = Ok 2 s' /\
    SharedBuffer_getSize 2 s' = Ok 4 s'.
Proof.
  repeat split; try reflexivity. by_running.
Qed.

(** C2, amended: move construction transfers the stake: the destination gets
    the source's size, data and counter pointer, the source becomes the empty
    sentinel (size 0, no data, no counter), and the store, hence the counter
    value, is untouched.  The class has no move assignment operator:
    assignment from an rvalue runs the copy assignment, which drops the
    destination's stake, makes the destination one more holder of the
    source's storage (the counter goes up by one) and leaves the source as
    it was. *)
Theorem SharedBuffer_move_contract {T} (NDEBUG : bool) (s : state T)
    (this buffer : obj) (b : SharedBuffer) :
  shareds s !! buffer = Some b ->
  this <> buffer ->
  (shareds s !! this = None ->
   SharedBuffer_ctor_move this buffer s =
   Ok tt (State (arrays s) (cells s) (buffers s)
            (<[buffer := SharedBuffer_default]> (<[this := b]> (shareds s))))) /\
  (forall bt, shareds s !! this = Some bt ->
   SharedBuffer_releasable NDEBUG bt s ->
   SharedBuffer_joinable b (SharedBuffer_released bt s) ->
   exists s',
     SharedBuffer_assign_rvalue NDEBUG this buffer s = Ok tt s' /\
     s' = SharedBuffer_joined this b (SharedBuffer_released bt s) /\
     shareds s' !! this = Some b /\
     shareds s' !! buffer = Some b /\
     (forall r v, SharedBuffer_refcount b = Some r ->
        cells (SharedBuffer_released bt s) !! r = Some (Some v) ->
        cells s' !! r = Some (Some (to_u32 (v + 1))))).
Proof.
  intros Hb Hne. split.
  - intros Ht. now apply SharedBuffer_ctor_move_ok.
  - intros bt Ht Hrel Hj. eexists. split; [|split; [reflexivity|]].
    + unfold SharedBuffer_assign_rvalue.
      exact (SharedBuffer_assign_ok NDEBUG s this buffer bt b Hne Ht Hb Hrel Hj).
    + destruct (SharedBuffer_joined_spec (SharedBuffer_released bt s) this b)
        as (Hthis & Hother & _ & _ & Hcnt).
      split; [exact Hthis|]. split.
      * rewrite Hother by congruence.
        destruct (SharedBuffer_released_objects bt s) as [-> _]. exact Hb.
      * intros r v Hr Hv. rewrite (Hcnt r v Hr Hv). apply lookup_insert_eq.
Qed.

Lemma SharedBuffer_move_contract_witness :
  SharedBuffer_ctor_move 3 1 sample =
    Ok tt (State (arrays sample) (cells sample) (buffers sample)
            (<[1%positive := SharedBuffer_default]>
               (<[3%positive :=
                    mkSharedBuffer (Some 2%positive) 4 (Some 1%positive)]>
                  (shareds sample)))).
Proof.
  apply (SharedBuffer_move_contract false sample 3 1
           (mkSharedBuffer (Some 2%positive) 4 (Some 1%positive))).
  - reflexivity.
  - discriminate.
  - reflexivity.
Defined.

(** [SharedBuffer<u8> x(4), y; y = std::move(x);]: the source [x] keeps its
    size, data and counter, and the counter has gone from 1 to 2. *)
Lemma SharedBuffer_assign_rvalue_copies :
  shareds sample_pair !! 1%positive =
    Some (mkSharedBuffer (Some 1%positive) 4 (Some 1%positive)) /\
  cells sample_pair !! 1%positive = Some (Some 1) /\
  exists s',
    SharedBuffer_assign_rvalue false 2 1 sample_pair = Ok tt s' /\
    shareds s' !! 1%positive =
      Some (mkSharedBuffer (Some 1%positive) 4 (Some 1%positive)) /\
    shareds s' !! 2%positive =
      Some (mkSharedBuffer (Some 1%positive) 4 (Some 1%positive)) /\
    cells s' !! 1%positive = Some (Some 2).
Proof.
  repeat split; try reflexivity. by_running.
Qed.

(** C5, amended: copy construction and copy assignment make the destination
    an alias of the source's storage, with the source's size, data and
    counter pointer, and increment the counter when the source has one.
    Copy assignment makes no check that a non-empty source has a counter:
    a source without one is aliased as it is and nothing is incremented. *)
Theorem SharedBuffer_copy_contract {T} (NDEBUG : bool) (s : state T)
    (this buffer : obj) (b : SharedBuffer) :
  shareds s !! buffer = Some b ->
  this <> buffer ->
  (shareds s !! this = None ->
   SharedBuffer_joinable b s ->
   SharedBuffer_ctor_copy NDEBUG this buffer s =
   Ok tt (SharedBuffer_joined this b s)) /\
  (forall bt, shareds s !! this = Some bt ->
   SharedBuffer_releasable NDEBUG bt s ->
   SharedBuffer_joinable b (SharedBuffer_released bt s) ->
   SharedBuffer_assign NDEBUG this buffer s =
   Ok tt (SharedBuffer_joined this b (SharedBuffer_released bt s))) /\
  (forall s0 : state T,
   shareds (SharedBuffer_joined this b s0) !! this = Some b /\
   arrays (SharedBuffer_joined this b s0) = arrays s0 /\
   (SharedBuffer_refcount b = None ->
    SharedBuffer_joinable b s0 /\
    cells (SharedBuffer_joined this b s0) = cells s0) /\
   (forall r v, SharedBuffer_refcount b = Some r ->
      cells s0 !! r = Some (Some v) ->
      cells (SharedBuffer_joined this b s0) !! r =
      Some (Some (to_u32 (v + 1))))).
Proof.
  intros Hb Hne. split; [|split].
  - intros Ht Hj. now apply SharedBuffer_ctor_copy_ok.
  - intros bt Ht Hrel Hj. now apply SharedBuffer_assign_ok.
  - intros s0.
    destruct (SharedBuffer_joined_spec s0 this b)
      as (Hthis & _ & Harr & Hnone & Hcnt).
    split; [exact Hthis|]. split; [exact Harr|]. split.
    + intros Hr. split; [|now apply Hnone].
      unfold SharedBuffer_joinable. now rewrite Hr.
    + intros r v Hr Hv. rewrite (Hcnt r v Hr Hv). apply lookup_insert_eq.
Qed.

Lemma SharedBuffer_copy_contract_witness :
  SharedBuffer_ctor_copy false 3 1 sample =
    Ok tt (SharedBuffer_joined 3
             (mkSharedBuffer (Some 2%positive) 4 (Some 1%positive)) sample) /\
  cells (SharedBuffer_joined 3
           (mkSharedBuffer (Some 2%positive) 4 (Some 1%positive)) sample)
    !! 1%positive = Some (Some 3).
Proof.
  destruct (SharedBuffer_copy_contract false sample 3 1
              (mkSharedBuffer (Some 2%positive) 4 (Some 1%positive))
              ltac:(reflexivity) ltac:(discriminate)) as (Hc & _ & Hj).
  split.
  - apply Hc; [reflexivity|]. exists 2. reflexivity.
  - destruct (Hj sample) as (_ & _ & _ & Hcnt).
    apply (Hcnt 1%positive 2); reflexivity.
Defined.

(** A source with three elements and no counter: in a debug build the copy
    constructor and the copy assignment both return, no assertion fails, and
    the copies have three elements and no counter either. *)
Lemma SharedBuffer_copy_unchecked :
  shareds sample_corrupted !! 1%positive =
    Some (mkSharedBuffer (Some 1%positive) 3 None) /\
  (exists s', SharedBuffer_ctor_copy false 3 1 sample_corrupted = Ok tt s' /\
     shareds s' !! 3%positive =
       Some (mkSharedBuffer (Some 1%positive) 3 None)) /\
  (exists s', SharedBuffer_assign false 2 1 sample_corrupted = Ok tt s' /\
     shareds s' !! 2%positive =
       Some (mkSharedBuffer (Some 1%positive) 3 None)).
Proof.
  split; [reflexivity|]. split; by_running.
Qed.

(** ** SharedBuffer: construction from a size *)

(** The two ways of [SharedBuffer(size_t)]: [m_size], which is [size]
    modulo [2^32], is 0 and the members keep their defaults, or storage and
    a counter are allocated. *)
Lemma SharedBuffer_ctor_size_zero {T} (zero : T) (s : state T) this size :
  shareds s !! this = None ->
  to_u32 size = 0 ->
  SharedBuffer_ctor_size zero this size s =
  Ok tt (State (arrays s) (cells s) (buffers s)
               (<[this := SharedBuffer_default]> (shareds s))).
Proof.
  intros Ht Hz. unfold_members. rewrite Ht. unfold_members.
  rewrite lookup_insert_eq. unfold_members. rewrite lookup_insert_eq.
  unfold_members. rewrite Hz. cbn. rewrite insert_insert_eq. reflexivity.
Qed.

Lemma SharedBuffer_ctor_size_nonzero {T} (zero : T) (s : state T) this size :
  shareds s !! this = None ->
  to_u32 size <> 0 ->
  SharedBuffer_ctor_size zero this size s =
  Ok tt (State
    (<[fresh (dom (arrays s)) :=
         Block (to_u32 size)
               (fun i => if below (to_u32 size) i then Some zero else None)]>
       (arrays s))
    (<[fresh (dom (cells s)) := Some 1]> (cells s))
    (buffers s)
    (<[this := mkSharedBuffer (Some (fresh (dom (arrays s)))) (to_u32 size)
                              (Some (fresh (dom (cells s))))]>
       (shareds s))).
Proof.
  intros Ht Hz. run. rewrite !insert_insert_eq. reflexivity.
Qed.

(** For a size below [2^32], construction does what is expected of it: size
    [n]; the empty sentinel for 0; otherwise fresh zeroed storage and a fresh
    counter that holds 1. *)
Lemma SharedBuffer_ctor_size_small {T} (zero : T) (s : state T) this n :
  shareds s !! this = None ->
  0 <= n < U32_MOD ->
  exists s' b,
    SharedBuffer_ctor_size zero this n s = Ok tt s' /\
    shareds s' !! this = Some b /\
    SharedBuffer_m_size b = n /\
    (n = 0 -> b = SharedBuffer_default /\
              arrays s' = arrays s /\ cells s' = cells s) /\
    (0 < n -> exists d r,
       SharedBuffer_data b = Some d /\ SharedBuffer_refcount b = Some r /\
       arrays s !! d = None /\ cells s !! r = None /\
       arrays s' !! d =
         Some (Block n (fun i => if below n i then Some zero else None)) /\
       cells s' !! r = Some (Some 1)).
Proof.
  intros Ht Hn. pose proof (to_u32_small n Hn) as Hu.
  destruct (Z.eq_dec n 0) as [E|E].
  - eexists _, _. split; [apply SharedBuffer_ctor_size_zero; congruence|].
    cbn [shareds]. rewrite lookup_insert_eq. split; [reflexivity|].
    split; [now rewrite E|]. split; [easy|lia].
  - eexists _, _. split; [apply SharedBuffer_ctor_size_nonzero; congruence|].
    cbn [shareds arrays cells]. rewrite lookup_insert_eq.
    split; [reflexivity|]. split; [exact Hu|]. split; [lia|].
    intros _. eexists _, _. split; [reflexivity|]. split; [reflexivity|].
    rewrite !lookup_fresh, !lookup_insert_eq, Hu. easy.
Qed.

(** C3 at [n = 2^32] and at [n = 2^32 + 1], which are values of [size_t]:
    the [unsigned int] member [m_size] receives [n] modulo [2^32].
    [SharedBuffer<u8>(4294967296)] is the empty sentinel, of size 0, and
    [SharedBuffer<u8>(4294967297)] has size 1 and one element of storage. *)
Theorem SharedBuffer_ctor_size_truncates :
  is_size_t 4294967296 /\ is_size_t 4294967297 /\
  SharedBuffer_ctor_size Byte.x00 1 4294967296 (initial Byte.byte) =
    Ok tt (State ∅ ∅ ∅ {[ 1%positive := SharedBuffer_default ]}) /\
  exists s',
    SharedBuffer_ctor_size Byte.x00 1 4294967297 (initial Byte.byte) =
      Ok tt s' /\
    shareds s' !! 1%positive =
      Some (mkSharedBuffer (Some 1%positive) 1 (Some 1%positive)) /\
    blen <$> arrays s' !! 1%positive = Some 1.
Proof.
  split; [unfold is_size_t, SIZE_MOD; lia|].
  split; [unfold is_size_t, SIZE_MOD; lia|].
  split; [reflexivity|].
  by_running.
Qed.

(** ** Conversions between Buffer and SharedBuffer *)

Lemma fresh_ne {A} (m : gmap positive A) a x :
  m !! a = Some x -> fresh (dom m) <> a.
Proof. intros Ha E. rewrite <- E, lookup_fresh in Ha. discriminate. Qed.

Lemma Buffer_ctor_span_zero {T} (s : state T) this t :
  buffers s !! this = None ->
  Buffer_ctor_span this t 0 s =
  Ok tt (State (arrays s) (cells s)
               (<[this := mkBuffer None 0]> (buffers s)) (shareds s)).
Proof. intros Ht. run. rewrite !insert_insert_eq. reflexivity. Qed.

Lemma Buffer_ctor_span_nonzero {T} (s : state T) this a blk size :
  buffers s !! this = None ->
  size <> 0 ->
  arrays s !! a = Some blk ->
  size <= blen blk ->
  Buffer_ctor_span this (Some a) size s =
  Ok tt (State
    (<[fresh (dom (arrays s)) :=
         Block size (fun i => if below size i then bval blk i else None)]>
       (arrays s))
    (cells s)
    (<[this := mkBuffer (Some (fresh (dom (arrays s)))) size]> (buffers s))
    (shareds s)).
Proof.
  intros Ht Hz Ha Hle. pose proof (fresh_ne _ _ _ Ha) as Hf.
  run. rewrite !insert_insert_eq. reflexivity.
Qed.

Lemma SharedBuffer_ctor_span_zero {T} (s : state T) this t size :
  shareds s !! this = None ->
  to_u32 size = 0 ->
  SharedBuffer_ctor_span this t size s =
  Ok tt (State (arrays s) (cells s) (buffers s)
               (<[this := SharedBuffer_default]> (shareds s))).
Proof.
  intros Ht Hz. unfold_members. rewrite Ht. unfold_members.
  rewrite lookup_insert_eq. unfold_members. rewrite lookup_insert_eq.
  unfold_members. rewrite Hz. cbn. rewrite !lookup_insert_eq. cbn.
  rewrite !lookup_insert_eq. cbn. rewrite !insert_insert_eq. reflexivity.
Qed.

Lemma SharedBuffer_ctor_span_nonzero {T} (s : state T) this a blk size :
  shareds s !! this = None ->
  to_u32 size <> 0 ->
  arrays s !! a = Some blk ->
  to_u32 size <= blen blk ->
  SharedBuffer_ctor_span this (Some a) size s =
  Ok tt (State
    (<[fresh (dom (arrays s)) :=
         Block (to_u32 size)
               (fun i => if below (to_u32 size) i then bval blk i else None)]>
       (arrays s))
    (<[fresh (dom (cells s)) := Some 1]> (cells s))
    (buffers s)
    (<[this := mkSharedBuffer (Some (fresh (dom (arrays s)))) (to_u32 size)
                              (Some (fresh (dom (cells s))))]>
       (shareds s))).
Proof.
  intros Ht Hz Ha Hle. pose proof (fresh_ne _ _ _ Ha) as Hf.
  run. rewrite !insert_insert_eq. reflexivity.
Qed.

Lemma SharedBuffer_ctor_Buffer_eq {T} (s : state T) this buffer bb :
  buffers s !! buffer = Some bb ->
  SharedBuffer_ctor_Buffer this buffer s =
  SharedBuffer_ctor_span this (Buffer_data bb) (Buffer_m_size bb) s.
Proof.
  intros Hb. unfold SharedBuffer_ctor_Buffer, Buffer_deref, Buffer_getSize,
    Buffer_get_data, Buffer_get_m_size, Buffer_get, bind, ret.
  rewrite Hb. cbv beta iota. now rewrite Hb.
Qed.

Lemma SharedBuffer_operator_Buffer_eq {T} (s : state T) this result b :
  shareds s !! this = Some b ->
  SharedBuffer_operator_Buffer this result s =
  Buffer_ctor_span result (SharedBuffer_data b) (SharedBuffer_m_size b) s.
Proof.
  intros Hb. unfold SharedBuffer_operator_Buffer, SharedBuffer_get_data,
    SharedBuffer_get_m_size, SharedBuffer_get, bind, ret.
  rewrite Hb. cbv beta iota. now rewrite Hb.
Qed.

(** X12: converting a buffer of size 0, in either direction, gives the
    empty state of the other kind (the empty sentinel, or a [Buffer] of size
    0 without data) and leaves the store as it is: nothing is allocated and
    nothing is read, whatever [data] the source holds.  The result has size
    0 again, so this holds for every further conversion. *)
Lemma convert_empty {T} (s : state T) this new :
  (forall bb, buffers s !! this = Some bb -> Buffer_m_size bb = 0 ->
     shareds s !! new = None ->
     SharedBuffer_ctor_Buffer new this s =
     Ok tt (State (arrays s) (cells s) (buffers s)
                  (<[new := SharedBuffer_default]> (shareds s)))) /\
  (forall b, shareds s !! this = Some b -> SharedBuffer_m_size b = 0 ->
     buffers s !! new = None ->
     SharedBuffer_operator_Buffer this new s =
     Ok tt (State (arrays s) (cells s)
                  (<[new := mkBuffer None 0]> (buffers s)) (shareds s))).
Proof.
  split.
  - intros bb Hb Hz Hn. rewrite (SharedBuffer_ctor_Buffer_eq s new this bb Hb).
    apply SharedBuffer_ctor_span_zero; [exact Hn | now rewrite Hz].
  - intros b Hb Hz Hn. rewrite (SharedBuffer_operator_Buffer_eq s this new b Hb).
    rewrite Hz. now apply Buffer_ctor_span_zero.
Qed.

(** X11: the round trip of a buffer whose size is below [2^32], from
    [Buffer] to [SharedBuffer] and back: the size and the elements come
    back, in an array that is neither the one of the original nor the one of
    the intermediate [SharedBuffer], both of which are new; the original and
    its array stay as they are. *)
Lemma convert_roundtrip_small {T} (s : state T) o1 o2 o3 a blk n :
  buffers s !! o1 = Some (mkBuffer (Some a) n) ->
  arrays s !! a = Some blk ->
  n <= blen blk ->
  0 < n < U32_MOD ->
  shareds s !! o2 = None ->
  buffers s !! o3 = None ->
  exists s' d2 d3 blk3,
    (SharedBuffer_ctor_Buffer o2 o1 >> SharedBuffer_operator_Buffer o2 o3) s =
      Ok tt s' /\
    SharedBuffer_data <$> shareds s' !! o2 = Some (Some d2) /\
    buffers s' !! o3 = Some (mkBuffer (Some d3) n) /\
    buffers s' !! o1 = Some (mkBuffer (Some a) n) /\
    arrays s' !! a = Some blk /\
    arrays s' !! d3 = Some blk3 /\
    blen blk3 = n /\
    (forall i, 0 <= i < n -> bval blk3 i = bval blk i) /\
    d2 <> a /\ d3 <> a /\ d3 <> d2 /\
    arrays s !! d2 = None /\ arrays s !! d3 = None.
Proof.
  intros Hb Ha Hle Hn Ho2 Ho3.
  pose proof (to_u32_small n ltac:(lia)) as Hu.
  assert (Hne13 : o1 <> o3) by congruence.
  unfold bind at 1.
  rewrite (SharedBuffer_ctor_Buffer_eq s o2 o1 _ Hb).
  cbn [Buffer_data Buffer_m_size].
  rewrite (SharedBuffer_ctor_span_nonzero s o2 a blk n) by (rewrite ?Hu; auto; lia).
  rewrite Hu.
  set (d2 := fresh (dom (arrays s))).
  set (blk2 := Block n (fun i => if below n i then bval blk i else None)).
  set (s1 := State _ _ _ _).
  assert (Hd2 : arrays s !! d2 = None) by apply lookup_fresh.
  assert (Hd2a : d2 <> a) by (apply (fresh_ne _ _ _ Ha)).
  erewrite (SharedBuffer_operator_Buffer_eq s1 o2 o3)
    by (subst s1; cbn [shareds]; apply lookup_insert_eq).
  cbn [SharedBuffer_data SharedBuffer_m_size].
  assert (Hs1 : arrays s1 !! d2 = Some blk2)
    by (subst s1; cbn [arrays]; apply lookup_insert_eq).
  rewrite (Buffer_ctor_span_nonzero s1 o3 d2 blk2 n)
    by (subst s1 blk2; cbn [buffers blen]; auto; lia).
  set (d3 := fresh (dom (arrays s1))).
  assert (Hd3 : arrays s1 !! d3 = None) by apply lookup_fresh.
  assert (Hd32 : d3 <> d2) by (apply (fresh_ne _ _ _ Hs1)).
  assert (Hd3a : d3 <> a).
  { apply (fresh_ne (arrays s1) a blk). subst s1; cbn [arrays].
    now rewrite lookup_insert_ne. }
  eexists _, d2, d3, _. split; [reflexivity|].
  subst s1. cbn [arrays cells buffers shareds] in *.
  rewrite lookup_insert_eq. split; [reflexivity|].
  rewrite lookup_insert_eq. split; [reflexivity|].
  rewrite lookup_insert_ne by congruence. split; [exact Hb|].
  rewrite !lookup_insert_ne by congruence. split; [exact Ha|].
  rewrite lookup_insert_eq. split; [reflexivity|]. split; [reflexivity|].
  split.
  - intros i Hi. subst blk2. cbn [bval]. unfold below.
    rewrite (proj2 (Z.leb_le 0 i)), (proj2 (Z.ltb_lt i n)) by lia.
    reflexivity.
  - repeat split; try assumption.
    rewrite lookup_insert_ne in Hd3 by congruence. exact Hd3.
Qed.

(** C8 at a [Buffer<u8>] of [2^32] bytes: the conversion to [SharedBuffer]
    passes [getSize()], a [size_t], into the [unsigned int] member [m_size],
    which receives 0; the [SharedBuffer] is the empty sentinel, and the
    [Buffer] converted back from it has size 0 and no data, while the
    original still has [2^32] elements. *)
Theorem convert_roundtrip_truncates :
  is_size_t 4294967296 /\
  buffers sample_large !! 1%positive =
    Some (mkBuffer (Some 1%positive) 4294967296) /\
  blen <$> arrays sample_large !! 1%positive = Some 4294967296 /\
  exists s',
    (SharedBuffer_ctor_Buffer 2 1 >> SharedBuffer_operator_Buffer 2 3)
      sample_large = Ok tt s' /\
    shareds s' !! 2%positive = Some SharedBuffer_default /\
    buffers s' !! 3%positive = Some (mkBuffer None 0) /\
    buffers s' !! 1%positive = Some (mkBuffer (Some 1%positive) 4294967296).
Proof.
  split; [unfold is_size_t, SIZE_MOD; lia|].
  split; [reflexivity|]. split; [reflexivity|].
  by_running.
Qed.

(** ** Counting the holders of a counter *)

Lemma holders_insert_fresh p o b (m : gmap positive SharedBuffer) :
  m !! o = None ->
  holders p (<[o := b]> m) =
  (holders p m + if decide (SharedBuffer_refcount b = Some p) then 1 else 0)%nat.
Proof.
  intros Ho. unfold holders. rewrite map_filter_insert. cbn [snd].
  destruct (decide (SharedBuffer_refcount b = Some p)) as [E|E].
  - rewrite map_size_insert_None; [lia|].
    apply map_lookup_filter_None. now left.
  - rewrite delete_id by exact Ho. lia.
Qed.

Lemma holders_delete p o b (m : gmap positive SharedBuffer) :
  m !! o = Some b ->
  holders p m =
  (holders p (delete o m) +
   if decide (SharedBuffer_refcount b = Some p) then 1 else 0)%nat.
Proof.
  intros Ho. rewrite <- (insert_delete_id m o b Ho) at 1.
  apply holders_insert_fresh, lookup_delete_eq.
Qed.

Lemma holders_insert p o b (m : gmap positive SharedBuffer) :
  holders p (<[o := b]> m) =
  (holders p (delete o m) +
   if decide (SharedBuffer_refcount b = Some p) then 1 else 0)%nat.
Proof.
  rewrite <- (insert_delete_eq m). apply holders_insert_fresh, lookup_delete_eq.
Qed.

Lemma holders_le_size p (m : gmap positive SharedBuffer) :
  (holders p m <= size m)%nat.
Proof. unfold holders. apply map_size_filter. Qed.

Lemma holders_positive p o b (m : gmap positive SharedBuffer) :
  m !! o = Some b -> SharedBuffer_refcount b = Some p ->
  (1 <= holders p m)%nat.
Proof.
  intros Ho Hr. rewrite (holders_delete p o b m Ho).
  rewrite decide_True by exact Hr. lia.
Qed.

Lemma holders_zero p o b (m : gmap positive SharedBuffer) :
  holders p m = 0%nat -> m !! o = Some b -> SharedBuffer_refcount b <> Some p.
Proof.
  intros Hz Ho Hr. pose proof (holders_positive p o b m Ho Hr). lia.
Qed.

Lemma holders_none p (m : gmap positive SharedBuffer) :
  (forall o b, m !! o = Some b -> SharedBuffer_refcount b <> Some p) ->
  holders p m = 0%nat.
Proof.
  intros Hno. unfold holders. apply map_size_empty_iff, map_empty_filter.
  intros o b Hob. cbn. now apply (Hno o b).
Qed.

(** ** The counters are kept up to date *)

Lemma counted_unreferenced m c r :
  counted_by m c -> c !! r = None -> holders r m = 0%nat.
Proof.
  intros Hc Hr. apply holders_none. intros o b Hob Hrb.
  destruct (Hc o b Hob) as [_ Hcnt]. rewrite (Hcnt r Hrb) in Hr. discriminate.
Qed.

(** A new instance without counter, of size 0. *)
Lemma counted_insert_plain m c o b :
  counted_by m c -> m !! o = None ->
  SharedBuffer_refcount b = None -> SharedBuffer_m_size b = 0 ->
  counted_by (<[o := b]> m) c.
Proof.
  intros Hc Ho Hr Hz o' b' Hob'.
  destruct (decide (o = o')) as [<-|Hne].
  - rewrite lookup_insert_eq in Hob'. injection Hob' as <-.
    split; [congruence|]. intros p Hp. congruence.
  - rewrite lookup_insert_ne in Hob' by exact Hne.
    destruct (Hc o' b' Hob') as [Hsz Hcnt]. split; [exact Hsz|].
    intros p Hp. rewrite (Hcnt p Hp), holders_insert_fresh by exact Ho.
    rewrite decide_False by congruence. do 3 f_equal. lia.
Qed.

(** A new instance with fresh storage and a fresh counter that holds 1. *)
Lemma counted_insert_alloc m c o d n r :
  counted_by m c -> m !! o = None -> c !! r = None ->
  counted_by (<[o := mkSharedBuffer d n (Some r)]> m) (<[r := Some 1]> c).
Proof.
  intros Hc Ho Hr o' b' Hob'.
  pose proof (counted_unreferenced m c r Hc Hr) as Hzero.
  destruct (decide (o = o')) as [<-|Hne].
  - rewrite lookup_insert_eq in Hob'. injection Hob' as <-.
    split; [easy|]. intros p [= <-].
    rewrite lookup_insert_eq, holders_insert_fresh by exact Ho.
    cbn [SharedBuffer_refcount]. rewrite decide_True by reflexivity.
    rewrite Hzero. reflexivity.
  - rewrite lookup_insert_ne in Hob' by exact Hne.
    destruct (Hc o' b' Hob') as [Hsz Hcnt]. split; [exact Hsz|].
    intros p Hp. pose proof (Hcnt p Hp) as Hcp.
    assert (r <> p) by congruence.
    rewrite lookup_insert_ne by assumption.
    rewrite Hcp, holders_insert_fresh by exact Ho.
    cbn [SharedBuffer_refcount]. rewrite decide_False by congruence.
    do 3 f_equal. lia.
Qed.

(** An instance changes its size and keeps its counter. *)
Lemma counted_insert_resize m c o b0 b :
  counted_by m c -> m !! o = Some b0 ->
  SharedBuffer_refcount b = SharedBuffer_refcount b0 ->
  (SharedBuffer_m_size b <> 0 -> SharedBuffer_m_size b0 <> 0) ->
  counted_by (<[o := b]> m) c.
Proof.
  intros Hc Ho Hr Hz o' b' Hob'.
  assert (Hh : forall p, holders p (<[o := b]> m) = holders p m).
  { intros p. rewrite holders_insert, (holders_delete p o b0 m Ho), Hr.
    reflexivity. }
  destruct (Hc o b0 Ho) as [Hsz0 Hcnt0].
  destruct (decide (o = o')) as [<-|Hne].
  - rewrite lookup_insert_eq in Hob'. injection Hob' as <-.
    split; [rewrite Hr; auto|]. intros p Hp. rewrite Hh. apply Hcnt0.
    congruence.
  - rewrite lookup_insert_ne in Hob' by exact Hne.
    destruct (Hc o' b' Hob') as [Hsz Hcnt]. split; [exact Hsz|].
    intros p Hp. rewrite Hh. now apply Hcnt.
Qed.

(** A move: the destination takes the members, the source is reset. *)
Lemma counted_insert_move m c o src b :
  counted_by m c -> m !! o = None -> m !! src = Some b ->
  counted_by (<[src := SharedBuffer_default]> (<[o := b]> m)) c.
Proof.
  intros Hc Ho Hs o' b' Hob'.
  assert (Hne : o <> src) by congruence.
  assert (Hh : forall p,
            holders p (<[src := SharedBuffer_default]> (<[o := b]> m)) =
            holders p m).
  { intros p. rewrite holders_insert, delete_insert_ne by congruence.
    rewrite holders_insert_fresh by (rewrite lookup_delete_ne; congruence).
    rewrite (holders_delete p src b m Hs).
    cbn [SharedBuffer_default SharedBuffer_refcount].
    rewrite (decide_False (P := None = Some p)) by discriminate. lia. }
  destruct (Hc src b Hs) as [Hsz0 Hcnt0].
  destruct (decide (src = o')) as [<-|Hne1].
  - rewrite lookup_insert_eq in Hob'. injection Hob' as <-.
    split; [easy|]. intros p Hp. discriminate.
  - rewrite lookup_insert_ne in Hob' by exact Hne1.
    destruct (decide (o = o')) as [<-|Hne2].
    + rewrite lookup_insert_eq in Hob'. injection Hob' as <-.
      split; [exact Hsz0|]. intros p Hp. rewrite Hh. now apply Hcnt0.
    + rewrite lookup_insert_ne in Hob' by exact Hne2.
      destruct (Hc o' b' Hob') as [Hsz Hcnt]. split; [exact Hsz|].
      intros p Hp. rewrite Hh. now apply Hcnt.
Qed.

(** One more holder: the counter goes up with the number of holders, as
    long as that number fits the counter. *)
Lemma counted_joined {T} m (s0 : state T) o src b :
  counted_by m (cells s0) -> m !! o = None -> m !! src = Some b ->
  Z.of_nat (size (<[o := b]> m)) < U32_MOD ->
  counted_by (<[o := b]> m) (cells (SharedBuffer_joined o b s0)).
Proof.
  intros Hc Ho Hs Hfew.
  assert (Hall : forall o' b', <[o := b]> m !! o' = Some b' ->
            (SharedBuffer_m_size b' <> 0 ->
             SharedBuffer_refcount b' <> None) /\
            forall p, SharedBuffer_refcount b' = Some p ->
              cells s0 !! p = Some (Some (Z.of_nat (holders p m)))).
  { intros o' b' Hob'. destruct (decide (o = o')) as [<-|Hne].
    - rewrite lookup_insert_eq in Hob'. injection Hob' as <-.
      exact (Hc src b Hs).
    - rewrite lookup_insert_ne in Hob' by exact Hne. exact (Hc o' b' Hob'). }
  unfold SharedBuffer_joined; cbn [cells].
  destruct (SharedBuffer_refcount b) as [r|] eqn:Hr.
  - destruct (Hc src b Hs) as [_ Hcnt0]. rewrite (Hcnt0 r Hr).
    assert (Hh : holders r (<[o := b]> m) = S (holders r m)).
    { rewrite holders_insert_fresh by exact Ho.
      rewrite decide_True by exact Hr. lia. }
    assert (Hu : to_u32 (Z.of_nat (holders r m) + 1) =
                 Z.of_nat (holders r (<[o := b]> m))).
    { pose proof (holders_le_size r (<[o := b]> m)).
      rewrite to_u32_small; lia. }
    rewrite Hu. intros o' b' Hob'.
    destruct (Hall o' b' Hob') as [Hsz Hcnt]. split; [exact Hsz|].
    intros p Hp. destruct (decide (r = p)) as [<-|Hne].
    + now rewrite lookup_insert_eq.
    + rewrite lookup_insert_ne by exact Hne. rewrite (Hcnt p Hp).
      rewrite holders_insert_fresh by exact Ho.
      rewrite decide_False by congruence. do 3 f_equal. lia.
  - intros o' b' Hob'.
    destruct (Hall o' b' Hob') as [Hsz Hcnt]. split; [exact Hsz|].
    intros p Hp. rewrite (Hcnt p Hp).
    rewrite holders_insert_fresh by exact Ho.
    rewrite decide_False by congruence. do 3 f_equal. lia.
Qed.

(** One holder less: the counter goes down, and the cell goes with the last
    holder. *)
Lemma counted_released {T} (s : state T) o b :
  counted s -> shareds s !! o = Some b -> few_shareds s ->
  counted_by (delete o (shareds s)) (cells (SharedBuffer_released b s)).
Proof.
  unfold counted, few_shareds. intros Hc Ho Hfew.
  unfold SharedBuffer_released.
  destruct (SharedBuffer_refcount b) as [r|] eqn:Hr.
  - destruct (Hc o b Ho) as [_ Hcnt0]. rewrite (Hcnt0 r Hr).
    pose proof (holders_delete r o b _ Ho) as Hh.
    rewrite decide_True in Hh by exact Hr.
    pose proof (holders_le_size r (shareds s)) as Hle.
    assert (Hu : to_u32 (Z.of_nat (holders r (shareds s)) - 1) =
                 Z.of_nat (holders r (delete o (shareds s)))).
    { rewrite to_u32_small; lia. }
    rewrite Hu.
    assert (Hrest : forall o' b' p, delete o (shareds s) !! o' = Some b' ->
              SharedBuffer_refcount b' = Some p -> r <> p ->
              holders p (delete o (shareds s)) = holders p (shareds s)).
    { intros o' b' p _ _ Hne. rewrite (holders_delete p o b _ Ho).
      rewrite decide_False by congruence. lia. }
    destruct (Z.eqb_spec (Z.of_nat (holders r (delete o (shareds s)))) 0)
      as [E|E]; cbn [cells]; intros o' b' Hob';
      pose proof Hob' as Hob; apply lookup_delete_Some in Hob as [Hne Hob];
      destruct (Hc o' b' Hob) as [Hsz Hcnt]; (split; [exact Hsz|]);
      intros p Hp.
    + assert (r <> p).
      { intros <-. apply (holders_zero r o' b' (delete o (shareds s)));
          [lia | exact Hob' | exact Hp]. }
      rewrite lookup_delete_ne by assumption.
      rewrite (Hrest o' b' p) by assumption. now apply Hcnt.
    + destruct (decide (r = p)) as [<-|Hnp].
      * now rewrite lookup_insert_eq.
      * rewrite lookup_insert_ne by exact Hnp.
        rewrite (Hrest o' b' p) by assumption. now apply Hcnt.
  - intros o' b' Hob'. apply lookup_delete_Some in Hob' as [Hne Hob].
    destruct (Hc o' b' Hob) as [Hsz Hcnt]. split; [exact Hsz|].
    intros p Hp. rewrite (Hcnt p Hp), (holders_delete p o b _ Ho).
    rewrite decide_False by congruence. do 3 f_equal. lia.
Qed.

(** ** The calls one by one *)

(** The calls on [Buffer] objects, element assignment and the conversion to
    [Buffer] leave the [SharedBuffer] instances and the counters as they
    are. *)
Ltac same_counters_tac :=
  let H := fresh "H" in
  intros H; invert_run H; split; reflexivity.

Lemma Buffer_ctor_frame {T} (s s' : state T) this :
  Buffer_ctor this s = Ok tt s' -> same_counters s s'.
Proof. same_counters_tac. Qed.

Lemma Buffer_ctor_size_frame {T} (s s' : state T) this size :
  Buffer_ctor_size this size s = Ok tt s' -> same_counters s s'.
Proof. same_counters_tac. Qed.

Lemma Buffer_ctor_move_frame {T} (s s' : state T) this buffer :
  Buffer_ctor_move this buffer s = Ok tt s' -> same_counters s s'.
Proof. same_counters_tac. Qed.

Lemma Buffer_ctor_span_frame {T} (s s' : state T) this t size :
  Buffer_ctor_span this t size s = Ok tt s' -> same_counters s s'.
Proof. same_counters_tac. Qed.

Lemma Buffer_dtor_frame {T} (s s' : state T) this :
  Buffer_dtor this s = Ok tt s' -> same_counters s s'.
Proof. same_counters_tac. Qed.

Lemma Buffer_assign_frame {T} (s s' : state T) this buffer :
  Buffer_assign this buffer s = Ok tt s' -> same_counters s s'.
Proof. same_counters_tac. Qed.

Lemma Buffer_copyTo_frame {T} (s s' : state T) this buffer :
  Buffer_copyTo this buffer s = Ok tt s' -> same_counters s s'.
Proof. same_counters_tac. Qed.

Lemma Buffer_at_put_frame {T} (s s' : state T) this i v :
  Buffer_at_put this i v s = Ok tt s' -> same_counters s s'.
Proof. same_counters_tac. Qed.

Lemma Buffer_shrinkSize_frame {T} NDEBUG (s s' : state T) this n :
  Buffer_shrinkSize NDEBUG this n s = Ok tt s' -> same_counters s s'.
Proof. same_counters_tac. Qed.

Lemma SharedBuffer_at_put_frame {T} NDEBUG (s s' : state T) this i v :
  SharedBuffer_at_put NDEBUG this i v s = Ok tt s' -> same_counters s s'.
Proof. same_counters_tac. Qed.

Lemma store_elem_frame {T} (s s' : state T) p i (v : T) :
  store_elem p i v s = Ok tt s' -> same_counters s s'.
Proof. same_counters_tac. Qed.

Lemma SharedBuffer_operator_Buffer_frame {T} (s s' : state T) this result :
  SharedBuffer_operator_Buffer this result s = Ok tt s' -> same_counters s s'.
Proof. same_counters_tac. Qed.

Lemma SharedBuffer_ctor_inv {T} (s s' : state T) this :
  SharedBuffer_ctor this s = Ok tt s' ->
  shareds s !! this = None /\
  s' = State (arrays s) (cells s) (buffers s)
             (<[this := SharedBuffer_default]> (shareds s)).
Proof.
  intros H. invert_run H. split; [reflexivity|].
  now rewrite !insert_insert_eq.
Qed.

Lemma SharedBuffer_ctor_size_inv {T} (zero : T) (s s' : state T) this size :
  SharedBuffer_ctor_size zero this size s = Ok tt s' ->
  shareds s !! this = None /\
  (s' = State (arrays s) (cells s) (buffers s)
              (<[this := SharedBuffer_default]> (shareds s)) \/
   s' = State
     (<[fresh (dom (arrays s)) :=
          Block (to_u32 size)
                (fun i => if below (to_u32 size) i then Some zero else None)]>
        (arrays s))
     (<[fresh (dom (cells s)) := Some 1]> (cells s))
     (buffers s)
     (<[this := mkSharedBuffer (Some (fresh (dom (arrays s)))) (to_u32 size)
                               (Some (fresh (dom (cells s))))]>
        (shareds s))).
Proof.
  intros H.
  destruct (shareds s !! this) as [b'|] eqn:Ht; [invert_run H|].
  split; [reflexivity|].
  destruct (Z.eq_dec (to_u32 size) 0) as [E|E].
  - rewrite (SharedBuffer_ctor_size_zero zero s this size Ht E) in H.
    left. congruence.
  - rewrite (SharedBuffer_ctor_size_nonzero zero s this size Ht E) in H.
    right. congruence.
Qed.

Lemma SharedBuffer_ctor_span_inv {T} (s s' : state T) this t size :
  SharedBuffer_ctor_span this t size s = Ok tt s' ->
  shareds s !! this = None /\
  (s' = State (arrays s) (cells s) (buffers s)
              (<[this := SharedBuffer_default]> (shareds s)) \/
   exists a blk, t = Some a /\ arrays s !! a = Some blk /\
   s' = State
     (<[fresh (dom (arrays s)) :=
          Block (to_u32 size)
                (fun i => if below (to_u32 size) i then bval blk i else None)]>
        (arrays s))
     (<[fresh (dom (cells s)) := Some 1]> (cells s))
     (buffers s)
     (<[this := mkSharedBuffer (Some (fresh (dom (arrays s)))) (to_u32 size)
                               (Some (fresh (dom (cells s))))]>
        (shareds s))).
Proof.
  intros H.
  destruct (shareds s !! this) as [b'|] eqn:Ht; [invert_run H|].
  split; [reflexivity|].
  destruct (Z.eq_dec (to_u32 size) 0) as [E|E].
  - rewrite (SharedBuffer_ctor_span_zero s this t size Ht E) in H.
    left. congruence.
  - right. destruct t as [a|]; [|invert_run H; congruence].
    destruct (arrays s !! a) as [blk|] eqn:Ha;
      [|pose proof (lookup_fresh (arrays s)); invert_run H; congruence].
    destruct (Z.le_gt_cases (to_u32 size) (blen blk)) as [Hle|Hgt];
      [|pose proof (fresh_ne _ _ _ Ha); invert_run H; lia].
    rewrite (SharedBuffer_ctor_span_nonzero s this a blk size Ht E Ha Hle) in H.
    exists a, blk. repeat split; congruence.
Qed.

Lemma SharedBuffer_ctor_copy_inv {T} NDEBUG (s s' : state T) this buffer :
  SharedBuffer_ctor_copy NDEBUG this buffer s = Ok tt s' ->
  exists b, shareds s !! buffer = Some b /\ shareds s !! this = None /\
    SharedBuffer_joinable b s /\ s' = SharedBuffer_joined this b s.
Proof.
  intros H.
  destruct (shareds s !! buffer) as [b|] eqn:Hb; [|invert_run H].
  destruct (shareds s !! this) as [b'|] eqn:Ht; [invert_run H|].
  assert (Hj : SharedBuffer_joinable b s).
  { unfold SharedBuffer_joinable. destruct b as [d n [r|]]; [|exact I].
    cbn [SharedBuffer_refcount]. invert_run H; eauto. }
  rewrite (SharedBuffer_ctor_copy_ok NDEBUG s this buffer b Hb Ht Hj) in H.
  exists b. repeat split; congruence.
Qed.

Lemma SharedBuffer_ctor_move_inv {T} (s s' : state T) this buffer :
  SharedBuffer_ctor_move this buffer s = Ok tt s' ->
  exists b, shareds s !! buffer = Some b /\ shareds s !! this = None /\
    s' = State (arrays s) (cells s) (buffers s)
               (<[buffer := SharedBuffer_default]>
                  (<[this := b]> (shareds s))).
Proof.
  intros H.
  destruct (shareds s !! buffer) as [b|] eqn:Hb; [|invert_run H].
  destruct (shareds s !! this) as [b'|] eqn:Ht; [invert_run H|].
  rewrite (SharedBuffer_ctor_move_ok s this buffer b Hb Ht) in H.
  exists b. repeat split; congruence.
Qed.

Lemma SharedBuffer_releasable_inv {T} NDEBUG (s s' : state T) this b :
  shareds s !! this = Some b ->
  SharedBuffer_drop NDEBUG this s = Ok tt s' ->
  SharedBuffer_releasable NDEBUG b s.
Proof.
  intros Hb H. unfold SharedBuffer_releasable.
  destruct b as [d n [r|]]; [|exact I].
  cbn [SharedBuffer_refcount SharedBuffer_data].
  destruct (cells s !! r) as [[v|]|] eqn:Hv; [|invert_run H..].
  exists v. split; [reflexivity|]. split.
  - destruct NDEBUG; [now left|right]. invert_run H; lia.
  - intros E. destruct d as [a|]; [|exact I]. cbn [deletable].
    destruct (arrays s !! a) as [blk|] eqn:Ha; [eauto|].
    exfalso. invert_run H; congruence.
Qed.

Lemma SharedBuffer_dtor_inv {T} NDEBUG (s s' : state T) this :
  SharedBuffer_dtor NDEBUG this s = Ok tt s' ->
  exists b, shareds s !! this = Some b /\
    SharedBuffer_releasable NDEBUG b s /\
    s' = State (arrays (SharedBuffer_released b s))
               (cells (SharedBuffer_released b s))
               (buffers s) (delete this (shareds s)).
Proof.
  intros H.
  destruct (shareds s !! this) as [b|] eqn:Hb; [|invert_run H].
  assert (Hr : SharedBuffer_releasable NDEBUG b s).
  { unfold SharedBuffer_dtor, bind in H.
    destruct (SharedBuffer_drop NDEBUG this s) as [[] s1| |] eqn:Hd;
      try discriminate.
    exact (SharedBuffer_releasable_inv NDEBUG s s1 this b Hb Hd). }
  rewrite (SharedBuffer_dtor_ok NDEBUG s this b Hb Hr) in H.
  exists b. repeat split; congruence.
Qed.

Lemma SharedBuffer_assign_inv {T} NDEBUG (s s' : state T) this buffer :
  SharedBuffer_assign NDEBUG this buffer s = Ok tt s' ->
  (this = buffer /\ is_Some (shareds s !! this) /\ s' = s) \/
  (this <> buffer /\
   exists bt b, shareds s !! this = Some bt /\ shareds s !! buffer = Some b /\
     SharedBuffer_releasable NDEBUG bt s /\
     SharedBuffer_joinable b (SharedBuffer_released bt s) /\
     s' = SharedBuffer_joined this b (SharedBuffer_released bt s)).
Proof.
  intros H.
  destruct (shareds s !! this) as [bt|] eqn:Ht; [|invert_run H].
  destruct (shareds s !! buffer) as [b|] eqn:Hb; [|invert_run H].
  destruct (decide (this = buffer)) as [->|Hne].
  - left. rewrite (SharedBuffer_assign_self NDEBUG s buffer b Hb) in H.
    split; [reflexivity|]. split; [eauto | congruence].
  - right. split; [exact Hne|]. exists bt, b.
    split; [reflexivity|]. split; [reflexivity|].
    pose proof H as H0. unfold SharedBuffer_assign in H0.
    unfold bind at 1 in H0. unfold SharedBuffer_get at 1 in H0.
    rewrite Ht in H0. unfold bind at 1 in H0.
    unfold SharedBuffer_get at 1 in H0. rewrite Hb in H0.
    rewrite (proj2 (Pos.eqb_neq this buffer) Hne) in H0.
    unfold bind at 1 in H0.
    destruct (SharedBuffer_drop NDEBUG this s) as [[] s1| |] eqn:Hd;
      try discriminate.
    pose proof (SharedBuffer_releasable_inv NDEBUG s s1 this bt Ht Hd) as Hrel.
    rewrite (SharedBuffer_drop_ok NDEBUG s this bt Ht Hrel) in Hd.
    injection Hd as <-.
    destruct (SharedBuffer_released_objects bt s) as [Hsh _].
    assert (Hj : SharedBuffer_joinable b (SharedBuffer_released bt s)).
    { revert H0 Hsh. generalize (SharedBuffer_released bt s). intros s1 H0 Hsh.
      assert (Ht1 : shareds s1 !! this = Some bt) by now rewrite Hsh.
      assert (Hb1 : shareds s1 !! buffer = Some b) by now rewrite Hsh.
      unfold SharedBuffer_joinable. destruct b as [d n [r|]]; [|exact I].
      cbn [SharedBuffer_refcount]. invert_run H0; eauto. }
    split; [exact Hrel|]. split; [exact Hj|].
    rewrite (SharedBuffer_assign_ok NDEBUG s this buffer bt b Hne Ht Hb Hrel Hj)
      in H.
    congruence.
Qed.

Lemma SharedBuffer_shrinkSize_inv {T} NDEBUG (s s' : state T) this new_size :
  SharedBuffer_shrinkSize NDEBUG this new_size s = Ok tt s' ->
  exists b, shareds s !! this = Some b /\
    (s' = s \/
     new_size <= SharedBuffer_m_size b /\
     s' = State (arrays s) (cells s) (buffers s)
                (<[this := mkSharedBuffer (SharedBuffer_data b)
                                          (to_u32 new_size)
                                          (SharedBuffer_refcount b)]>
                   (shareds s))).
Proof.
  intros H. invert_run H; eexists; (split; [reflexivity|]);
    first [right; split; [assumption | reflexivity] | left; reflexivity].
Qed.

Lemma SharedBuffer_ctor_Buffer_inv {T} (s s' : state T) this buffer :
  SharedBuffer_ctor_Buffer this buffer s = Ok tt s' ->
  exists bb, buffers s !! buffer = Some bb /\
    SharedBuffer_ctor_span this (Buffer_data bb) (Buffer_m_size bb) s =
    Ok tt s'.
Proof.
  intros H. destruct (buffers s !! buffer) as [bb|] eqn:Hb; [|invert_run H].
  exists bb. split; [reflexivity|].
  now rewrite <- (SharedBuffer_ctor_Buffer_eq s this buffer bb Hb).
Qed.

(** Every call that returns keeps the counters up to date, as long as the
    number of instances fits a counter. *)
Lemma exec_counted {T} (zero : T) NDEBUG (c : call) (s s' : state T) :
  well_typed c ->
  exec zero NDEBUG c s = Ok tt s' ->
  counted s -> few_shareds s -> few_shareds s' ->
  counted s'.
Proof.
  intros Hwt H Hc Hfew Hfew'.
  assert (Hframe : same_counters s s' -> counted s').
  { intros [Hsh Hce]. unfold counted. now rewrite Hsh, Hce. }
  destruct c; cbn [exec] in H.
  - eauto using Buffer_ctor_frame.
  - eauto using Buffer_ctor_size_frame.
  - eauto using Buffer_ctor_move_frame.
  - eauto using Buffer_ctor_span_frame.
  - eauto using Buffer_dtor_frame.
  - eauto using Buffer_assign_frame.
  - eauto using Buffer_copyTo_frame.
  - eauto using Buffer_at_put_frame.
  - eauto using Buffer_shrinkSize_frame.
  - apply SharedBuffer_ctor_inv in H as [Ht ->].
    now apply counted_insert_plain.
  - apply SharedBuffer_ctor_size_inv in H as [Ht [-> | ->]].
    + now apply counted_insert_plain.
    + apply counted_insert_alloc; [exact Hc | exact Ht | apply lookup_fresh].
  - apply SharedBuffer_ctor_copy_inv in H as (b & Hb & Ht & Hj & ->).
    unfold counted, few_shareds in *. cbn [shareds] in *.
    now apply counted_joined with buffer.
  - apply SharedBuffer_ctor_move_inv in H as (b & Hb & Ht & ->).
    now apply counted_insert_move.
  - apply SharedBuffer_ctor_span_inv in H as [Ht [-> | (a & blk & _ & _ & ->)]].
    + now apply counted_insert_plain.
    + apply counted_insert_alloc; [exact Hc | exact Ht | apply lookup_fresh].
  - apply SharedBuffer_ctor_Buffer_inv in H as (bb & _ & H).
    apply SharedBuffer_ctor_span_inv in H as [Ht [-> | (a & blk & _ & _ & ->)]].
    + now apply counted_insert_plain.
    + apply counted_insert_alloc; [exact Hc | exact Ht | apply lookup_fresh].
  - apply SharedBuffer_dtor_inv in H as (b & Hb & Hrel & ->).
    now apply counted_released.
  - apply SharedBuffer_assign_inv in H
      as [(_ & _ & ->) | (Hne & bt & b & Ht & Hb & Hrel & Hj & ->)];
      [exact Hc|].
    pose proof (counted_released s this bt Hc Ht Hfew) as Hc1.
    unfold counted, few_shareds in *.
    destruct (SharedBuffer_released_objects bt s) as [Hsh _].
    cbn [shareds SharedBuffer_joined] in Hfew' |- *. rewrite Hsh in *.
    rewrite <- (insert_delete_eq (shareds s)) in Hfew' |- *.
    apply (counted_joined (delete this (shareds s))
             (SharedBuffer_released bt s) this buffer b Hc1).
    + apply lookup_delete_eq.
    + now rewrite lookup_delete_ne.
    + exact Hfew'.
  - eauto using SharedBuffer_at_put_frame.
  - apply SharedBuffer_shrinkSize_inv in H as (b & Hb & [-> | [Hle ->]]);
      [exact Hc|].
    apply counted_insert_resize with b; [exact Hc | exact Hb | reflexivity |].
    cbn [SharedBuffer_m_size]. intros Hnz Hz. rewrite Hz in Hle.
    cbn [well_typed] in Hwt. destruct Hwt as [Hlo _].
    apply Hnz. replace new_size with 0 by lia. reflexivity.
  - eauto using SharedBuffer_operator_Buffer_frame.
  - eauto using store_elem_frame.
Qed.

Lemma reachable_in_inside {T} (zero : T) NDEBUG (P : state T -> Prop) s :
  reachable_in zero NDEBUG P s -> P s.
Proof. intros H. destruct H; assumption. Qed.

Lemma counted_initial {T} : counted (initial T).
Proof. intros o b Hob. cbn in Hob. rewrite lookup_empty in Hob. discriminate. Qed.

(** ** The calls on Buffer objects, inverted *)

Lemma Buffer_ctor_inv {T} (s s' : state T) this :
  Buffer_ctor this s = Ok tt s' ->
  buffers s !! this = None /\
  s' = State (arrays s) (cells s)
             (<[this := mkBuffer None 0]> (buffers s)) (shareds s).
Proof.
  intros H. invert_run H. split; [reflexivity|].
  now rewrite !insert_insert_eq.
Qed.

Lemma Buffer_ctor_size_inv {T} (s s' : state T) this size :
  Buffer_ctor_size this size s = Ok tt s' ->
  buffers s !! this = None /\
  (s' = State (arrays s) (cells s)
              (<[this := mkBuffer None 0]> (buffers s)) (shareds s) \/
   s' = State (<[fresh (dom (arrays s)) := Block size (fun _ => None)]>
                 (arrays s))
              (cells s)
              (<[this := mkBuffer (Some (fresh (dom (arrays s)))) size]>
                 (buffers s))
              (shareds s)).
Proof.
  intros H. invert_run H; (split; [reflexivity|]);
    rewrite !insert_insert_eq; [left | right]; reflexivity.
Qed.

Lemma Buffer_ctor_span_inv {T} (s s' : state T) this t size :
  Buffer_ctor_span this t size s = Ok tt s' ->
  buffers s !! this = None /\
  (s' = State (arrays s) (cells s)
              (<[this := mkBuffer None 0]> (buffers s)) (shareds s) \/
   exists a blk, t = Some a /\ arrays s !! a = Some blk /\
   s' = State
     (<[fresh (dom (arrays s)) :=
          Block size (fun i => if below size i then bval blk i else None)]>
        (arrays s))
     (cells s)
     (<[this := mkBuffer (Some (fresh (dom (arrays s)))) size]> (buffers s))
     (shareds s)).
Proof.
  intros H.
  destruct (buffers s !! this) as [b'|] eqn:Ht; [invert_run H|].
  split; [reflexivity|].
  destruct (Z.eq_dec size 0) as [->|E].
  - rewrite (Buffer_ctor_span_zero s this t Ht) in H. left. congruence.
  - right. destruct t as [a|]; [|invert_run H; congruence].
    destruct (arrays s !! a) as [blk|] eqn:Ha;
      [|pose proof (lookup_fresh (arrays s)); invert_run H; congruence].
    destruct (Z.le_gt_cases size (blen blk)) as [Hle|Hgt];
      [|pose proof (fresh_ne _ _ _ Ha); invert_run H; lia].
    rewrite (Buffer_ctor_span_nonzero s this a blk size Ht E Ha Hle) in H.
    exists a, blk. repeat split; congruence.
Qed.

Lemma Buffer_ctor_move_inv {T} (s s' : state T) this buffer :
  Buffer_ctor_move this buffer s = Ok tt s' ->
  exists b, buffers s !! buffer = Some b /\ buffers s !! this = None /\
    s' = State (arrays s) (cells s)
               (<[buffer := Buffer_moved_from b]>
                  (<[this := Buffer_moved_to b]> (buffers s)))
               (shareds s).
Proof.
  intros H.
  destruct (buffers s !! buffer) as [b|] eqn:Hb; [|invert_run H].
  destruct (buffers s !! this) as [b'|] eqn:Ht; [invert_run H|].
  rewrite (Buffer_ctor_move_ok s this buffer b Hb Ht) in H.
  exists b. repeat split; congruence.
Qed.

Lemma Buffer_deletable_inv {T} (s s' : state T) this b :
  buffers s !! this = Some b ->
  Buffer_drop this s = Ok tt s' ->
  deletable (Buffer_data b) (arrays s) /\
  s' = State (free_array (Buffer_data b) (arrays s)) (cells s) (buffers s)
             (shareds s).
Proof.
  intros Hb H. destruct b as [[a|] n]; cbn [Buffer_data deletable free_array].
  - invert_run H. split; [eauto | reflexivity].
  - invert_run H. split; [exact I|].
    match goal with |- ?x = _ => now destruct x end.
Qed.

Lemma Buffer_dtor_inv {T} (s s' : state T) this :
  Buffer_dtor this s = Ok tt s' ->
  exists b, buffers s !! this = Some b /\
    deletable (Buffer_data b) (arrays s) /\
    s' = State (free_array (Buffer_data b) (arrays s)) (cells s)
               (delete this (buffers s)) (shareds s).
Proof.
  intros H.
  destruct (buffers s !! this) as [b|] eqn:Hb; [|invert_run H].
  assert (Hd : deletable (Buffer_data b) (arrays s)).
  { unfold Buffer_dtor, bind in H.
    destruct (Buffer_drop this s) as [[] s1| |] eqn:Hd; try discriminate.
    now destruct (Buffer_deletable_inv s s1 this b Hb Hd). }
  rewrite (Buffer_dtor_ok s this b Hb Hd) in H.
  exists b. repeat split; congruence.
Qed.

Lemma Buffer_assign_inv {T} (s s' : state T) this buffer :
  Buffer_assign this buffer s = Ok tt s' ->
  (this = buffer /\ s' = s) \/
  (this <> buffer /\
   exists bt b, buffers s !! this = Some bt /\ buffers s !! buffer = Some b /\
     deletable (Buffer_data bt) (arrays s) /\
     s' = State (free_array (Buffer_data bt) (arrays s)) (cells s)
                (<[buffer := Buffer_moved_from b]>
                   (<[this := Buffer_moved_to b]> (buffers s)))
                (shareds s)).
Proof.
  intros H.
  destruct (buffers s !! this) as [bt|] eqn:Ht; [|invert_run H].
  destruct (buffers s !! buffer) as [b|] eqn:Hb; [|invert_run H].
  destruct (decide (this = buffer)) as [->|Hne].
  - left. rewrite (Buffer_assign_self s buffer b Hb) in H.
    split; congruence.
  - right. split; [exact Hne|]. exists bt, b.
    split; [reflexivity|]. split; [reflexivity|].
    assert (Hd : deletable (Buffer_data bt) (arrays s)).
    { unfold Buffer_assign in H.
      unfold bind at 1 in H. unfold Buffer_get at 1 in H. rewrite Ht in H.
      unfold bind at 1 in H. unfold Buffer_get at 1 in H. rewrite Hb in H.
      rewrite (proj2 (Pos.eqb_neq this buffer) Hne) in H.
      unfold bind at 1 in H.
      destruct (Buffer_drop this s) as [[] s1| |] eqn:Hd; try discriminate.
      now destruct (Buffer_deletable_inv s s1 this bt Ht Hd). }
    split; [exact Hd|].
    rewrite (Buffer_assign_ok s this buffer bt b Hne Ht Hb Hd) in H.
    congruence.
Qed.

Lemma Buffer_shrinkSize_inv {T} NDEBUG (s s' : state T) this new_size :
  Buffer_shrinkSize NDEBUG this new_size s = Ok tt s' ->
  exists b, buffers s !! this = Some b /\
    (s' = s \/
     s' = State (arrays s) (cells s)
                (<[this := mkBuffer (Buffer_data b) new_size]> (buffers s))
                (shareds s)).
Proof.
  intros H. invert_run H; eexists; (split; [reflexivity|]);
    first [right; reflexivity | left; reflexivity].
Qed.

Lemma store_elem_inv {T} (s s' : state T) p i (v : T) :
  store_elem p i v s = Ok tt s' ->
  exists a blk blk', arrays s !! a = Some blk /\
    s' = State (<[a := blk']> (arrays s)) (cells s) (buffers s) (shareds s).
Proof.
  intros H. invert_run H. eexists _, _, _. split; [eassumption|reflexivity].
Qed.

Lemma Buffer_at_put_inv {T} (s s' : state T) this i (v : T) :
  Buffer_at_put this i v s = Ok tt s' ->
  exists a blk blk', arrays s !! a = Some blk /\
    s' = State (<[a := blk']> (arrays s)) (cells s) (buffers s) (shareds s).
Proof.
  intros H. invert_run H. eexists _, _, _. split; [eassumption|reflexivity].
Qed.

Lemma SharedBuffer_at_put_inv {T} NDEBUG (s s' : state T) this i (v : T) :
  SharedBuffer_at_put NDEBUG this i v s = Ok tt s' ->
  exists a blk blk', arrays s !! a = Some blk /\
    s' = State (<[a := blk']> (arrays s)) (cells s) (buffers s) (shareds s).
Proof.
  intros H. invert_run H; eexists _, _, _; (split; [eassumption|reflexivity]).
Qed.

Lemma SharedBuffer_operator_Buffer_inv {T} (s s' : state T) this result :
  SharedBuffer_operator_Buffer this result s = Ok tt s' ->
  exists b, shareds s !! this = Some b /\
    Buffer_ctor_span result (SharedBuffer_data b) (SharedBuffer_m_size b) s =
    Ok tt s'.
Proof.
  intros H. destruct (shareds s !! this) as [b|] eqn:Hb; [|invert_run H].
  exists b. split; [reflexivity|].
  now rewrite <- (SharedBuffer_operator_Buffer_eq s this result b Hb).
Qed.

Lemma Buffer_copyTo_inv {T} (s s' : state T) this buffer :
  Buffer_copyTo this buffer s = Ok tt s' ->
  exists bt bb, buffers s !! this = Some bt /\ buffers s !! buffer = Some bb /\
    deletable (Buffer_data bb) (arrays s) /\
    (s' = State (free_array (Buffer_data bb) (arrays s)) (cells s)
                (<[buffer := mkBuffer None 0]> (buffers s)) (shareds s) \/
     exists blk',
     s' = State (<[fresh (dom (free_array (Buffer_data bb) (arrays s))) := blk']>
                   (free_array (Buffer_data bb) (arrays s)))
                (cells s)
                (<[buffer :=
                     mkBuffer (Some (fresh (dom (free_array (Buffer_data bb)
                                                   (arrays s)))))
                              (Buffer_m_size bt)]> (buffers s))
                (shareds s)).
Proof.
  intros H.
  destruct (buffers s !! this) as [bt|] eqn:Ht; [|invert_run H].
  destruct (buffers s !! buffer) as [bb|] eqn:Hb; [|invert_run H].
  exists bt, bb. split; [reflexivity|]. split; [reflexivity|].
  unfold Buffer_copyTo in H.
  unfold bind at 1 in H. unfold Buffer_get at 1 in H. rewrite Ht in H.
  unfold bind at 1 in H.
  destruct (Buffer_drop buffer s) as [[] s1| |] eqn:Hd; try discriminate.
  destruct (Buffer_deletable_inv s s1 buffer bb Hb Hd) as [Hdel ->].
  split; [exact Hdel|]. clear Hd.
  revert H. generalize (free_array (Buffer_data bb) (arrays s)). intros A H.
  invert_run H; rewrite ?insert_insert_eq;
    first [ match goal with E : Buffer_m_size _ = 0 |- _ => rewrite E end;
            left; reflexivity
          | right; eexists; reflexivity ].
Qed.

(** ** Ownership is kept *)

Section Ownership.
Context {T : Type}.
Implicit Types (G : gmap positive owner) (A : gmap positive (block T)).
Implicit Types (C : gmap positive (option Z)) (B : gmap positive Buffer).
Implicit Types (S : gmap positive SharedBuffer).

(** An element is assigned in an allocated array. *)
Lemma owned_by_store G A C B S a blk blk' :
  owned_by G (State A C B S) -> A !! a = Some blk ->
  owned_by G (State (<[a := blk']> A) C B S).
Proof.
  intros (Hi & Hb & Hs) Ha. split; [|split]; cbn in *; [|exact Hb|exact Hs].
  intros d w Hd. rewrite lookup_insert_is_Some.
  destruct (decide (a = d)); [now left|right]. split; [assumption|eauto].
Qed.

(** A [Buffer] without data appears, or a [Buffer] is left without data. *)
Lemma owned_by_buffer_plain G A C B S o b :
  owned_by G (State A C (delete o B) S) -> Buffer_data b = None ->
  owned_by G (State A C (<[o := b]> B) S).
Proof.
  intros (Hi & Hb & Hs) Hn. split; [|split]; cbn in *; [exact Hi| |exact Hs].
  intros o' b' d Ho' Hd. apply lookup_insert_Some in Ho' as [[<- <-]|[Hne Ho']].
  - congruence.
  - apply (Hb o' b' d); [|exact Hd]. now rewrite lookup_delete_ne.
Qed.

(** A [Buffer] receives a freshly allocated array. *)
Lemma owned_by_buffer_alloc G A C B S o d blk n :
  owned_by G (State A C (delete o B) S) -> A !! d = None ->
  owned_by (<[d := owner_Buffer o]> G)
           (State (<[d := blk]> A) C (<[o := mkBuffer (Some d) n]> B) S).
Proof.
  intros (Hi & Hb & Hs) Hd. 
  assert (Hfresh : forall d' w, G !! d' = Some w -> d <> d').
  { intros d' w Hw ->. destruct (Hi d' w Hw) as [x Hx]. cbn in Hx. congruence. }
  split; [|split]; cbn in *.
  - intros d' w Hw. rewrite lookup_insert_is_Some.
    apply lookup_insert_Some in Hw as [[<- _]|[Hne Hw]]; [now left|right].
    split; [assumption|eauto].
  - intros o' b' d' Ho' Hd'.
    apply lookup_insert_Some in Ho' as [[<- <-]|[Hne Ho']].
    + cbn in Hd'. injection Hd' as <-. apply lookup_insert_eq.
    + assert (Hg : G !! d' = Some (owner_Buffer o')).
      { apply (Hb o' b' d'); [|exact Hd']. now rewrite lookup_delete_ne. }
      rewrite lookup_insert_ne; [exact Hg | eauto].
  - intros o' b' r Ho' Hr. destruct (Hs o' b' r Ho' Hr) as (d' & Hd' & Hg).
    exists d'. split; [exact Hd'|]. rewrite lookup_insert_ne; [exact Hg | eauto].
Qed.

(** A [Buffer] goes, and its array with it. *)
Lemma owned_by_buffer_free G A C B S o b :
  owned_by G (State A C B S) -> B !! o = Some b ->
  exists G', owned_by G' (State (free_array (Buffer_data b) A) C (delete o B) S).
Proof.
  intros (Hi & Hb & Hs) Ho. destruct (Buffer_data b) as [d|] eqn:Hd.
  - pose proof (Hb o b d Ho Hd) as Hg. exists (delete d G).
    split; [|split]; cbn in *.
    + intros d' w Hw. apply lookup_delete_Some in Hw as [Hne Hw].
      rewrite lookup_delete_ne by exact Hne. eauto.
    + intros o' b' d' Ho' Hd'. apply lookup_delete_Some in Ho' as [Hne Ho'].
      pose proof (Hb o' b' d' Ho' Hd') as Hg'.
      rewrite lookup_delete_ne; [exact Hg' | congruence].
    + intros o' b' r Ho' Hr. destruct (Hs o' b' r Ho' Hr) as (d' & Hd' & Hg').
      exists d'. split; [exact Hd'|].
      rewrite lookup_delete_ne; [exact Hg' | congruence].
  - exists G. split; [|split]; cbn in *; [exact Hi| |exact Hs].
    intros o' b' d' Ho' Hd'. apply lookup_delete_Some in Ho' as [Hne Ho'].
    eauto.
Qed.

(** A [Buffer] is moved to an address that holds no array. *)
Lemma owned_by_buffer_move G A C B S this src b :
  owned_by G (State A C (delete this B) S) -> this <> src ->
  B !! src = Some b ->
  exists G', owned_by G'
    (State A C (<[src := Buffer_moved_from b]>
                  (<[this := Buffer_moved_to b]> B)) S).
Proof.
  intros (Hi & Hb & Hs) Hne Hsrc.
  assert (Hsrc' : delete this B !! src = Some b)
    by now rewrite lookup_delete_ne.
  unfold Buffer_moved_from, Buffer_moved_to.
  destruct (Z.eqb_spec (Buffer_m_size b) 0) as [E|E];
    [|destruct (Buffer_data b) as [d|] eqn:Hd].
  - exists G. split; [|split]; cbn in *; [exact Hi| |exact Hs].
    intros o' b' d' Ho' Hd'.
    apply lookup_insert_Some in Ho' as [[<- <-]|[Hn1 Ho']]; [eauto|].
    apply lookup_insert_Some in Ho' as [[<- <-]|[Hn2 Ho']]; [discriminate|].
    apply (Hb o' b' d'); [|exact Hd']. now rewrite lookup_delete_ne.
  - pose proof (Hb src b d Hsrc' Hd) as Hg.
    exists (<[d := owner_Buffer this]> G). split; [|split]; cbn in *.
    + intros d' w Hw.
      apply lookup_insert_Some in Hw as [[<- _]|[Hn Hw]]; eauto.
    + intros o' b' d' Ho' Hd'.
      apply lookup_insert_Some in Ho' as [[<- <-]|[Hn1 Ho']]; [discriminate|].
      apply lookup_insert_Some in Ho' as [[<- <-]|[Hn2 Ho']].
      * rewrite Hd in Hd'. injection Hd' as <-. apply lookup_insert_eq.
      * assert (Hg' : G !! d' = Some (owner_Buffer o')).
        { apply (Hb o' b' d'); [|exact Hd']. now rewrite lookup_delete_ne. }
        rewrite lookup_insert_ne; [exact Hg' | congruence].
    + intros o' b' r Ho' Hr. destruct (Hs o' b' r Ho' Hr) as (d' & Hd' & Hg').
      exists d'. split; [exact Hd'|].
      rewrite lookup_insert_ne; [exact Hg' | congruence].
  - exists G. split; [|split]; cbn in *; [exact Hi| |exact Hs].
    intros o' b' d' Ho' Hd'.
    apply lookup_insert_Some in Ho' as [[<- <-]|[Hn1 Ho']]; [discriminate|].
    apply lookup_insert_Some in Ho' as [[<- <-]|[Hn2 Ho']]; [congruence|].
    apply (Hb o' b' d'); [|exact Hd']. now rewrite lookup_delete_ne.
Qed.

(** A [Buffer] changes its size and keeps its data. *)
Lemma owned_by_buffer_resize G A C B S o b b' :
  owned_by G (State A C B S) -> B !! o = Some b ->
  Buffer_data b' = Buffer_data b ->
  owned_by G (State A C (<[o := b']> B) S).
Proof.
  intros (Hi & Hb & Hs) Ho Hd. split; [|split]; cbn in *; [exact Hi| |exact Hs].
  intros o' b'' d Ho' Hd'.
  apply lookup_insert_Some in Ho' as [[<- <-]|[Hne Ho']]; [|eauto].
  apply (Hb o b d Ho). congruence.
Qed.

(** A [SharedBuffer] without counter appears, or an instance is left
    without counter. *)
Lemma owned_by_shared_plain G A C B S o b :
  owned_by G (State A C B (delete o S)) -> SharedBuffer_refcount b = None ->
  owned_by G (State A C B (<[o := b]> S)).
Proof.
  intros (Hi & Hb & Hs) Hn. split; [|split]; cbn in *; [exact Hi|exact Hb|].
  intros o' b' r Ho' Hr. apply lookup_insert_Some in Ho' as [[<- <-]|[Hne Ho']].
  - congruence.
  - apply (Hs o' b' r); [|exact Hr]. now rewrite lookup_delete_ne.
Qed.

(** A [SharedBuffer] receives a freshly allocated array. *)
Lemma owned_by_shared_alloc G A C C' B S o d blk n r :
  owned_by G (State A C B (delete o S)) -> A !! d = None ->
  owned_by (<[d := owner_counter r]> G)
    (State (<[d := blk]> A) C' B
           (<[o := mkSharedBuffer (Some d) n (Some r)]> S)).
Proof.
  intros (Hi & Hb & Hs) Hd.
  assert (Hfresh : forall d' w, G !! d' = Some w -> d <> d').
  { intros d' w Hw ->. destruct (Hi d' w Hw) as [x Hx]. cbn in Hx. congruence. }
  split; [|split]; cbn in *.
  - intros d' w Hw. rewrite lookup_insert_is_Some.
    apply lookup_insert_Some in Hw as [[<- _]|[Hne Hw]]; [now left|right].
    split; [assumption|eauto].
  - intros o' b' d' Ho' Hd'. pose proof (Hb o' b' d' Ho' Hd') as Hg.
    rewrite lookup_insert_ne; [exact Hg | eauto].
  - intros o' b' r' Ho' Hr.
    apply lookup_insert_Some in Ho' as [[<- <-]|[Hne Ho']].
    + cbn in Hr. injection Hr as <-. exists d. split; [reflexivity|].
      apply lookup_insert_eq.
    + destruct (Hs o' b' r') as (d' & Hd' & Hg);
        [now rewrite lookup_delete_ne | exact Hr |].
      exists d'. split; [exact Hd'|].
      rewrite lookup_insert_ne; [exact Hg | eauto].
Qed.

(** An instance takes the members of another one. *)
Lemma owned_by_shared_copy G A C C' B S o src b :
  owned_by G (State A C B (delete o S)) -> o <> src -> S !! src = Some b ->
  owned_by G (State A C' B (<[o := b]> S)).
Proof.
  intros (Hi & Hb & Hs) Hne Hsrc. split; [|split]; cbn in *;
    [exact Hi|exact Hb|].
  intros o' b' r Ho' Hr. apply lookup_insert_Some in Ho' as [[<- <-]|[Hn Ho']].
  - apply (Hs src b r); [|exact Hr]. now rewrite lookup_delete_ne.
  - apply (Hs o' b' r); [|exact Hr]. now rewrite lookup_delete_ne.
Qed.

(** An instance takes members whose data is recorded for their counter. *)
Lemma owned_by_shared_insert G A C C' B S o b :
  owned_by G (State A C B (delete o S)) ->
  (forall r, SharedBuffer_refcount b = Some r ->
     exists d, SharedBuffer_data b = Some d /\
               G !! d = Some (owner_counter r)) ->
  owned_by G (State A C' B (<[o := b]> S)).
Proof.
  intros (Hi & Hb & Hs) Hnew. split; [|split]; cbn in *;
    [exact Hi|exact Hb|].
  intros o' b' r Ho' Hr. apply lookup_insert_Some in Ho' as [[<- <-]|[Hn Ho']].
  - now apply Hnew.
  - apply (Hs o' b' r); [|exact Hr]. now rewrite lookup_delete_ne.
Qed.

(** An instance keeps its data and its counter. *)
Lemma owned_by_shared_resize G A C B S o b b' :
  owned_by G (State A C B S) -> S !! o = Some b ->
  SharedBuffer_data b' = SharedBuffer_data b ->
  SharedBuffer_refcount b' = SharedBuffer_refcount b ->
  owned_by G (State A C B (<[o := b']> S)).
Proof.
  intros (Hi & Hb & Hs) Ho Hd Hr. split; [|split]; cbn in *;
    [exact Hi|exact Hb|].
  intros o' b'' r Ho' Hr'.
  apply lookup_insert_Some in Ho' as [[<- <-]|[Hne Ho']]; [|eauto].
  rewrite Hd. apply (Hs o b r Ho). congruence.
Qed.

(** Instances that are left alone keep what they own. *)
Lemma owned_by_shared_delete G A C B S o :
  owned_by G (State A C B S) -> owned_by G (State A C B (delete o S)).
Proof.
  intros (Hi & Hb & Hs). split; [|split]; cbn in *; [exact Hi|exact Hb|].
  intros o' b' r Ho' Hr. apply lookup_delete_Some in Ho' as [Hne Ho']. eauto.
Qed.

Lemma owned_by_buffer_delete G A C B S o :
  B !! o = None -> owned_by G (State A C B S) ->
  owned_by G (State A C (delete o B) S).
Proof. intros Ho H. now rewrite delete_id. Qed.

End Ownership.

(** An instance goes; the array goes with the last holder of its counter. *)
Lemma owned_by_released {T} G (s : state T) this b :
  counted s -> few_shareds s -> owned_by G s ->
  shareds s !! this = Some b ->
  exists G',
    owned_by G' (State (arrays (SharedBuffer_released b s))
                       (cells (SharedBuffer_released b s))
                       (buffers s) (delete this (shareds s))).
Proof.
  intros Hc Hfew Hown Hb. destruct s as [A C B S]. cbn in Hb.
  assert (Hkeep : owned_by G (State A C B (delete this S)))
    by (apply owned_by_shared_delete; exact Hown).
  unfold SharedBuffer_released. cbn [arrays cells buffers shareds].
  destruct (SharedBuffer_refcount b) as [r|] eqn:Hr; [|now exists G].
  destruct (C !! r) as [[v|]|] eqn:Hv; [|now exists G..].
  destruct (Z.eqb_spec (to_u32 (v - 1)) 0) as [E|E];
    cbn [arrays cells]; [|now exists G].
  destruct (Hc this b Hb) as [_ Hcnt]. cbn in Hcnt.
  rewrite (Hcnt r Hr) in Hv. injection Hv as <-.
  pose proof (holders_delete r this b S Hb) as Hh.
  rewrite decide_True in Hh by exact Hr.
  pose proof (holders_le_size r S) as Hle. unfold few_shareds in Hfew.
  cbn in Hfew. rewrite to_u32_small in E by lia.
  assert (Hz : holders r (delete this S) = 0%nat) by lia.
  destruct Hown as (Hi & Hbu & Hs). cbn in Hi, Hbu, Hs.
  destruct (Hs this b r Hb Hr) as (d & Hd & Hg). rewrite Hd.
  exists (delete d G). split; [|split]; cbn.
  - intros d' w Hw. apply lookup_delete_Some in Hw as [Hne Hw].
    rewrite lookup_delete_ne by exact Hne. eauto.
  - intros o' b' d' Ho' Hd'. pose proof (Hbu o' b' d' Ho' Hd') as Hg'.
    rewrite lookup_delete_ne; [exact Hg' | congruence].
  - intros o' b' r' Ho' Hr'.
    pose proof (holders_zero r o' b' _ Hz Ho') as Hnr.
    apply lookup_delete_Some in Ho' as [Hne Ho'].
    destruct (Hs o' b' r' Ho' Hr') as (d' & Hd' & Hg').
    exists d'. split; [exact Hd'|].
    rewrite lookup_delete_ne; [exact Hg' | congruence].
Qed.

Lemma owned_by_span {T} G (s s' : state T) this t size :
  owned_by G s ->
  Buffer_ctor_span this t size s = Ok tt s' ->
  exists G', owned_by G' s'.
Proof.
  intros Hown H. destruct s as [A C B S].
  apply Buffer_ctor_span_inv in H as [Ht [-> | (a & blk & _ & _ & ->)]];
    cbn in *.
  - exists G. apply owned_by_buffer_plain; [|reflexivity].
    apply owned_by_buffer_delete; eassumption.
  - eexists. apply owned_by_buffer_alloc; [|apply lookup_fresh].
    apply owned_by_buffer_delete; eassumption.
Qed.

Lemma owned_by_shared_span {T} G (s s' : state T) this t size :
  owned_by G s ->
  SharedBuffer_ctor_span this t size s = Ok tt s' ->
  exists G', owned_by G' s'.
Proof.
  intros Hown H. destruct s as [A C B S].
  apply SharedBuffer_ctor_span_inv in H as [Ht [-> | (a & blk & _ & _ & ->)]];
    cbn in *.
  - exists G. apply owned_by_shared_plain; [|reflexivity].
    apply owned_by_shared_delete; eassumption.
  - eexists. eapply owned_by_shared_alloc; [|apply lookup_fresh].
    apply owned_by_shared_delete; eassumption.
Qed.

(** Every call that returns keeps the ownership of the arrays. *)
Lemma exec_owned {T} (zero : T) NDEBUG (c : call) (s s' : state T) :
  exec zero NDEBUG c s = Ok tt s' ->
  counted s -> few_shareds s -> owned s -> owned s'.
Proof.
  intros H Hc Hfew [G Hown]. unfold owned.
  destruct c; cbn [exec] in H.
  - destruct s as [A C B S].
    apply Buffer_ctor_inv in H as [Ht ->]; cbn in *.
    exists G. apply owned_by_buffer_plain; [|reflexivity].
    apply owned_by_buffer_delete; eassumption.
  - destruct s as [A C B S].
    apply Buffer_ctor_size_inv in H as [Ht [-> | ->]]; cbn in *.
    + exists G. apply owned_by_buffer_plain; [|reflexivity].
      apply owned_by_buffer_delete; eassumption.
    + eexists. apply owned_by_buffer_alloc; [|apply lookup_fresh].
      apply owned_by_buffer_delete; eassumption.
  - destruct s as [A C B S].
    apply Buffer_ctor_move_inv in H as (b & Hb & Ht & ->); cbn in *.
    apply owned_by_buffer_move with G; [|congruence|exact Hb].
    apply owned_by_buffer_delete; eassumption.
  - eauto using owned_by_span.
  - destruct s as [A C B S].
    apply Buffer_dtor_inv in H as (b & Hb & Hd & ->); cbn in *.
    now apply owned_by_buffer_free with G.
  - destruct s as [A C B S].
    apply Buffer_assign_inv in H
      as [[_ ->] | (Hne & bt & b & Ht & Hb & Hd & ->)]; [now exists G|].
    cbn in *.
    destruct (owned_by_buffer_free G A C B S this bt Hown Ht) as [G1 H1].
    now apply owned_by_buffer_move with G1.
  - destruct s as [A C B S].
    apply Buffer_copyTo_inv in H
      as (bt & bb & Ht & Hb & Hd & [-> | [blk' ->]]); cbn in *;
      destruct (owned_by_buffer_free G A C B S buffer bb Hown Hb) as [G1 H1].
    + exists G1. now apply owned_by_buffer_plain.
    + eexists. apply owned_by_buffer_alloc; [exact H1 | apply lookup_fresh].
  - destruct s as [A C B S].
    apply Buffer_at_put_inv in H as (a & blk & blk' & Ha & ->); cbn in *.
    exists G. now apply owned_by_store with blk.
  - destruct s as [A C B S].
    apply Buffer_shrinkSize_inv in H as (b & Hb & [-> | ->]); cbn in *;
      [now exists G|].
    exists G. now apply owned_by_buffer_resize with b.
  - destruct s as [A C B S].
    apply SharedBuffer_ctor_inv in H as [Ht ->]; cbn in *.
    exists G. apply owned_by_shared_plain; [|reflexivity].
    apply owned_by_shared_delete; eassumption.
  - destruct s as [A C B S].
    apply SharedBuffer_ctor_size_inv in H as [Ht [-> | ->]]; cbn in *.
    + exists G. apply owned_by_shared_plain; [|reflexivity].
      apply owned_by_shared_delete; eassumption.
    + eexists. eapply owned_by_shared_alloc; [|apply lookup_fresh].
      apply owned_by_shared_delete; eassumption.
  - destruct s as [A C B S].
    apply SharedBuffer_ctor_copy_inv in H as (b & Hb & Ht & Hj & ->).
    cbn in *. exists G. unfold SharedBuffer_joined; cbn.
    apply owned_by_shared_copy with C buffer; [|congruence|exact Hb].
    apply owned_by_shared_delete; eassumption.
  - destruct s as [A C B S].
    apply SharedBuffer_ctor_move_inv in H as (b & Hb & Ht & ->); cbn in *.
    exists G. apply owned_by_shared_plain; [|reflexivity].
    rewrite delete_insert_ne by congruence.
    apply owned_by_shared_insert with C.
    + do 2 apply owned_by_shared_delete. exact Hown.
    + destruct Hown as (_ & _ & Hs). intros r Hr. exact (Hs buffer b r Hb Hr).
  - eauto using owned_by_shared_span.
  - apply SharedBuffer_ctor_Buffer_inv in H as (bb & _ & H).
    eauto using owned_by_shared_span.
  - apply SharedBuffer_dtor_inv in H as (b & Hb & Hrel & ->).
    now apply owned_by_released with G.
  - apply SharedBuffer_assign_inv in H
      as [(_ & _ & ->) | (Hne & bt & b & Ht & Hb & Hrel & Hj & ->)];
      [now exists G|].
    destruct (owned_by_released G s this bt Hc Hfew Hown Ht) as [G1 H1].
    exists G1. unfold SharedBuffer_joined.
    destruct (SharedBuffer_released_objects bt s) as [-> Hbu].
    rewrite Hbu. eapply owned_by_shared_copy; [exact H1 | exact Hne | exact Hb].
  - destruct s as [A C B S].
    apply SharedBuffer_at_put_inv in H as (a & blk & blk' & Ha & ->); cbn in *.
    exists G. now apply owned_by_store with blk.
  - destruct s as [A C B S].
    apply SharedBuffer_shrinkSize_inv in H as (b & Hb & [-> | [Hle ->]]);
      cbn in *; [now exists G|].
    exists G. now apply owned_by_shared_resize with b.
  - apply SharedBuffer_operator_Buffer_inv in H as (b & _ & H).
    eauto using owned_by_span.
  - destruct s as [A C B S].
    apply store_elem_inv in H as (a & blk & blk' & Ha & ->); cbn in *.
    exists G. now apply owned_by_store with blk.
Qed.

(** ** The invariant of the executions *)

Lemma owned_initial {T} : owned (initial T).
Proof.
  exists ∅. split; [|split]; cbn; intros *; rewrite lookup_empty; discriminate.
Qed.

Lemma reachable_invariant {T} (zero : T) NDEBUG (s : state T) :
  reachable_in zero NDEBUG few_shareds s -> counted s /\ owned s.
Proof.
  intros H. induction H as [Hi | s c s' Hs [IHc IHo] Hwt Hexec Hfew'].
  - split; [apply counted_initial | apply owned_initial].
  - pose proof (reachable_in_inside zero NDEBUG _ s Hs) as Hfew. split.
    + exact (exec_counted zero NDEBUG c s s' Hwt Hexec IHc Hfew Hfew').
    + exact (exec_owned zero NDEBUG c s s' Hexec IHc Hfew IHo).
Qed.

(** What is not allocated is not referred to by an instance that could
    delete it. *)
Lemma unallocated_unreferenced {T} (s : state T) :
  counted s -> owned s ->
  (forall r, cells s !! r = None ->
     forall o b, shareds s !! o = Some b -> SharedBuffer_refcount b <> Some r) /\
  (forall d, arrays s !! d = None ->
     (forall o b, buffers s !! o = Some b -> Buffer_data b <> Some d) /\
     (forall o b, shareds s !! o = Some b ->
        SharedBuffer_refcount b <> None -> SharedBuffer_data b <> Some d)).
Proof.
  intros Hc (G & Hi & Hb & Hs). split.
  - intros r Hr o b Hob Hrb. destruct (Hc o b Hob) as [_ Hcnt].
    rewrite (Hcnt r Hrb) in Hr. discriminate.
  - intros d Hd. split.
    + intros o b Hob Hdb. destruct (Hi d _ (Hb o b d Hob Hdb)) as [x Hx].
      congruence.
    + intros o b Hob Hrb Hdb.
      destruct (SharedBuffer_refcount b) as [r|] eqn:Hr; [|congruence].
      destruct (Hs o b r Hob Hr) as (d' & Hd' & Hg).
      assert (d' = d) by congruence. subst d'.
      destruct (Hi d _ Hg) as [x Hx]. congruence.
Qed.

Lemma few_shareds_delete {T} (s s' : state T) o :
  few_shareds s -> shareds s' = delete o (shareds s) -> few_shareds s'.
Proof.
  unfold few_shareds. intros Hfew ->.
  pose proof (map_subseteq_size (delete o (shareds s)) (shareds s)
                (delete_subseteq _ _)). lia.
Qed.

(** The destructor of a live instance, in a state that an execution
    reaches. *)
Lemma reachable_dtor {T} (zero : T) NDEBUG (s : state T) this b :
  reachable_in zero NDEBUG few_shareds s ->
  shareds s !! this = Some b ->
  exists s',
    SharedBuffer_dtor NDEBUG this s = Ok tt s' /\
    shareds s' = delete this (shareds s) /\ buffers s' = buffers s /\
    match SharedBuffer_refcount b with
    | None => arrays s' = arrays s /\ cells s' = cells s
    | Some r =>
        exists d blk,
          SharedBuffer_data b = Some d /\ arrays s !! d = Some blk /\
          cells s !! r = Some (Some (Z.of_nat (holders r (shareds s)))) /\
          ((1 < holders r (shareds s))%nat /\
           arrays s' = arrays s /\
           cells s' =
             <[r := Some (Z.of_nat (holders r (shareds s)) - 1)]> (cells s)
           \/
           holders r (shareds s) = 1%nat /\
           arrays s' = delete d (arrays s) /\
           cells s' = delete r (cells s) /\
           (forall o' b', shareds s' !! o' = Some b' ->
              SharedBuffer_refcount b' <> Some r) /\
           (forall o' b', shareds s' !! o' = Some b' ->
              SharedBuffer_refcount b' <> None ->
              SharedBuffer_data b' <> Some d) /\
           (forall o' b', buffers s' !! o' = Some b' ->
              Buffer_data b' <> Some d))
    end.
Proof.
  intros Hreach Hb.
  destruct (reachable_invariant zero NDEBUG s Hreach) as [Hc Hown].
  pose proof (reachable_in_inside zero NDEBUG _ s Hreach) as Hfew.
  destruct (Hc this b Hb) as [_ Hcnt].
  assert (Hrel : SharedBuffer_releasable NDEBUG b s).
  { unfold SharedBuffer_releasable.
    destruct (SharedBuffer_refcount b) as [r|] eqn:Hr; [|exact I].
    exists (Z.of_nat (holders r (shareds s))).
    split; [now apply Hcnt|].
    pose proof (holders_positive r this b _ Hb Hr). split; [right; lia|].
    intros _. destruct Hown as (G & Hi & _ & Hs).
    destruct (Hs this b r Hb Hr) as (d & -> & Hg). exact (Hi d _ Hg). }
  pose proof (SharedBuffer_dtor_ok NDEBUG s this b Hb Hrel) as Hdtor.
  eexists. split; [exact Hdtor|]. cbn [shareds buffers arrays cells].
  split; [reflexivity|]. split; [reflexivity|].
  assert (Hreach' : reachable_in zero NDEBUG few_shareds
            (State (arrays (SharedBuffer_released b s))
                   (cells (SharedBuffer_released b s))
                   (buffers s) (delete this (shareds s)))).
  { apply (reachable_call zero NDEBUG few_shareds s (delete_SharedBuffer this));
      [exact Hreach | exact I | exact Hdtor |].
    now apply (few_shareds_delete s _ this). }
  destruct (reachable_invariant zero NDEBUG _ Hreach') as [Hc' Hown'].
  destruct (unallocated_unreferenced _ Hc' Hown') as [Hcell Harr].
  cbn [shareds buffers arrays cells] in Hcell, Harr.
  unfold SharedBuffer_released in *.
  destruct (SharedBuffer_refcount b) as [r|] eqn:Hr; [|easy].
  rewrite (Hcnt r eq_refl) in *.
  pose proof (holders_positive r this b _ Hb Hr) as Hpos.
  pose proof (holders_le_size r (shareds s)) as Hle.
  unfold few_shareds in Hfew.
  destruct Hown as (G & Hi & _ & Hs).
  destruct (Hs this b r Hb Hr) as (d & Hd & Hg).
  destruct (Hi d _ Hg) as [blk Hblk].
  exists d, blk. split; [exact Hd|]. split; [exact Hblk|].
  split; [reflexivity|].
  rewrite to_u32_small in * by lia.
  destruct (Z.eqb_spec (Z.of_nat (holders r (shareds s)) - 1) 0) as [E|E];
    cbn [arrays cells] in *.
  - right. split; [lia|]. rewrite Hd in *. cbn [free_array] in *.
    split; [reflexivity|]. split; [reflexivity|].
    split; [apply Hcell, lookup_delete_eq|].
    destruct (Harr d (lookup_delete_eq _ _)) as [HB HS]. split; assumption.
  - left. split; [lia|]. split; reflexivity.
Qed.

(** C4, amended: at every state of an execution that never has [2^32] or
    more live [SharedBuffer] instances, every non-empty instance has a
    counter, and the counter of every instance holds the number of live
    instances that share it.  In such a state the destructor of a live
    instance returns: without a counter it changes nothing in the store;
    with a counter above 1 it decrements the counter and deletes nothing;
    with a counter at 1 it deletes the array and the counter cell, both
    allocated until then, and no instance is left that refers to the cell,
    nor a [Buffer] or an instance with a counter that refers to the array.
    In a build with assertions, the destructor of an instance whose counter
    is not positive fails its assertion. *)
Theorem SharedBuffer_refcount_invariant {T} (zero : T) (NDEBUG : bool)
    (s : state T) :
  reachable_in zero NDEBUG few_shareds s ->
  counted s /\
  (forall this b, shareds s !! this = Some b ->
   exists s',
    SharedBuffer_dtor NDEBUG this s = Ok tt s' /\
    shareds s' = delete this (shareds s) /\ buffers s' = buffers s /\
    match SharedBuffer_refcount b with
    | None => arrays s' = arrays s /\ cells s' = cells s
    | Some r =>
        exists d blk,
          SharedBuffer_data b = Some d /\ arrays s !! d = Some blk /\
          cells s !! r = Some (Some (Z.of_nat (holders r (shareds s)))) /\
          ((1 < holders r (shareds s))%nat /\
           arrays s' = arrays s /\
           cells s' =
             <[r := Some (Z.of_nat (holders r (shareds s)) - 1)]> (cells s)
           \/
           holders r (shareds s) = 1%nat /\
           arrays s' = delete d (arrays s) /\
           cells s' = delete r (cells s) /\
           (forall o' b', shareds s' !! o' = Some b' ->
              SharedBuffer_refcount b' <> Some r) /\
           (forall o' b', shareds s' !! o' = Some b' ->
              SharedBuffer_refcount b' <> None ->
              SharedBuffer_data b' <> Some d) /\
           (forall o' b', buffers s' !! o' = Some b' ->
              Buffer_data b' <> Some d))
    end) /\
  (forall (s0 : state T) this b r v,
     shareds s0 !! this = Some b ->
     SharedBuffer_refcount b = Some r ->
     cells s0 !! r = Some (Some v) ->
     v <= 0 ->
     SharedBuffer_dtor false this s0 = AssertionFailed).
Proof.
  intros Hreach. split; [|split].
  - exact (proj1 (reachable_invariant zero NDEBUG s Hreach)).
  - intros this b Hb. exact (reachable_dtor zero NDEBUG s this b Hreach Hb).
  - intros s0 this b r v. apply SharedBuffer_dtor_underflow.
Qed.

Lemma SharedBuffer_refcount_invariant_witness :
  counted sample /\
  cells sample !! 1%positive = Some (Some 2) /\
  holders 1 (shareds sample) = 2%nat.
Proof.
  assert (Hfew : forall s : state Byte.byte,
            (size (shareds s) <=? 2)%nat = true -> few_shareds s).
  { intros s Hs. apply Nat.leb_le in Hs. unfold few_shareds, U32_MOD. lia. }
  assert (Hreach : reachable_in Byte.x00 false few_shareds sample).
  { apply (reachable_call Byte.x00 false few_shareds
             (after (Buffer_ctor_size 1 4 >> SharedBuffer_ctor_size Byte.x00 1 4)
                    (initial Byte.byte))
             (new_SharedBuffer_copy 2 1));
      [|exact I|reflexivity|apply Hfew; reflexivity].
    apply (reachable_call Byte.x00 false few_shareds
             (after (Buffer_ctor_size 1 4) (initial Byte.byte))
             (new_SharedBuffer_size 1 4));
      [|unfold well_typed, is_size_t, SIZE_MOD; lia|reflexivity
       |apply Hfew; reflexivity].
    apply (reachable_call Byte.x00 false few_shareds (initial Byte.byte)
             (new_Buffer_size 1 4));
      [|unfold well_typed, is_size_t, SIZE_MOD; lia|reflexivity
       |apply Hfew; reflexivity].
    apply reachable_initial. apply Hfew. reflexivity. }
  destruct (SharedBuffer_refcount_invariant Byte.x00 false sample Hreach)
    as (Hc & _ & _).
  split; [exact Hc|]. split; reflexivity.
Defined.

(** ** The counter of a crowd *)

Lemma crowd_instances_succ n :
  crowd_instances (N.succ n) =
  <[N.succ_pos (N.succ n) := crowd_member]> (crowd_instances n).
Proof. unfold crowd_instances. now rewrite N.peano_rect_succ. Qed.

Lemma crowd_instances_spec n :
  crowd_instances n !! 1%positive = Some crowd_member /\
  (forall o, (N.succ n < N.pos o)%N -> crowd_instances n !! o = None).
Proof.
  induction n as [|n [IH1 IH2]] using N.peano_ind.
  - split; [reflexivity|]. intros o Ho.
    unfold crowd_instances. rewrite N.peano_rect_base.
    apply lookup_singleton_ne. lia.
  - rewrite crowd_instances_succ. split.
    + rewrite lookup_insert_ne; [exact IH1|].
      destruct n; cbn; lia.
    + intros o Ho. rewrite lookup_insert_ne.
      * apply IH2. lia.
      * intros <-. rewrite N.succ_pos_spec in Ho. lia.
Qed.

(** The crowd of [n] copies is reached by [n] copy constructions, whatever
    [n] is. *)
Lemma crowd_reachable {T} (zero : T) NDEBUG n :
  reachable zero NDEBUG (crowd zero n).
Proof.
  induction n as [|n IH] using N.peano_ind.
  - apply (reachable_call zero NDEBUG _ (initial T) (new_SharedBuffer_size 1 1));
      [now apply reachable_initial
      |unfold well_typed, is_size_t, SIZE_MOD; lia| |exact I].
    reflexivity.
  - apply (reachable_call zero NDEBUG _ (crowd zero n)
             (new_SharedBuffer_copy (N.succ_pos (N.succ n)) 1));
      [exact IH|exact I| |exact I].
    destruct (crowd_instances_spec n) as [H1 Hnone].
    cbn [exec].
    rewrite (SharedBuffer_ctor_copy_ok NDEBUG (crowd zero n)
               (N.succ_pos (N.succ n)) 1 crowd_member).
    + unfold SharedBuffer_joined, crowd.
      cbn [arrays cells buffers shareds crowd_member SharedBuffer_refcount].
      rewrite lookup_singleton_eq, insert_singleton_eq, to_u32_succ.
      rewrite crowd_instances_succ.
      now replace (1 + Z.of_N n + 1) with (1 + Z.of_N (N.succ n)) by lia.
    + exact H1.
    + apply Hnone. rewrite N.succ_pos_spec. lia.
    + exists (to_u32 (1 + Z.of_N n)). apply lookup_singleton_eq.
Qed.

(** A crowd whose size is a multiple of [2^32] has a counter that holds 0. *)
Lemma crowd_not_counted {T} (zero : T) n :
  to_u32 (1 + Z.of_N n) = 0 ->
  shareds (crowd zero n) !! 1%positive =
    Some (mkSharedBuffer (Some 1%positive) 1 (Some 1%positive)) /\
  cells (crowd zero n) !! 1%positive = Some (Some 0) /\
  ~ counted (crowd zero n).
Proof.
  intros Hz. destruct (crowd_instances_spec n) as [H1 _].
  assert (Hcell : cells (crowd zero n) !! 1%positive = Some (Some 0)).
  { unfold crowd; cbn [cells]. now rewrite lookup_singleton_eq, Hz. }
  split; [exact H1|]. split; [exact Hcell|].
  intros Hc. destruct (Hc 1%positive crowd_member H1) as [_ Hcnt].
  specialize (Hcnt 1%positive eq_refl). rewrite Hcell in Hcnt.
  pose proof (holders_positive 1 1 crowd_member _ H1 eq_refl) as Hpos.
  injection Hcnt as Hcnt. lia.
Qed.

(** In such a crowd the destructor finds a counter that holds 0: with
    assertions it aborts, and with [NDEBUG] it returns and leaves the counter
    at [2^32 - 1]. *)
Lemma crowd_underflow {T} (zero : T) n :
  to_u32 (1 + Z.of_N n) = 0 ->
  SharedBuffer_dtor false 1 (crowd zero n) = AssertionFailed /\
  exists s', SharedBuffer_dtor true 1 (crowd zero n) = Ok tt s' /\
    cells s' !! 1%positive = Some (Some 4294967295).
Proof.
  intros Hz. destruct (crowd_instances_spec n) as [H1 _].
  assert (Hcell : cells (crowd zero n) !! 1%positive = Some (Some 0)).
  { unfold crowd; cbn [cells]. now rewrite lookup_singleton_eq, Hz. }
  split.
  - apply (SharedBuffer_dtor_underflow (crowd zero n) 1 crowd_member 1 0);
      [exact H1 | reflexivity | exact Hcell | lia].
  - eexists. split.
    + apply (SharedBuffer_dtor_ok true (crowd zero n) 1 crowd_member H1).
      exists 0. split; [exact Hcell|]. split; [now left|]. discriminate.
    + unfold SharedBuffer_released.
      cbn [crowd_member SharedBuffer_refcount]. rewrite Hcell.
      cbn. apply lookup_insert_eq.
Qed.

(** After [2^32 - 1] copy constructions the [u32] counter of the [2^32]
    instances has wrapped around to 0: a state that an execution reaches, in
    either build, in which a non-empty instance has a counter that does not
    hold the number of its holders.  There, with [NDEBUG], the destructor
    does not abort: it decrements the counter from 0 to [2^32 - 1]. *)
Lemma SharedBuffer_refcount_wraps :
  exists s : state Byte.byte,
    reachable Byte.x00 false s /\
    reachable Byte.x00 true s /\
    (shareds s !! 1%positive =
       Some (mkSharedBuffer (Some 1%positive) 1 (Some 1%positive)) /\
     cells s !! 1%positive = Some (Some 0) /\
     ~ counted s) /\
    exists s', SharedBuffer_dtor true 1 s = Ok tt s' /\
      cells s' !! 1%positive = Some (Some 4294967295).
Proof.
  exists (crowd Byte.x00 4294967295).
  assert (Hz : to_u32 (1 + Z.of_N 4294967295) = 0) by (vm_compute; reflexivity).
  split; [apply crowd_reachable|]. split; [apply crowd_reachable|].
  split; [now apply crowd_not_counted|].
  now apply crowd_underflow.
Qed.

(** ** IntrusiveReferenceCounted: calls in any order *)

Lemma calls_app l1 l2 w : calls (l1 ++ l2) w = calls l2 (calls l1 w).
Proof.
  revert w. induction l1 as [|c l1 IH]; intros w; cbn; [reflexivity|apply IH].
Qed.

Lemma calls_None l : calls l None = None.
Proof. induction l as [|c l IH]; cbn; [reflexivity|exact IH]. Qed.

(** As long as the number of references held stays positive and below
    [2^32] after every call, the counter follows it and nothing is
    deleted. *)
Lemma calls_live l : forall c d,
  (forall k, (k <= length l)%nat -> 0 < c + balance (take k l) < U32_MOD) ->
  calls l (Some (Intrusive (Some c) d)) =
  Some (Intrusive (Some (c + balance l)) d).
Proof.
  induction l as [|x l IH]; intros c d H.
  - cbn. now rewrite Z.add_0_r.
  - pose proof (H 0%nat ltac:(cbn; lia)) as H0. cbn in H0.
    pose proof (H 1%nat ltac:(cbn; lia)) as H1. cbn in H1.
    destruct x; cbn in H1; rewrite take_0 in H1; cbn in H1;
      cbn [calls call_on grab drop m_refcount deletions balance].
    + rewrite to_u32_small by lia. rewrite IH.
      * do 3 f_equal. lia.
      * intros k Hk. specialize (H (S k) ltac:(cbn; lia)). cbn in H. lia.
    + rewrite to_u32_small by lia.
      destruct (Z.eqb_spec (c - 1) 0) as [E|E]; [lia|]. rewrite IH.
      * do 3 f_equal. lia.
      * intros k Hk. specialize (H (S k) ltac:(cbn; lia)). cbn in H. lia.
Qed.

(** X10: whatever the order of the [grab] and [drop] calls on a new object,
    as long as after every call at least one reference is held (the one of
    the creator included) and fewer than [2^32] are, the object is alive,
    its counter holds the number of references held, and nothing has been
    deleted.  When exactly one reference is held, the next [drop] deletes
    the object, once, and every call after that has no defined behaviour. *)
Theorem intrusive_calls_any_order (l : list IntrusiveReferenceCounted_call) :
  (forall k, (k <= length l)%nat -> 0 < 1 + balance (take k l) < U32_MOD) ->
  calls l (Some IntrusiveReferenceCounted_new) =
    Some (Intrusive (Some (1 + balance l)) 0) /\
  (balance l = 0 ->
   calls (l ++ [call_drop]) (Some IntrusiveReferenceCounted_new) =
     Some (Intrusive None 1) /\
   forall c l',
     calls (l ++ call_drop :: c :: l') (Some IntrusiveReferenceCounted_new) =
     None).
Proof.
  intros H. pose proof (calls_live l 1 0 H) as Hl. split; [exact Hl|].
  intros Hz. unfold IntrusiveReferenceCounted_new. split.
  - rewrite calls_app, Hl, Hz. reflexivity.
  - intros c l'. rewrite calls_app, Hl, Hz.
    destruct c; cbn; apply calls_None.
Qed.

Lemma intrusive_calls_any_order_witness :
  calls [call_grab; call_drop; call_grab; call_grab; call_drop; call_drop]
        (Some IntrusiveReferenceCounted_new) =
    Some (Intrusive (Some 1) 0) /\
  calls [call_grab; call_drop; call_grab; call_grab; call_drop; call_drop;
         call_drop]
        (Some IntrusiveReferenceCounted_new) =
    Some (Intrusive None 1).
Proof.
  assert (H : forall k, (k <= 6)%nat ->
            0 < 1 + balance (take k [call_grab; call_drop; call_grab;
                                     call_grab; call_drop; call_drop])
              < U32_MOD).
  { intros k Hk. unfold U32_MOD.
    do 7 (destruct k as [|k]; [cbn; lia|]). lia. }
  destruct (intrusive_calls_any_order
              [call_grab; call_drop; call_grab; call_grab; call_drop;
               call_drop] H) as [H1 H2].
  split; [exact H1|]. exact (proj1 (H2 eq_refl)).
Defined.

(** ** Construction from a size, and the elements it leaves *)

(** X1: [Buffer(size_t)] keeps every size [n] of type [size_t] as it is,
    also from [2^32] on: [getSize()] returns [n].  For [n = 0] it allocates
    nothing and [data] is null.  Otherwise [data] is a new array of [n]
    elements which it does not initialize: every element reads as
    indeterminate.  Counters and [SharedBuffer] instances are not touched. *)
Theorem Buffer_ctor_size_keeps_size {T} (s : state T) (this : obj) (n : Z) :
  buffers s !! this = None ->
  is_size_t n ->
  exists s',
    Buffer_ctor_size this n s = Ok tt s' /\
    Buffer_getSize this s' = Ok n s' /\
    cells s' = cells s /\ shareds s' = shareds s /\
    (n = 0 -> Buffer_deref this s' = Ok None s' /\ arrays s' = arrays s) /\
    (n <> 0 -> exists d,
       Buffer_deref this s' = Ok (Some d) s' /\
       arrays s !! d = None /\
       arrays s' = <[d := Block n (fun _ => None)]> (arrays s) /\
       forall i, 0 <= i < n -> Buffer_at this i s' = Ok None s').
Proof.
  intros Ht [Hlo Hhi]. destruct (Z.eq_dec n 0) as [->|Hn].
  - eexists. split; [run; rewrite !insert_insert_eq; reflexivity|].
    split; [now run|]. split; [reflexivity|]. split; [reflexivity|].
    split; [|easy]. intros _. split; [now run|reflexivity].
  - eexists. split; [run; rewrite !insert_insert_eq; reflexivity|].
    split; [now run|]. split; [reflexivity|]. split; [reflexivity|].
    split; [easy|]. intros _. exists (fresh (dom (arrays s))).
    split; [now run|]. split; [apply lookup_fresh|]. split; [reflexivity|].
    intros i Hi. run. unfold below.
    rewrite (proj2 (Z.leb_le 0 i)), (proj2 (Z.ltb_lt i n)) by lia.
    reflexivity.
Qed.

Lemma Buffer_ctor_size_keeps_size_witness :
  exists s',
    Buffer_ctor_size 1 4294967296 (initial Byte.byte) = Ok tt s' /\
    Buffer_getSize 1 s' = Ok 4294967296 s' /\
    Buffer_at 1 4294967295 s' = Ok None s'.
Proof.
  destruct (Buffer_ctor_size_keeps_size (initial Byte.byte) 1 4294967296)
    as (s' & Hrun & Hsize & _ & _ & _ & Hdata).
  - reflexivity.
  - unfold is_size_t, SIZE_MOD. lia.
  - destruct (Hdata ltac:(lia)) as (d & _ & _ & _ & Hat).
    exists s'. split; [exact Hrun|]. split; [exact Hsize|].
    apply Hat. lia.
Defined.

(** X2: [SharedBuffer(size_t)] leaves an instance whose size is [n] modulo
    [2^32] and whose elements are all zero: [operator[]] returns the zero
    element at every index below the size, in either build.  At an index
    from the size on, [operator[]] fails its assertion in a build with
    assertions, and without them it reads outside the array, which has no
    defined behaviour. *)
Theorem SharedBuffer_ctor_size_zero_filled {T} (zero : T) (NDEBUG : bool)
    (s : state T) (this : obj) (n : Z) :
  shareds s !! this = None ->
  is_size_t n ->
  exists s',
    SharedBuffer_ctor_size zero this n s = Ok tt s' /\
    SharedBuffer_getSize this s' = Ok (to_u32 n) s' /\
    (forall i, 0 <= i < to_u32 n ->
       SharedBuffer_at NDEBUG this i s' = Ok (Some zero) s') /\
    (forall i, to_u32 n <= i ->
       SharedBuffer_at false this i s' = AssertionFailed /\
       SharedBuffer_at true this i s' = Undefined).
Proof.
  intros Ht _. pose proof (to_u32_range n) as Hr.
  destruct (Z.eq_dec (to_u32 n) 0) as [E|E].
  - eexists. split; [now apply SharedBuffer_ctor_size_zero|].
    split; [run; now rewrite E|]. split; [intros i Hi; lia|].
    intros i Hi. split; now run.
  - eexists. split; [now apply SharedBuffer_ctor_size_nonzero|].
    split; [now run|]. split.
    + intros i Hi. destruct NDEBUG; run; unfold below;
        rewrite (proj2 (Z.leb_le 0 i)), (proj2 (Z.ltb_lt i (to_u32 n))) by lia;
        reflexivity.
    + intros i Hi. split; [now run|]. run. unfold below.
      rewrite (proj2 (Z.ltb_ge i (to_u32 n))) by lia.
      now rewrite andb_false_r.
Qed.

Lemma SharedBuffer_ctor_size_zero_filled_witness :
  exists s',
    SharedBuffer_ctor_size Byte.x00 1 4 (initial Byte.byte) = Ok tt s' /\
    SharedBuffer_at false 1 3 s' = Ok (Some Byte.x00) s' /\
    SharedBuffer_at false 1 4 s' = AssertionFailed.
Proof.
  destruct (SharedBuffer_ctor_size_zero_filled Byte.x00 false
              (initial Byte.byte) 1 4)
    as (s' & Hrun & _ & Hin & Hout).
  - reflexivity.
  - unfold is_size_t, SIZE_MOD. lia.
  - exists s'. split; [exact Hrun|]. split.
    + apply Hin. split; vm_compute; [discriminate | reflexivity].
    + apply Hout. vm_compute. discriminate.
Defined.

(** ** Construction from a span *)

Lemma below_true n i : 0 <= i < n -> below n i = true.
Proof.
  intros H. unfold below.
  now rewrite (proj2 (Z.leb_le 0 i)), (proj2 (Z.ltb_lt i n)) by lia.
Qed.

(** X3: [Buffer(const T *t, size_t size)] with [size = 0] gives the empty
    buffer and does not look at [t].  With [0 < size] and [t] pointing to an
    array of at least [size] elements it gives a buffer of that size whose
    array is new, apart from the source, and holds the first [size] elements
    of the source; the source stays as it is, also when an element of the
    copy is assigned later.  With [0 < size] and [t] null the behaviour is
    undefined. *)
Theorem Buffer_ctor_span_copies {T} (s : state T) (this : obj) :
  buffers s !! this = None ->
  (forall t,
     Buffer_ctor_span this t 0 s =
     Ok tt (State (arrays s) (cells s)
                  (<[this := mkBuffer None 0]> (buffers s)) (shareds s))) /\
  (forall n, n <> 0 -> Buffer_ctor_span this None n s = Undefined) /\
  (forall a blk n,
     arrays s !! a = Some blk ->
     0 < n <= blen blk ->
     exists s' d,
       Buffer_ctor_span this (Some a) n s = Ok tt s' /\
       buffers s' !! this = Some (mkBuffer (Some d) n) /\
       d <> a /\ arrays s !! d = None /\
       arrays s' !! a = Some blk /\
       (forall i, 0 <= i < n -> Buffer_at this i s' = Ok (bval blk i) s') /\
       (forall i v, 0 <= i < n ->
          exists s'',
            Buffer_at_put this i v s' = Ok tt s'' /\
            Buffer_at this i s'' = Ok (Some v) s'' /\
            arrays s'' !! a = Some blk)).
Proof.
  intros Ht. split; [intros t; now apply Buffer_ctor_span_zero|]. split.
  - intros n Hn. now run.
  - intros a blk n Ha Hn. pose proof (fresh_ne _ _ _ Ha) as Hf.
    eexists _, (fresh (dom (arrays s))).
    split; [apply Buffer_ctor_span_nonzero; [exact Ht|lia|exact Ha|lia]|].
    cbn [buffers arrays]. split; [apply lookup_insert_eq|].
    split; [exact Hf|]. split; [apply lookup_fresh|].
    split; [now rewrite lookup_insert_ne|]. split.
    + intros i Hi. run. now rewrite !below_true by lia.
    + intros i v Hi. eexists. split; [|split].
      * run. rewrite below_true by lia. reflexivity.
      * run. rewrite below_true by lia. reflexivity.
      * cbn [arrays]. now rewrite !lookup_insert_ne.
Qed.

Lemma Buffer_ctor_span_copies_witness :
  exists s' d,
    Buffer_ctor_span 5 (Some 1%positive) 4 sample_single = Ok tt s' /\
    buffers s' !! 5%positive = Some (mkBuffer (Some d) 4) /\
    d <> 1%positive /\
    Buffer_at 5 3 s' = Ok (Some Byte.x00) s'.
Proof.
  destruct (Buffer_ctor_span_copies sample_single 5 eq_refl) as (_ & _ & H).
  destruct (H 1%positive
              (Block 4 (fun i => if below 4 i then Some Byte.x00 else None)) 4)
    as (s' & d & Hrun & Hb & Hd & _ & _ & Hat & _).
  - reflexivity.
  - cbn. lia.
  - exists s', d. split; [exact Hrun|]. split; [exact Hb|].
    split; [exact Hd|]. apply (Hat 3). lia.
Defined.

(** X4: [SharedBuffer(const T *t, size_t size)] takes [size] modulo [2^32]
    as its size [m].  With [m = 0] it gives the empty sentinel and does not
    look at [t].  With [0 < m] and [t] pointing to an array of at least [m]
    elements it gives an instance of size [m] with a new array, apart from
    the source, that holds the first [m] elements of the source, and with a
    new counter that holds 1; the source stays as it is. *)
Theorem SharedBuffer_ctor_span_copies {T} (NDEBUG : bool) (s : state T)
    (this : obj) (n : Z) :
  shareds s !! this = None ->
  is_size_t n ->
  (to_u32 n = 0 ->
   forall t,
     SharedBuffer_ctor_span this t n s =
     Ok tt (State (arrays s) (cells s) (buffers s)
                  (<[this := SharedBuffer_default]> (shareds s)))) /\
  (forall a blk,
     arrays s !! a = Some blk ->
     0 < to_u32 n <= blen blk ->
     exists s' d r,
       SharedBuffer_ctor_span this (Some a) n s = Ok tt s' /\
       shareds s' !! this =
         Some (mkSharedBuffer (Some d) (to_u32 n) (Some r)) /\
       d <> a /\ arrays s !! d = None /\ cells s !! r = None /\
       cells s' = <[r := Some 1]> (cells s) /\
       arrays s' !! a = Some blk /\
       (forall i, 0 <= i < to_u32 n ->
          SharedBuffer_at NDEBUG this i s' = Ok (bval blk i) s')).
Proof.
  intros Ht _. split.
  - intros Hz t. now apply SharedBuffer_ctor_span_zero.
  - intros a blk Ha Hn. pose proof (fresh_ne _ _ _ Ha) as Hf.
    eexists _, (fresh (dom (arrays s))), (fresh (dom (cells s))).
    split;
      [apply SharedBuffer_ctor_span_nonzero; [exact Ht|lia|exact Ha|lia]|].
    cbn [shareds arrays cells]. split; [apply lookup_insert_eq|].
    split; [exact Hf|]. split; [apply lookup_fresh|].
    split; [apply lookup_fresh|]. split; [reflexivity|].
    split; [now rewrite lookup_insert_ne|].
    intros i Hi. destruct NDEBUG; run; now rewrite !below_true by lia.
Qed.

Lemma SharedBuffer_ctor_span_copies_witness :
  exists s' d r,
    SharedBuffer_ctor_span 5 (Some 1%positive) 4294967298 sample_single =
      Ok tt s' /\
    shareds s' !! 5%positive = Some (mkSharedBuffer (Some d) 2 (Some r)) /\
    SharedBuffer_at false 5 1 s' = Ok (Some Byte.x00) s'.
Proof.
  destruct (SharedBuffer_ctor_span_copies false sample_single 5 4294967298
              eq_refl) as (_ & H).
  - unfold is_size_t, SIZE_MOD. lia.
  - destruct (H 1%positive
                (Block 4 (fun i => if below 4 i then Some Byte.x00 else None)))
      as (s' & d & r & Hrun & Hb & _ & _ & _ & _ & _ & Hat).
    + reflexivity.
    + split; vm_compute; [reflexivity | discriminate].
    + exists s', d, r. split; [exact Hrun|]. split; [exact Hb|].
      apply (Hat 1). split; vm_compute; [discriminate | reflexivity].
Defined.

(** ** copyTo *)

(** X5: [a.copyTo(b)] for two distinct buffers deletes the array of [b]
    first.  When [a] has size 0, [b] is left with size 0 and no data.
    Otherwise [b] gets the size of [a] and a new array, allocated in what
    remains of the store and apart from the array of [a], that holds the
    elements of [a] below its size; [a] and its array stay as they are. *)
Theorem Buffer_copyTo_copies {T} (s : state T) (this buffer : obj)
    (bt bb : Buffer) :
  this <> buffer ->
  buffers s !! this = Some bt ->
  buffers s !! buffer = Some bb ->
  deletable (Buffer_data bb) (arrays s) ->
  (Buffer_m_size bt = 0 ->
   Buffer_copyTo this buffer s =
   Ok tt (State (free_array (Buffer_data bb) (arrays s)) (cells s)
                (<[buffer := mkBuffer None 0]> (buffers s)) (shareds s))) /\
  (forall a blk,
     Buffer_data bt = Some a ->
     Buffer_data bb <> Some a ->
     arrays s !! a = Some blk ->
     0 < Buffer_m_size bt <= blen blk ->
     exists s' d blk',
       Buffer_copyTo this buffer s = Ok tt s' /\
       buffers s' =
         <[buffer := mkBuffer (Some d) (Buffer_m_size bt)]> (buffers s) /\
       free_array (Buffer_data bb) (arrays s) !! d = None /\
       arrays s' = <[d := blk']> (free_array (Buffer_data bb) (arrays s)) /\
       blen blk' = Buffer_m_size bt /\
       d <> a /\
       arrays s' !! a = Some blk /\
       (forall i, 0 <= i < Buffer_m_size bt ->
          Buffer_at buffer i s' = Ok (bval blk i) s')).
Proof.
  intros Hne Ht Hb Hdel. destruct bt as [dt n], bb as [[a'|] m];
    cbn [Buffer_data Buffer_m_size deletable free_array] in *.
  - destruct Hdel as [blk0 Ha']. split.
    + intros ->. run. rewrite !insert_insert_eq. reflexivity.
    + intros a blk -> Hnea Ha Hn.
      assert (Haa : a' <> a) by congruence.
      assert (Ha2 : delete a' (arrays s) !! a = Some blk)
        by now rewrite lookup_delete_ne.
      pose proof (fresh_ne _ _ _ Ha2) as Hf.
      eexists _, (fresh (dom (delete a' (arrays s)))), _. split.
      * run. rewrite !insert_insert_eq. reflexivity.
      * cbn [buffers arrays]. split; [reflexivity|].
        split; [apply lookup_fresh|]. split; [reflexivity|].
        split; [reflexivity|]. split; [exact Hf|].
        split; [now rewrite lookup_insert_ne|].
        intros i Hi. run. now rewrite !below_true by lia.
  - split.
    + intros ->. run. rewrite !insert_insert_eq. now destruct s.
    + intros a blk -> _ Ha Hn.
      pose proof (fresh_ne _ _ _ Ha) as Hf.
      eexists _, (fresh (dom (arrays s))), _. split.
      * run. rewrite !insert_insert_eq. reflexivity.
      * cbn [buffers arrays]. split; [reflexivity|].
        split; [apply lookup_fresh|]. split; [reflexivity|].
        split; [reflexivity|]. split; [exact Hf|].
        split; [now rewrite lookup_insert_ne|].
        intros i Hi. run. now rewrite !below_true by lia.
Qed.

Lemma Buffer_copyTo_copies_witness :
  exists s',
    Buffer_copyTo 1 2 sample_buffers = Ok tt s' /\
    Buffer_at 2 0 s' = Ok (Some Byte.x41) s' /\
    Buffer_at 2 1 s' = Ok (Some Byte.x42) s' /\
    Buffer_getSize 2 s' = Ok 2 s'.
Proof.
  edestruct (Buffer_copyTo_copies sample_buffers 1 2) as [_ H].
  - discriminate.
  - vm_compute. reflexivity.
  - vm_compute. reflexivity.
  - vm_compute. eexists. reflexivity.
  - edestruct (H 1%positive) as (s' & d & blk' & Hrun & Hb & _ & _ & _ & _ & _ & Hat).
    + reflexivity.
    + discriminate.
    + vm_compute. reflexivity.
    + cbn. lia.
    + exists s'. split; [exact Hrun|].
      split; [exact (Hat 0 ltac:(cbn; lia))|].
      split; [exact (Hat 1 ltac:(cbn; lia))|].
      unfold Buffer_getSize, Buffer_get_m_size, Buffer_get, bind, ret.
      rewrite Hb, lookup_insert_eq. reflexivity.
Defined.

(** X6: [copyTo] does not test whether the destination is the buffer
    itself.  [b.copyTo(b)] on a buffer of non-zero size deletes the array
    of [b] and then calls [memcpy] with the new array as both destination
    and source: the behaviour is undefined, and the elements are gone.  On
    a buffer of size 0 it deletes the array, if there is one, and leaves no
    data. *)
Theorem Buffer_copyTo_self {T} (s : state T) (this : obj) (b : Buffer) :
  buffers s !! this = Some b ->
  (Buffer_m_size b <> 0 -> Buffer_copyTo this this s = Undefined) /\
  (Buffer_m_size b = 0 ->
   deletable (Buffer_data b) (arrays s) ->
   Buffer_copyTo this this s =
   Ok tt (State (free_array (Buffer_data b) (arrays s)) (cells s)
                (<[this := mkBuffer None 0]> (buffers s)) (shareds s))).
Proof.
  intros Hb. destruct b as [[a|] n];
    cbn [Buffer_data Buffer_m_size deletable free_array]; split.
  - intros Hn. destruct (arrays s !! a) as [blk|] eqn:Ha; now run.
  - intros -> [blk Ha]. run. rewrite !insert_insert_eq. reflexivity.
  - intros Hn. now run.
  - intros -> _. run. rewrite !insert_insert_eq. now destruct s.
Qed.

Lemma Buffer_copyTo_self_witness :
  Buffer_copyTo 1 1 sample_buffers = Undefined /\
  exists s', Buffer_copyTo 1 1 (sample_shrunk false) = Ok tt s' /\
    arrays s' = ∅ /\ buffers s' !! 1%positive = Some (mkBuffer None 0).
Proof.
  split.
  - apply (Buffer_copyTo_self sample_buffers 1 (mkBuffer (Some 1%positive) 2));
      [reflexivity | discriminate].
  - eexists. split.
    + apply (Buffer_copyTo_self (sample_shrunk false) 1
               (mkBuffer (Some 1%positive) 0)); [reflexivity..|].
      vm_compute. eexists. reflexivity.
    + split; reflexivity.
Defined.

(** ** Element access *)

(** X13: the elements beyond a reduced size stay in the array, and the two
    classes differ in what [operator[]] does there.  After
    [shrinkSize(k)], at an index [i] with [k <= i] below the former size,
    [Buffer::operator[]], which checks nothing, still returns the element;
    [SharedBuffer::operator[]] fails its assertion [i < m_size] in a build
    with assertions and returns the element in a build without. *)
Theorem shrinkSize_then_index {T} (NDEBUG : bool) (s : state T) (this : obj)
    (a : addr) (blk : block T) (n k i : Z) :
  arrays s !! a = Some blk ->
  n <= blen blk ->
  0 <= k <= i ->
  i < n ->
  (buffers s !! this = Some (mkBuffer (Some a) n) ->
   exists s',
     Buffer_shrinkSize NDEBUG this k s = Ok tt s' /\
     Buffer_getSize this s' = Ok k s' /\
     Buffer_at this i s' = Ok (bval blk i) s') /\
  (forall r,
     shareds s !! this = Some (mkSharedBuffer (Some a) n r) ->
     n < U32_MOD ->
     exists s',
       SharedBuffer_shrinkSize NDEBUG this k s = Ok tt s' /\
       SharedBuffer_getSize this s' = Ok k s' /\
       SharedBuffer_at false this i s' = AssertionFailed /\
       SharedBuffer_at true this i s' = Ok (bval blk i) s').
Proof.
  intros Ha Hlen Hk Hi. split.
  - intros Hb. eexists. split; [|split].
    + destruct NDEBUG; run; reflexivity.
    + now run.
    + run. now rewrite below_true by lia.
  - intros r Hb Hn. pose proof (to_u32_small k ltac:(lia)) as Hu.
    eexists. split; [|split; [|split]].
    + destruct NDEBUG; run; reflexivity.
    + run. now rewrite Hu.
    + run; first [reflexivity | rewrite Hu in *; lia].
    + run. now rewrite below_true by lia.
Qed.

Lemma shrinkSize_then_index_witness :
  (exists s',
     Buffer_shrinkSize false 1 1 sample_buffers = Ok tt s' /\
     Buffer_getSize 1 s' = Ok 1 s' /\
     Buffer_at 1 1 s' = Ok (Some Byte.x42) s') /\
  (exists s',
     SharedBuffer_shrinkSize false 1 1 sample_single = Ok tt s' /\
     SharedBuffer_getSize 1 s' = Ok 1 s' /\
     SharedBuffer_at false 1 1 s' = AssertionFailed /\
     SharedBuffer_at true 1 1 s' = Ok (Some Byte.x00) s').
Proof.
  split.
  - edestruct (shrinkSize_then_index false sample_buffers 1 1)
      with (n := 2) (k := 1) (i := 1) as [H _].
    + vm_compute. reflexivity.
    + cbn. lia.
    + lia.
    + lia.
    + exact (H eq_refl).
  - edestruct (shrinkSize_then_index false sample_single 1 1)
      with (n := 4) (k := 1) (i := 1) as [_ H].
    + vm_compute. reflexivity.
    + cbn. lia.
    + lia.
    + lia.
    + apply (H (Some 1%positive)); [reflexivity|]. unfold U32_MOD. lia.
Defined.

(** X7: a copy of a [SharedBuffer] is an alias.  After [c] is
    copy-constructed from a live instance [b], an element assigned through
    [c] is the element read through [b]; the destructor of [c] then leaves
    the array, with the assigned element, to [b], and puts the counter and
    the instances back as they were before the copy. *)
Theorem SharedBuffer_copy_aliases {T} (NDEBUG : bool) (s : state T)
    (b c : obj) (d r : addr) (blk : block T) (n v i : Z) (x : T) :
  shareds s !! b = Some (mkSharedBuffer (Some d) n (Some r)) ->
  shareds s !! c = None ->
  cells s !! r = Some (Some v) ->
  0 < v < U32_MOD - 1 ->
  arrays s !! d = Some blk ->
  0 <= i < n ->
  n <= blen blk ->
  exists s1 s2 s3,
    SharedBuffer_ctor_copy NDEBUG c b s = Ok tt s1 /\
    SharedBuffer_at_put NDEBUG c i x s1 = Ok tt s2 /\
    SharedBuffer_at NDEBUG b i s2 = Ok (Some x) s2 /\
    SharedBuffer_dtor NDEBUG c s2 = Ok tt s3 /\
    SharedBuffer_at NDEBUG b i s3 = Ok (Some x) s3 /\
    shareds s3 = shareds s /\ cells s3 = cells s /\
    buffers s3 = buffers s /\
    arrays s3 =
      <[d := Block (blen blk) (fun j => if j =? i then Some x else bval blk j)]>
        (arrays s).
Proof.
  intros Hb Hc Hv Hvr Hd Hi Hn.
  assert (Hbc : b <> c) by congruence.
  pose proof (to_u32_small (v + 1) ltac:(lia)) as Hu1.
  pose proof (to_u32_small v ltac:(lia)) as Hu.
  set (B := mkSharedBuffer (Some d) n (Some r)) in *.
  set (s1 := State (arrays s) (<[r := Some (v + 1)]> (cells s)) (buffers s)
                   (<[c := B]> (shareds s))).
  set (blk2 := Block (blen blk)
                     (fun j => if j =? i then Some x else bval blk j)).
  set (s2 := State (<[d := blk2]> (arrays s)) (cells s1) (buffers s)
                   (shareds s1)).
  exists s1, s2, (State (arrays s2) (cells s) (buffers s) (shareds s)).
  split; [|split; [|split; [|split; [|split]]]].
  - rewrite (SharedBuffer_ctor_copy_ok NDEBUG s c b B Hb Hc).
    + unfold SharedBuffer_joined, s1, B. cbn [SharedBuffer_refcount].
      now rewrite Hv, Hu1.
    + exists v. exact Hv.
  - subst s1 s2 B. destruct NDEBUG; run; now rewrite below_true by lia.
  - subst s1 s2 B blk2. destruct NDEBUG; run; rewrite below_true by lia;
      reflexivity.
  - rewrite (SharedBuffer_dtor_ok NDEBUG s2 c B).
    + unfold SharedBuffer_released, s2, s1, B.
      cbn [SharedBuffer_refcount SharedBuffer_data arrays cells buffers
           shareds].
      rewrite lookup_insert_eq.
      replace (v + 1 - 1) with v by lia. rewrite Hu.
      destruct (Z.eqb_spec v 0) as [E|E]; [lia|].
      cbn [arrays cells]. rewrite insert_insert_eq.
      rewrite (insert_id (cells s) r (Some v) Hv).
      now rewrite delete_insert_id.
    + subst s2 s1. apply lookup_insert_eq.
    + unfold SharedBuffer_releasable, s2, s1, B.
      cbn [SharedBuffer_refcount SharedBuffer_data arrays cells].
      exists (v + 1). rewrite lookup_insert_eq. split; [reflexivity|].
      split; [right; lia|].
      replace (v + 1 - 1) with v by lia. rewrite Hu. lia.
  - subst s2 s1 B blk2. destruct NDEBUG; run; rewrite below_true by lia;
      reflexivity.
  - repeat split.
Qed.

Lemma SharedBuffer_copy_aliases_witness :
  exists s1 s2 s3,
    SharedBuffer_ctor_copy false 2 1 sample_single = Ok tt s1 /\
    SharedBuffer_at_put false 2 2 Byte.x41 s1 = Ok tt s2 /\
    SharedBuffer_at false 1 2 s2 = Ok (Some Byte.x41) s2 /\
    SharedBuffer_dtor false 2 s2 = Ok tt s3 /\
    SharedBuffer_at false 1 2 s3 = Ok (Some Byte.x41) s3 /\
    shareds s3 = shareds sample_single /\ cells s3 = cells sample_single.
Proof.
  edestruct (SharedBuffer_copy_aliases false sample_single 1 2 1 1)
    with (n := 4) (v := 1) (i := 2) (x := Byte.x41)
    as (s1 & s2 & s3 & H1 & H2 & H3 & H4 & H5 & H6 & H7 & _).
  - reflexivity.
  - reflexivity.
  - reflexivity.
  - unfold U32_MOD. lia.
  - vm_compute. reflexivity.
  - lia.
  - cbn. lia.
  - exists s1, s2, s3. repeat split; assumption.
Defined.

(** ** From construction to destruction *)

(** The destructor in closed form: of an instance without counter, of one
    holder among several, and of the last holder. *)
Lemma SharedBuffer_dtor_sentinel {T} NDEBUG (s : state T) this b :
  shareds s !! this = Some b ->
  SharedBuffer_refcount b = None ->
  SharedBuffer_dtor NDEBUG this s =
  Ok tt (State (arrays s) (cells s) (buffers s) (delete this (shareds s))).
Proof.
  intros Hb Hr. rewrite (SharedBuffer_dtor_ok NDEBUG s this b Hb).
  - unfold SharedBuffer_released. now rewrite Hr.
  - unfold SharedBuffer_releasable. now rewrite Hr.
Qed.

Lemma SharedBuffer_dtor_shared {T} NDEBUG (s : state T) this b r v :
  shareds s !! this = Some b ->
  SharedBuffer_refcount b = Some r ->
  cells s !! r = Some (Some v) ->
  1 < v < U32_MOD ->
  SharedBuffer_dtor NDEBUG this s =
  Ok tt (State (arrays s) (<[r := Some (v - 1)]> (cells s)) (buffers s)
               (delete this (shareds s))).
Proof.
  intros Hb Hr Hv Hrange.
  pose proof (to_u32_small (v - 1) ltac:(lia)) as Hu.
  rewrite (SharedBuffer_dtor_ok NDEBUG s this b Hb).
  - unfold SharedBuffer_released. rewrite Hr, Hv, Hu.
    destruct (Z.eqb_spec (v - 1) 0) as [E|E]; [lia|]. reflexivity.
  - unfold SharedBuffer_releasable. rewrite Hr. exists v.
    split; [exact Hv|]. split; [right; lia|]. rewrite Hu. lia.
Qed.

Lemma SharedBuffer_dtor_last {T} NDEBUG (s : state T) this b r d :
  shareds s !! this = Some b ->
  SharedBuffer_refcount b = Some r ->
  SharedBuffer_data b = Some d ->
  cells s !! r = Some (Some 1) ->
  is_Some (arrays s !! d) ->
  SharedBuffer_dtor NDEBUG this s =
  Ok tt (State (delete d (arrays s)) (delete r (cells s)) (buffers s)
               (delete this (shareds s))).
Proof.
  intros Hb Hr Hd Hv Ha.
  rewrite (SharedBuffer_dtor_ok NDEBUG s this b Hb).
  - unfold SharedBuffer_released. rewrite Hr, Hv, Hd. reflexivity.
  - unfold SharedBuffer_releasable. rewrite Hr. exists 1.
    split; [exact Hv|]. split; [right; lia|]. intros _. now rewrite Hd.
Qed.

(** The copy constructor in closed form, for a source with a counter. *)
Lemma SharedBuffer_ctor_copy_counted {T} NDEBUG (s : state T) this buffer b r v :
  shareds s !! buffer = Some b ->
  shareds s !! this = None ->
  SharedBuffer_refcount b = Some r ->
  cells s !! r = Some (Some v) ->
  0 <= v < U32_MOD - 1 ->
  SharedBuffer_ctor_copy NDEBUG this buffer s =
  Ok tt (State (arrays s) (<[r := Some (v + 1)]> (cells s)) (buffers s)
               (<[this := b]> (shareds s))).
Proof.
  intros Hb Ht Hr Hv Hrange.
  rewrite (SharedBuffer_ctor_copy_ok NDEBUG s this buffer b Hb Ht).
  - unfold SharedBuffer_joined. rewrite Hr, Hv.
    now rewrite (to_u32_small (v + 1)) by lia.
  - unfold SharedBuffer_joinable. rewrite Hr. eauto.
Qed.

(** X8: a [SharedBuffer] is constructed with a size, copied, and both
    instances are destroyed, in either order: every call returns, and the
    state at the end is the state at the start.  The array and the counter
    are deleted once, by the second destructor, and nothing else is
    allocated, deleted or changed.  This holds for every size, in both
    builds. *)
Theorem SharedBuffer_lifecycle_restores {T} (zero : T) (NDEBUG : bool)
    (s : state T) (x y : obj) (n : Z) :
  shareds s !! x = None ->
  shareds s !! y = None ->
  x <> y ->
  is_size_t n ->
  (SharedBuffer_ctor_size zero x n >> SharedBuffer_ctor_copy NDEBUG y x >>
   SharedBuffer_dtor NDEBUG y >> SharedBuffer_dtor NDEBUG x) s = Ok tt s /\
  (SharedBuffer_ctor_size zero x n >> SharedBuffer_ctor_copy NDEBUG y x >>
   SharedBuffer_dtor NDEBUG x >> SharedBuffer_dtor NDEBUG y) s = Ok tt s.
Proof.
  intros Hx Hy Hxy _. destruct s as [A C B S]. cbn [shareds] in Hx, Hy.
  assert (Hyx : <[x := SharedBuffer_default]> S !! y = None)
    by now rewrite lookup_insert_ne.
  unfold bind.
  destruct (Z.eq_dec (to_u32 n) 0) as [E|E].
  - rewrite (SharedBuffer_ctor_size_zero zero (State A C B S) x n Hx E).
    cbn [arrays cells buffers shareds].
    rewrite (SharedBuffer_ctor_copy_ok NDEBUG _ y x SharedBuffer_default)
      by (cbn; first [apply lookup_insert_eq | assumption | exact I]).
    unfold SharedBuffer_joined.
    cbn [SharedBuffer_default SharedBuffer_refcount arrays cells buffers
         shareds].
    split.
    + rewrite (SharedBuffer_dtor_sentinel NDEBUG _ y SharedBuffer_default)
        by (cbn; first [apply lookup_insert_eq | reflexivity]).
      cbn [arrays cells buffers shareds]. rewrite delete_insert_id by exact Hyx.
      rewrite (SharedBuffer_dtor_sentinel NDEBUG _ x SharedBuffer_default)
        by (cbn; first [apply lookup_insert_eq | reflexivity]).
      cbn [arrays cells buffers shareds]. now rewrite delete_insert_id.
    + rewrite (SharedBuffer_dtor_sentinel NDEBUG _ x SharedBuffer_default)
        by (cbn; first [now rewrite lookup_insert_ne, lookup_insert_eq
                       | reflexivity]).
      cbn [arrays cells buffers shareds].
      rewrite delete_insert_ne, delete_insert_id by congruence.
      rewrite (SharedBuffer_dtor_sentinel NDEBUG _ y SharedBuffer_default)
        by (cbn; first [apply lookup_insert_eq | reflexivity]).
      cbn [arrays cells buffers shareds]. now rewrite delete_insert_id.
  - rewrite (SharedBuffer_ctor_size_nonzero zero (State A C B S) x n Hx E).
    cbn [arrays cells buffers shareds].
    set (fa := fresh (dom A)). set (fc := fresh (dom C)).
    set (X := mkSharedBuffer (Some fa) (to_u32 n) (Some fc)).
    set (blk := Block (to_u32 n) _).
    assert (Hfa : A !! fa = None) by apply lookup_fresh.
    assert (Hfc : C !! fc = None) by apply lookup_fresh.
    assert (Hyx' : <[x := X]> S !! y = None) by now rewrite lookup_insert_ne.
    rewrite (SharedBuffer_ctor_copy_counted NDEBUG _ y x X fc 1)
      by (cbn; first [apply lookup_insert_eq | assumption | reflexivity
                     | unfold U32_MOD; lia]).
    cbn [arrays cells buffers shareds]. rewrite insert_insert_eq.
    change (1 + 1) with 2.
    split.
    + rewrite (SharedBuffer_dtor_shared NDEBUG _ y X fc 2)
        by (cbn; first [apply lookup_insert_eq | reflexivity
                       | unfold U32_MOD; lia]).
      cbn [arrays cells buffers shareds].
      rewrite insert_insert_eq, delete_insert_id by exact Hyx'.
      change (2 - 1) with 1.
      rewrite (SharedBuffer_dtor_last NDEBUG _ x X fc fa)
        by (cbn; first [apply lookup_insert_eq | reflexivity
                       | rewrite lookup_insert_eq; eauto]).
      cbn [arrays cells buffers shareds]. now rewrite !delete_insert_id.
    + rewrite (SharedBuffer_dtor_shared NDEBUG _ x X fc 2)
        by (cbn; first [now rewrite lookup_insert_ne, lookup_insert_eq
                       | apply lookup_insert_eq | reflexivity
                       | unfold U32_MOD; lia]).
      cbn [arrays cells buffers shareds].
      rewrite insert_insert_eq, delete_insert_ne, delete_insert_id
        by congruence.
      change (2 - 1) with 1.
      rewrite (SharedBuffer_dtor_last NDEBUG _ y X fc fa)
        by (cbn; first [apply lookup_insert_eq | reflexivity
                       | rewrite lookup_insert_eq; eauto]).
      cbn [arrays cells buffers shareds]. now rewrite !delete_insert_id.
Qed.

Lemma SharedBuffer_lifecycle_restores_witness :
  (SharedBuffer_ctor_size Byte.x00 7 4 >> SharedBuffer_ctor_copy false 8 7 >>
   SharedBuffer_dtor false 8 >> SharedBuffer_dtor false 7) sample =
  Ok tt sample /\
  (SharedBuffer_ctor_size Byte.x00 7 4 >> SharedBuffer_ctor_copy false 8 7 >>
   SharedBuffer_dtor false 7 >> SharedBuffer_dtor false 8) sample =
  Ok tt sample.
Proof.
  apply (SharedBuffer_lifecycle_restores Byte.x00 false sample 7 8 4).
  - reflexivity.
  - reflexivity.
  - discriminate.
  - unfold is_size_t, SIZE_MOD. lia.
Defined.

(** Put a map back into shape after insertions and deletions. *)
Ltac tidy_step :=
  match goal with
  | |- context [<[?i := _]> (<[?i := _]> _)] => rewrite insert_insert_eq
  | |- context [delete ?i (<[?i := _]> _)] => rewrite delete_insert_eq
  | |- context [delete ?i (<[?j := ?x]> ?m)] =>
      rewrite (delete_insert_ne m i j x) by congruence
  | |- context [delete ?i ?m] =>
      rewrite (delete_id m i) by first [assumption | apply lookup_fresh]
  end.

(** X9: a [Buffer] is constructed with a size, and its array is passed on
    by the move constructor, by the move assignment or duplicated by
    [copyTo]; then both buffers are destroyed.  Every call returns, and the
    state at the end is the state at the start: every array that was
    allocated has been deleted once, and nothing else has changed. *)
Theorem Buffer_lifecycle_restores {T} (s : state T) (b c : obj) (n m : Z) :
  buffers s !! b = None ->
  buffers s !! c = None ->
  b <> c ->
  is_size_t n ->
  is_size_t m ->
  (Buffer_ctor_size b n >> Buffer_ctor_move c b >>
   Buffer_dtor b >> Buffer_dtor c) s = Ok tt s /\
  (Buffer_ctor_size b n >> Buffer_ctor_size c m >> Buffer_assign c b >>
   Buffer_dtor b >> Buffer_dtor c) s = Ok tt s /\
  (Buffer_ctor_size b n >> Buffer_ctor_size c m >> Buffer_copyTo b c >>
   Buffer_dtor b >> Buffer_dtor c) s = Ok tt s.
Proof.
  intros Hb Hc Hbc _ _. destruct s as [A C B S]. cbn [buffers] in Hb, Hc.
  assert (Hf : fresh (dom (<[fresh (dom A) := Block n (fun _ => None)]> A))
               <> fresh (dom A))
    by (apply (fresh_ne _ _ (Block n (fun _ => None))), lookup_insert_eq).
  assert (Hf' : A !! fresh (dom (<[fresh (dom A) :=
                                     Block n (fun _ => None)]> A)) = None).
  { pose proof (lookup_fresh (<[fresh (dom A) := Block n (fun _ => None)]> A))
      as H.
    now apply lookup_insert_None in H. }
  split; [|split]; unfold_members; repeat first [tidy_step | run_step];
    reflexivity.
Qed.

Lemma Buffer_lifecycle_restores_witness :
  (Buffer_ctor_size 7 4 >> Buffer_ctor_move 8 7 >>
   Buffer_dtor 7 >> Buffer_dtor 8) sample = Ok tt sample /\
  (Buffer_ctor_size 7 4 >> Buffer_ctor_size 8 3 >> Buffer_assign 8 7 >>
   Buffer_dtor 7 >> Buffer_dtor 8) sample = Ok tt sample /\
  (Buffer_ctor_size 7 4 >> Buffer_ctor_size 8 3 >> Buffer_copyTo 7 8 >>
   Buffer_dtor 7 >> Buffer_dtor 8) sample = Ok tt sample.
Proof.
  apply (Buffer_lifecycle_restores sample 7 8 4 3).
  - reflexivity.
  - reflexivity.
  - discriminate.
  - unfold is_size_t, SIZE_MOD. lia.
  - unfold is_size_t, SIZE_MOD. lia.
Defined.

(** ** The sizes stay within the arrays *)

Lemma fits_le {T} p n n' (m : gmap positive (block T)) :
  fits p n m -> 0 <= n' <= n -> fits p n' m.
Proof.
  intros H Hn Hnz. destruct H as (d & blk & Hp & Hd & Hle); [lia|].
  exists d, blk. repeat split; [assumption..|lia].
Qed.

Lemma fits_zero {T} p (m : gmap positive (block T)) : fits p 0 m.
Proof. intros H. now elim H. Qed.

Lemma blen_stable_refl {T} (m : gmap positive (block T)) : blen_stable m m.
Proof. intros d blk blk' H H'. rewrite H in H'. injection H' as <-. lia. Qed.

Lemma blen_stable_alloc {T} (m : gmap positive (block T)) d blk :
  m !! d = None -> blen_stable m (<[d := blk]> m).
Proof.
  intros Hd d' b b' H H'. rewrite lookup_insert_ne in H' by congruence.
  rewrite H in H'. injection H' as <-. lia.
Qed.

Lemma blen_stable_store {T} (m : gmap positive (block T)) a blk blk' :
  m !! a = Some blk -> blen blk' = blen blk ->
  blen_stable m (<[a := blk']> m).
Proof.
  intros Ha Hlen d b b' H H'. destruct (decide (a = d)) as [->|Hne].
  - rewrite lookup_insert_eq in H'. injection H' as <-.
    rewrite Ha in H. injection H as <-. lia.
  - rewrite lookup_insert_ne in H' by exact Hne.
    rewrite H in H'. injection H' as <-. lia.
Qed.

Lemma lookup_free_array_Some {T} (q : ptr) (m : gmap positive (block T)) d blk :
  free_array q m !! d = Some blk -> m !! d = Some blk.
Proof.
  destruct q as [a|]; cbn [free_array]; [|easy].
  intros H. now apply lookup_delete_Some in H.
Qed.

Lemma blen_stable_free {T} (m : gmap positive (block T)) q :
  blen_stable m (free_array q m).
Proof.
  intros d b b' H H'. apply lookup_free_array_Some in H'.
  rewrite H in H'. injection H' as <-. lia.
Qed.

Lemma blen_stable_released {T} (s : state T) b :
  blen_stable (arrays s) (arrays (SharedBuffer_released b s)).
Proof.
  unfold SharedBuffer_released.
  destruct (SharedBuffer_refcount b) as [r|]; [|apply blen_stable_refl].
  destruct (cells s !! r) as [[v|]|]; try apply blen_stable_refl.
  destruct (to_u32 (v - 1) =? 0); cbn [arrays];
    [apply blen_stable_free | apply blen_stable_refl].
Qed.

(** What a call has to show: the arrays that stay allocated keep their
    length, or now belong to a [Buffer] that fits; and the members of every
    object fit the arrays before or after the call.  The rest follows from
    the counters and the ownership after the call. *)
Lemma in_bounds_step {T} (s s' : state T) :
  counted s' -> owned s' ->
  (forall d blk blk',
     arrays s !! d = Some blk -> arrays s' !! d = Some blk' ->
     blen blk <= blen blk' \/
     exists o b, buffers s' !! o = Some b /\ Buffer_data b = Some d /\
                 Buffer_fits (arrays s') b) ->
  (forall o b, buffers s' !! o = Some b ->
     Buffer_fits (arrays s) b \/ Buffer_fits (arrays s') b) ->
  (forall o b, shareds s' !! o = Some b ->
     SharedBuffer_fits (arrays s) b \/ SharedBuffer_fits (arrays s') b) ->
  in_bounds s'.
Proof.
  intros Hc (G & Hi & Hbu & Hsh) Harr HB HS. split.
  - intros o b Hob. destruct (HB o b Hob) as [[Hty Hfit]|Hfit]; [|exact Hfit].
    split; [exact Hty|]. intros Hnz.
    destruct (Hfit Hnz) as (d & blk & Hd & Hblk & Hle).
    pose proof (Hbu o b d Hob Hd) as Hg.
    destruct (Hi d _ Hg) as [blk' Hblk'].
    destruct (Harr d blk blk' Hblk Hblk')
      as [Hlen | (o' & b' & Ho' & Hd' & Hfit')].
    + exists d, blk'. repeat split; [assumption..|lia].
    + pose proof (Hbu o' b' d Ho' Hd') as Hg'.
      assert (o' = o) by congruence. subst o'.
      assert (b' = b) by congruence. subst b'.
      exact (proj2 Hfit' Hnz).
  - intros o b Hob. destruct (HS o b Hob) as [[Hty Hfit]|Hfit]; [|exact Hfit].
    split; [exact Hty|]. intros Hnz.
    destruct (Hfit Hnz) as (d & blk & Hd & Hblk & Hle).
    destruct (Hc o b Hob) as [Hcnt _].
    destruct (SharedBuffer_refcount b) as [r|] eqn:Hr;
      [|now elim (Hcnt Hnz)].
    destruct (Hsh o b r Hob Hr) as (d' & Hd' & Hg).
    assert (d' = d) by congruence. subst d'.
    destruct (Hi d _ Hg) as [blk' Hblk'].
    destruct (Harr d blk blk' Hblk Hblk')
      as [Hlen | (o' & b' & Ho' & Hdb & _)].
    + exists d, blk'. repeat split; [assumption..|lia].
    + pose proof (Hbu o' b' d Ho' Hdb) as Hg'. congruence.
Qed.

(** The same when all arrays keep their length. *)
Lemma in_bounds_stable {T} (s s' : state T) :
  counted s' -> owned s' ->
  blen_stable (arrays s) (arrays s') ->
  (forall o b, buffers s' !! o = Some b ->
     Buffer_fits (arrays s) b \/ Buffer_fits (arrays s') b) ->
  (forall o b, shareds s' !! o = Some b ->
     SharedBuffer_fits (arrays s) b \/ SharedBuffer_fits (arrays s') b) ->
  in_bounds s'.
Proof.
  intros Hc Ho Hst HB HS. apply (in_bounds_step s s'); try assumption.
  intros d blk blk' H H'. left. exact (Hst d blk blk' H H').
Qed.

(** The calls that assign an element keep the length of the array. *)
Lemma store_elem_inv_blen {T} (s s' : state T) p i (v : T) :
  store_elem p i v s = Ok tt s' ->
  exists a blk blk', arrays s !! a = Some blk /\ blen blk' = blen blk /\
    s' = State (<[a := blk']> (arrays s)) (cells s) (buffers s) (shareds s).
Proof.
  intros H. invert_run H. eexists _, _, _.
  split; [eassumption|]. split; [|reflexivity]. reflexivity.
Qed.

Lemma Buffer_at_put_inv_blen {T} (s s' : state T) this i (v : T) :
  Buffer_at_put this i v s = Ok tt s' ->
  exists a blk blk', arrays s !! a = Some blk /\ blen blk' = blen blk /\
    s' = State (<[a := blk']> (arrays s)) (cells s) (buffers s) (shareds s).
Proof.
  intros H. invert_run H. eexists _, _, _.
  split; [eassumption|]. split; [|reflexivity]. reflexivity.
Qed.

Lemma SharedBuffer_at_put_inv_blen {T} NDEBUG (s s' : state T) this i (v : T) :
  SharedBuffer_at_put NDEBUG this i v s = Ok tt s' ->
  exists a blk blk', arrays s !! a = Some blk /\ blen blk' = blen blk /\
    s' = State (<[a := blk']> (arrays s)) (cells s) (buffers s) (shareds s).
Proof.
  intros H. invert_run H; eexists _, _, _;
    (split; [eassumption|]; split; [|reflexivity]; reflexivity).
Qed.

(** [shrinkSize] on a [Buffer] changes the size only to a smaller one. *)
Lemma Buffer_shrinkSize_inv_le {T} NDEBUG (s s' : state T) this new_size :
  Buffer_shrinkSize NDEBUG this new_size s = Ok tt s' ->
  exists b, buffers s !! this = Some b /\
    (s' = s \/
     new_size <= Buffer_m_size b /\
     s' = State (arrays s) (cells s)
                (<[this := mkBuffer (Buffer_data b) new_size]> (buffers s))
                (shareds s)).
Proof.
  intros H. invert_run H; eexists; (split; [reflexivity|]);
    first [right; split; [assumption | reflexivity] | left; reflexivity].
Qed.

(** The array that [copyTo] allocates has the length of the source's
    size. *)
Lemma Buffer_copyTo_inv_blen {T} (s s' : state T) this buffer :
  Buffer_copyTo this buffer s = Ok tt s' ->
  exists bt bb, buffers s !! this = Some bt /\ buffers s !! buffer = Some bb /\
    (s' = State (free_array (Buffer_data bb) (arrays s)) (cells s)
                (<[buffer := mkBuffer None 0]> (buffers s)) (shareds s) \/
     exists blk',
     s' = State (<[fresh (dom (free_array (Buffer_data bb) (arrays s))) := blk']>
                   (free_array (Buffer_data bb) (arrays s)))
                (cells s)
                (<[buffer :=
                     mkBuffer (Some (fresh (dom (free_array (Buffer_data bb)
                                                   (arrays s)))))
                              (Buffer_m_size bt)]> (buffers s))
                (shareds s) /\
     blen blk' = Buffer_m_size bt).
Proof.
  intros H.
  destruct (buffers s !! this) as [bt|] eqn:Ht; [|invert_run H].
  destruct (buffers s !! buffer) as [bb|] eqn:Hb; [|invert_run H].
  exists bt, bb. split; [reflexivity|]. split; [reflexivity|].
  unfold Buffer_copyTo in H.
  unfold bind at 1 in H. unfold Buffer_get at 1 in H. rewrite Ht in H.
  unfold bind at 1 in H.
  destruct (Buffer_drop buffer s) as [[] s1| |] eqn:Hd; try discriminate.
  destruct (Buffer_deletable_inv s s1 buffer bb Hb Hd) as [Hdel ->].
  clear Hd.
  revert H. generalize (free_array (Buffer_data bb) (arrays s)). intros A H.
  invert_run H; rewrite ?insert_insert_eq;
    first [ match goal with E : Buffer_m_size _ = 0 |- _ => rewrite E end;
            left; reflexivity
          | right; eexists; split; reflexivity ].
Qed.

Lemma is_size_t_0 : is_size_t 0.
Proof. unfold is_size_t, SIZE_MOD. lia. Qed.

Lemma Buffer_fits_empty {T} (m : gmap positive (block T)) :
  Buffer_fits m (mkBuffer None 0).
Proof. split; [apply is_size_t_0 | apply fits_zero]. Qed.

Lemma SharedBuffer_fits_default {T} (m : gmap positive (block T)) :
  SharedBuffer_fits m SharedBuffer_default.
Proof. split; [cbn; unfold U32_MOD; lia | apply fits_zero]. Qed.

Lemma Buffer_fits_moved {T} (m : gmap positive (block T)) b :
  Buffer_fits m b ->
  Buffer_fits m (Buffer_moved_from b) /\ Buffer_fits m (Buffer_moved_to b).
Proof.
  intros H. unfold Buffer_moved_from, Buffer_moved_to.
  destruct (Buffer_m_size b =? 0); split;
    first [exact H | apply Buffer_fits_empty].
Qed.

Lemma Buffer_fits_alloc {T} (m : gmap positive (block T)) d blk n :
  is_size_t n -> n <= blen blk ->
  Buffer_fits (<[d := blk]> m) (mkBuffer (Some d) n).
Proof.
  intros Hn Hle. split; [exact Hn|]. intros _. exists d, blk.
  split; [reflexivity|]. split; [apply lookup_insert_eq | exact Hle].
Qed.

Lemma SharedBuffer_fits_alloc {T} (m : gmap positive (block T)) d blk n r :
  0 <= n < U32_MOD -> n <= blen blk ->
  SharedBuffer_fits (<[d := blk]> m) (mkSharedBuffer (Some d) n r).
Proof.
  intros Hn Hle. split; [exact Hn|]. intros _. exists d, blk.
  split; [reflexivity|]. split; [apply lookup_insert_eq | exact Hle].
Qed.

Lemma in_bounds_span {T} (s s' : state T) this t size :
  in_bounds s -> counted s' -> owned s' -> is_size_t size ->
  Buffer_ctor_span this t size s = Ok tt s' ->
  in_bounds s'.
Proof.
  intros [HB HS] Hc' Ho' Hty H. destruct s as [A C B S].
  apply Buffer_ctor_span_inv in H as [Ht [-> | (a & blk & _ & _ & ->)]];
    cbn in *.
  - apply (in_bounds_stable (State A C B S)); try assumption; cbn.
    + apply blen_stable_refl.
    + intros o b Hob.
      apply lookup_insert_Some in Hob as [[<- <-]|[Hne Hob]]; [|left; eauto].
      right. apply Buffer_fits_empty.
    + intros o b Hob. left. eauto.
  - apply (in_bounds_stable (State A C B S)); try assumption; cbn.
    + apply blen_stable_alloc, lookup_fresh.
    + intros o b Hob.
      apply lookup_insert_Some in Hob as [[<- <-]|[Hne Hob]]; [|left; eauto].
      right. apply Buffer_fits_alloc; [exact Hty | cbn; lia].
    + intros o b Hob. left. eauto.
Qed.

Lemma in_bounds_shared_span {T} (s s' : state T) this t size :
  in_bounds s -> counted s' -> owned s' ->
  SharedBuffer_ctor_span this t size s = Ok tt s' ->
  in_bounds s'.
Proof.
  intros [HB HS] Hc' Ho' H. destruct s as [A C B S].
  apply SharedBuffer_ctor_span_inv in H
    as [Ht [-> | (a & blk & _ & _ & ->)]]; cbn in *.
  - apply (in_bounds_stable (State A C B S)); try assumption; cbn.
    + apply blen_stable_refl.
    + intros o b Hob. left. eauto.
    + intros o b Hob.
      apply lookup_insert_Some in Hob as [[<- <-]|[Hne Hob]]; [|left; eauto].
      right. apply SharedBuffer_fits_default.
  - apply (in_bounds_stable (State A C B S)); try assumption; cbn.
    + apply blen_stable_alloc, lookup_fresh.
    + intros o b Hob. left. eauto.
    + intros o b Hob.
      apply lookup_insert_Some in Hob as [[<- <-]|[Hne Hob]]; [|left; eauto].
      right. apply SharedBuffer_fits_alloc; [apply to_u32_range | cbn; lia].
Qed.

(** Every call that returns keeps the sizes within the arrays. *)
Lemma exec_in_bounds {T} (zero : T) NDEBUG (c : call) (s s' : state T) :
  well_typed c ->
  exec zero NDEBUG c s = Ok tt s' ->
  counted s' -> owned s' ->
  in_bounds s -> in_bounds s'.
Proof.
  intros Hwt H Hc' Ho' Hin. pose proof Hin as [HB HS].
  destruct c; cbn [exec well_typed] in H, Hwt.
  - destruct s as [A C B S].
    apply Buffer_ctor_inv in H as [Ht ->]; cbn in *.
    apply (in_bounds_stable (State A C B S)); try assumption; cbn.
    + apply blen_stable_refl.
    + intros o b Hob.
      apply lookup_insert_Some in Hob as [[<- <-]|[Hne Hob]]; [|left; eauto].
      right. apply Buffer_fits_empty.
    + intros o b Hob. left. eauto.
  - destruct s as [A C B S].
    apply Buffer_ctor_size_inv in H as [Ht [-> | ->]]; cbn in *.
    + apply (in_bounds_stable (State A C B S)); try assumption; cbn.
      * apply blen_stable_refl.
      * intros o b Hob.
        apply lookup_insert_Some in Hob as [[<- <-]|[Hne Hob]]; [|left; eauto].
        right. apply Buffer_fits_empty.
      * intros o b Hob. left. eauto.
    + apply (in_bounds_stable (State A C B S)); try assumption; cbn.
      * apply blen_stable_alloc, lookup_fresh.
      * intros o b Hob.
        apply lookup_insert_Some in Hob as [[<- <-]|[Hne Hob]]; [|left; eauto].
        right. apply Buffer_fits_alloc; [exact Hwt | cbn; lia].
      * intros o b Hob. left. eauto.
  - destruct s as [A C B S].
    apply Buffer_ctor_move_inv in H as (b & Hb & Ht & ->); cbn in *.
    destruct (Buffer_fits_moved A b (HB buffer b Hb)) as [Hfrom Hto].
    apply (in_bounds_stable (State A C B S)); try assumption; cbn.
    + apply blen_stable_refl.
    + intros o b' Hob.
      apply lookup_insert_Some in Hob as [[<- <-]|[Hn1 Hob]]; [now left|].
      apply lookup_insert_Some in Hob as [[<- <-]|[Hn2 Hob]]; [now left|].
      left. eauto.
    + intros o b' Hob. left. eauto.
  - now apply (in_bounds_span s s' this t size).
  - destruct s as [A C B S].
    apply Buffer_dtor_inv in H as (b & Hb & Hd & ->); cbn in *.
    apply (in_bounds_stable (State A C B S)); try assumption; cbn.
    + apply blen_stable_free.
    + intros o b' Hob. apply lookup_delete_Some in Hob as [_ Hob].
      left. eauto.
    + intros o b' Hob. left. eauto.
  - destruct s as [A C B S].
    apply Buffer_assign_inv in H
      as [[_ ->] | (Hne & bt & b & Ht & Hb & Hd & ->)]; [exact Hin|].
    cbn in *.
    destruct (Buffer_fits_moved A b (HB buffer b Hb)) as [Hfrom Hto].
    apply (in_bounds_stable (State A C B S)); try assumption; cbn.
    + apply blen_stable_free.
    + intros o b' Hob.
      apply lookup_insert_Some in Hob as [[<- <-]|[Hn1 Hob]]; [now left|].
      apply lookup_insert_Some in Hob as [[<- <-]|[Hn2 Hob]]; [now left|].
      left. eauto.
    + intros o b' Hob. left. eauto.
  - destruct s as [A C B S].
    apply Buffer_copyTo_inv_blen in H
      as (bt & bb & Ht & Hb & [-> | (blk' & -> & Hlen)]); cbn in *.
    + apply (in_bounds_stable (State A C B S)); try assumption; cbn.
      * apply blen_stable_free.
      * intros o b' Hob.
        apply lookup_insert_Some in Hob as [[<- <-]|[Hn1 Hob]];
          [|left; eauto].
        right. apply Buffer_fits_empty.
      * intros o b' Hob. left. eauto.
    + assert (Hnew : Buffer_fits
                (<[fresh (dom (free_array (Buffer_data bb) A)) := blk']>
                   (free_array (Buffer_data bb) A))
                (mkBuffer (Some (fresh (dom (free_array (Buffer_data bb) A))))
                          (Buffer_m_size bt))).
      { apply Buffer_fits_alloc; [apply (HB this bt Ht) | lia]. }
      apply (in_bounds_step (State A C B S)); try assumption; cbn.
      * intros d blk blk0 Hd Hd0.
        destruct (decide (fresh (dom (free_array (Buffer_data bb) A)) = d))
          as [<-|Hnd].
        -- right. eexists buffer, _. split; [apply lookup_insert_eq|].
           split; [reflexivity | exact Hnew].
        -- left. rewrite lookup_insert_ne in Hd0 by exact Hnd.
           apply lookup_free_array_Some in Hd0.
           rewrite Hd in Hd0. injection Hd0 as <-. lia.
      * intros o b' Hob.
        apply lookup_insert_Some in Hob as [[<- <-]|[Hn1 Hob]];
          [now right | left; eauto].
      * intros o b' Hob. left. eauto.
  - destruct s as [A C B S].
    apply Buffer_at_put_inv_blen in H as (a & blk & blk' & Ha & Hlen & ->).
    cbn in *.
    apply (in_bounds_stable (State A C B S)); try assumption; cbn.
    + now apply blen_stable_store with blk.
    + intros o b' Hob. left. eauto.
    + intros o b' Hob. left. eauto.
  - destruct s as [A C B S].
    apply Buffer_shrinkSize_inv_le in H as (b & Hb & [-> | [Hle ->]]);
      [exact Hin|]. cbn in *.
    apply (in_bounds_stable (State A C B S)); try assumption; cbn.
    + apply blen_stable_refl.
    + intros o b' Hob.
      apply lookup_insert_Some in Hob as [[<- <-]|[Hn1 Hob]]; [|left; eauto].
      left. split; [exact Hwt|]. cbn.
      apply fits_le with (Buffer_m_size b); [apply (HB this b Hb)|].
      destruct Hwt. lia.
    + intros o b' Hob. left. eauto.
  - destruct s as [A C B S].
    apply SharedBuffer_ctor_inv in H as [Ht ->]; cbn in *.
    apply (in_bounds_stable (State A C B S)); try assumption; cbn.
    + apply blen_stable_refl.
    + intros o b' Hob. left. eauto.
    + intros o b Hob.
      apply lookup_insert_Some in Hob as [[<- <-]|[Hne Hob]]; [|left; eauto].
      right. apply SharedBuffer_fits_default.
  - destruct s as [A C B S].
    apply SharedBuffer_ctor_size_inv in H as [Ht [-> | ->]]; cbn in *.
    + apply (in_bounds_stable (State A C B S)); try assumption; cbn.
      * apply blen_stable_refl.
      * intros o b' Hob. left. eauto.
      * intros o b Hob.
        apply lookup_insert_Some in Hob as [[<- <-]|[Hne Hob]]; [|left; eauto].
        right. apply SharedBuffer_fits_default.
    + apply (in_bounds_stable (State A C B S)); try assumption; cbn.
      * apply blen_stable_alloc, lookup_fresh.
      * intros o b' Hob. left. eauto.
      * intros o b Hob.
        apply lookup_insert_Some in Hob as [[<- <-]|[Hne Hob]]; [|left; eauto].
        right. apply SharedBuffer_fits_alloc; [apply to_u32_range | cbn; lia].
  - destruct s as [A C B S].
    apply SharedBuffer_ctor_copy_inv in H as (b & Hb & Ht & Hj & ->).
    unfold SharedBuffer_joined in *. cbn in *.
    apply (in_bounds_stable (State A C B S)); try assumption; cbn.
    + apply blen_stable_refl.
    + intros o b' Hob. left. eauto.
    + intros o b' Hob.
      apply lookup_insert_Some in Hob as [[<- <-]|[Hne Hob]]; left; eauto.
  - destruct s as [A C B S].
    apply SharedBuffer_ctor_move_inv in H as (b & Hb & Ht & ->); cbn in *.
    apply (in_bounds_stable (State A C B S)); try assumption; cbn.
    + apply blen_stable_refl.
    + intros o b' Hob. left. eauto.
    + intros o b' Hob.
      apply lookup_insert_Some in Hob as [[<- <-]|[Hn1 Hob]];
        [right; apply SharedBuffer_fits_default|].
      apply lookup_insert_Some in Hob as [[<- <-]|[Hn2 Hob]]; left; eauto.
  - now apply (in_bounds_shared_span s s' this t size).
  - apply SharedBuffer_ctor_Buffer_inv in H as (bb & _ & H).
    now apply (in_bounds_shared_span s s' this _ _ Hin Hc' Ho' H).
  - apply SharedBuffer_dtor_inv in H as (b & Hb & Hrel & ->).
    apply (in_bounds_stable s); try assumption; cbn.
    + apply blen_stable_released.
    + intros o b' Hob. left. eauto.
    + intros o b' Hob. apply lookup_delete_Some in Hob as [_ Hob].
      left. eauto.
  - apply SharedBuffer_assign_inv in H
      as [(_ & _ & ->) | (Hne & bt & b & Ht & Hb & Hrel & Hj & ->)];
      [exact Hin|].
    destruct (SharedBuffer_released_objects bt s) as [Hsh Hbu].
    apply (in_bounds_stable s); try assumption;
      unfold SharedBuffer_joined; cbn [arrays buffers shareds].
    + apply blen_stable_released.
    + rewrite Hbu. intros o b' Hob. left. eauto.
    + rewrite Hsh. intros o b' Hob.
      apply lookup_insert_Some in Hob as [[<- <-]|[Hn1 Hob]]; left; eauto.
  - destruct s as [A C B S].
    apply SharedBuffer_at_put_inv_blen in H
      as (a & blk & blk' & Ha & Hlen & ->).
    cbn in *.
    apply (in_bounds_stable (State A C B S)); try assumption; cbn.
    + now apply blen_stable_store with blk.
    + intros o b' Hob. left. eauto.
    + intros o b' Hob. left. eauto.
  - destruct s as [A C B S].
    apply SharedBuffer_shrinkSize_inv in H as (b & Hb & [-> | [Hle ->]]);
      [exact Hin|]. cbn in *.
    destruct (HS this b Hb) as [Hrange Hfit]. destruct Hwt as [Hlo _].
    apply (in_bounds_stable (State A C B S)); try assumption; cbn.
    + apply blen_stable_refl.
    + intros o b' Hob. left. eauto.
    + intros o b' Hob.
      apply lookup_insert_Some in Hob as [[<- <-]|[Hn1 Hob]]; [|left; eauto].
      left. rewrite to_u32_small by lia. split; [cbn; lia|]. cbn.
      apply fits_le with (SharedBuffer_m_size b); [exact Hfit | lia].
  - apply SharedBuffer_operator_Buffer_inv in H as (b & Hb & H).
    apply (in_bounds_span s s' result (SharedBuffer_data b)
             (SharedBuffer_m_size b) Hin Hc' Ho'); [|exact H].
    destruct (HS this b Hb) as [Hrange _].
    unfold is_size_t, SIZE_MOD, U32_MOD in *. lia.
  - destruct s as [A C B S].
    apply store_elem_inv_blen in H as (a & blk & blk' & Ha & Hlen & ->).
    cbn in *.
    apply (in_bounds_stable (State A C B S)); try assumption; cbn.
    + now apply blen_stable_store with blk.
    + intros o b' Hob. left. eauto.
    + intros o b' Hob. left. eauto.
Qed.

Lemma in_bounds_initial {T} : in_bounds (initial T).
Proof.
  split; intros o b Hob; cbn in Hob; rewrite lookup_empty in Hob;
    discriminate.
Qed.

Lemma reachable_in_bounds {T} (zero : T) NDEBUG (s : state T) :
  reachable_in zero NDEBUG few_shareds s -> in_bounds s.
Proof.
  intros H. induction H as [Hi | s c s' Hs IH Hwt Hexec Hfew'].
  - apply in_bounds_initial.
  - assert (Hs' : reachable_in zero NDEBUG few_shareds s')
      by exact (reachable_call zero NDEBUG _ s c s' Hs Hwt Hexec Hfew').
    destruct (reachable_invariant zero NDEBUG s' Hs') as [Hc' Ho'].
    exact (exec_in_bounds zero NDEBUG c s s' Hwt Hexec Hc' Ho' IH).
Qed.

(** ** Instances, counters and arrays go together *)

Lemma coherent_map_insert (m : gmap positive SharedBuffer) o b :
  coherent_map m ->
  (SharedBuffer_refcount b = None -> SharedBuffer_data b = None) ->
  (forall o' b' r, m !! o' = Some b' -> o' <> o ->
     SharedBuffer_refcount b = Some r -> SharedBuffer_refcount b' = Some r ->
     SharedBuffer_data b' = SharedBuffer_data b) ->
  coherent_map (<[o := b]> m).
Proof.
  intros [H1 H2] Hn Hs. split.
  - intros o' b' Hob. apply lookup_insert_Some in Hob as [[<- <-]|[Hne Hob]];
      eauto.
  - intros o1 o2 b1 b2 r Ho1 Ho2 Hr1 Hr2.
    apply lookup_insert_Some in Ho1 as [[<- <-]|[Hn1 Ho1]];
      apply lookup_insert_Some in Ho2 as [[<- <-]|[Hn2 Ho2]].
    + reflexivity.
    + symmetry. eapply Hs; eauto.
    + eapply Hs; eauto.
    + eapply H2; eauto.
Qed.

Lemma coherent_map_delete (m : gmap positive SharedBuffer) o :
  coherent_map m -> coherent_map (delete o m).
Proof.
  intros [H1 H2]. split.
  - intros o' b' Hob. apply lookup_delete_Some in Hob as [_ Hob]. eauto.
  - intros o1 o2 b1 b2 r Ho1 Ho2.
    apply lookup_delete_Some in Ho1 as [_ Ho1].
    apply lookup_delete_Some in Ho2 as [_ Ho2]. eauto.
Qed.

(** An instance takes the data and the counter of a live one. *)
Lemma coherent_map_copy (m : gmap positive SharedBuffer) o src b b' :
  coherent_map m -> m !! src = Some b ->
  SharedBuffer_data b' = SharedBuffer_data b ->
  SharedBuffer_refcount b' = SharedBuffer_refcount b ->
  coherent_map (<[o := b']> m).
Proof.
  intros [H1 H2] Hsrc Hd Hr. apply coherent_map_insert; [now split| |].
  - rewrite Hd, Hr. eauto.
  - intros o' b0 r Ho' _ Hrb Hrb0. rewrite Hd. rewrite Hr in Hrb. eauto.
Qed.

Lemma coherent_map_default (m : gmap positive SharedBuffer) o :
  coherent_map m -> coherent_map (<[o := SharedBuffer_default]> m).
Proof.
  intros H. apply coherent_map_insert; [exact H|reflexivity|].
  intros o' b' r _ _ Hr. discriminate.
Qed.

(** An instance gets a new array and a new counter. *)
Lemma coherent_map_alloc (m : gmap positive SharedBuffer)
    (c : gmap positive (option Z)) o d n :
  coherent_map m -> counted_by m c ->
  coherent_map
    (<[o := mkSharedBuffer (Some d) n (Some (fresh (dom c)))]> m).
Proof.
  intros H Hc. apply coherent_map_insert; [exact H|discriminate|].
  intros o' b' r Ho' _ Hr Hr'. cbn in Hr. injection Hr as <-.
  destruct (Hc o' b' Ho') as [_ Hcnt].
  pose proof (Hcnt _ Hr') as Hcell. rewrite lookup_fresh in Hcell.
  discriminate.
Qed.

Lemma coherent_shared_span {T} (s s' : state T) this t size :
  counted s -> coherent s ->
  SharedBuffer_ctor_span this t size s = Ok tt s' ->
  coherent s'.
Proof.
  intros Hc Hco H.
  apply SharedBuffer_ctor_span_inv in H
    as [Ht [-> | (a & blk & _ & _ & ->)]]; unfold coherent; cbn.
  - now apply coherent_map_default.
  - now apply coherent_map_alloc.
Qed.

(** Every call that returns keeps the instances coherent. *)
Lemma exec_coherent {T} (zero : T) NDEBUG (c : call) (s s' : state T) :
  exec zero NDEBUG c s = Ok tt s' ->
  counted s -> coherent s -> coherent s'.
Proof.
  intros H Hc Hco.
  assert (Hframe : same_counters s s' -> coherent s').
  { intros [Hsh _]. unfold coherent. now rewrite Hsh. }
  destruct c; cbn [exec] in H.
  - eauto using Buffer_ctor_frame.
  - eauto using Buffer_ctor_size_frame.
  - eauto using Buffer_ctor_move_frame.
  - eauto using Buffer_ctor_span_frame.
  - eauto using Buffer_dtor_frame.
  - eauto using Buffer_assign_frame.
  - eauto using Buffer_copyTo_frame.
  - eauto using Buffer_at_put_frame.
  - eauto using Buffer_shrinkSize_frame.
  - apply SharedBuffer_ctor_inv in H as [Ht ->]. unfold coherent; cbn.
    now apply coherent_map_default.
  - apply SharedBuffer_ctor_size_inv in H as [Ht [-> | ->]];
      unfold coherent; cbn.
    + now apply coherent_map_default.
    + now apply coherent_map_alloc.
  - apply SharedBuffer_ctor_copy_inv in H as (b & Hb & Ht & Hj & ->).
    unfold coherent, SharedBuffer_joined; cbn.
    now apply coherent_map_copy with buffer b.
  - apply SharedBuffer_ctor_move_inv in H as (b & Hb & Ht & ->).
    unfold coherent; cbn. apply coherent_map_default.
    now apply coherent_map_copy with buffer b.
  - eauto using coherent_shared_span.
  - apply SharedBuffer_ctor_Buffer_inv in H as (bb & _ & H).
    eauto using coherent_shared_span.
  - apply SharedBuffer_dtor_inv in H as (b & Hb & Hrel & ->).
    unfold coherent; cbn. now apply coherent_map_delete.
  - apply SharedBuffer_assign_inv in H
      as [(_ & _ & ->) | (Hne & bt & b & Ht & Hb & Hrel & Hj & ->)];
      [exact Hco|].
    destruct (SharedBuffer_released_objects bt s) as [Hsh _].
    unfold coherent, SharedBuffer_joined; cbn [shareds]. rewrite Hsh.
    now apply coherent_map_copy with buffer b.
  - eauto using SharedBuffer_at_put_frame.
  - apply SharedBuffer_shrinkSize_inv in H as (b & Hb & [-> | [Hle ->]]);
      [exact Hco|].
    unfold coherent; cbn. now apply coherent_map_copy with this b.
  - eauto using SharedBuffer_operator_Buffer_frame.
  - eauto using store_elem_frame.
Qed.

Lemma coherent_initial {T} : coherent (initial T).
Proof.
  split; intros *; cbn; rewrite lookup_empty; discriminate.
Qed.

Lemma reachable_coherent {T} (zero : T) NDEBUG (s : state T) :
  reachable_in zero NDEBUG few_shareds s -> coherent s.
Proof.
  intros H. induction H as [Hi | s c s' Hs IH Hwt Hexec Hfew'].
  - apply coherent_initial.
  - destruct (reachable_invariant zero NDEBUG s Hs) as [Hc _].
    exact (exec_coherent zero NDEBUG c s s' Hexec Hc IH).
Qed.

(** ** Nothing is left allocated *)

Section InUse.
Context {V : Type} (P : V -> Prop).
Implicit Types m : gmap positive V.

(** An object is constructed or changed at [o]; what the old object at [o]
    referred to, the new one refers to. *)
Lemma in_use_insert m o x :
  (forall b0, m !! o = Some b0 -> P b0 -> P x) ->
  in_use P m -> in_use P (<[o := x]> m).
Proof.
  intros Hx (o' & b & Hob & Hb). destruct (decide (o = o')) as [<-|Hne].
  - exists o, x. split; [apply lookup_insert_eq | eauto].
  - exists o', b. split; [now rewrite lookup_insert_ne | exact Hb].
Qed.

(** Two objects change; what the old ones referred to, one of the new ones
    refers to. *)
Lemma in_use_insert2 m o1 o2 x1 x2 :
  o1 <> o2 ->
  (forall b0, m !! o1 = Some b0 -> P b0 -> P x1 \/ P x2) ->
  (forall b0, m !! o2 = Some b0 -> P b0 -> P x1 \/ P x2) ->
  in_use P m -> in_use P (<[o1 := x1]> (<[o2 := x2]> m)).
Proof.
  intros Hne H1 H2 (o' & b & Hob & Hb).
  assert (Hx1 : P x1 -> in_use P (<[o1 := x1]> (<[o2 := x2]> m))).
  { intros Hp. exists o1, x1. split; [apply lookup_insert_eq | exact Hp]. }
  assert (Hx2 : P x2 -> in_use P (<[o1 := x1]> (<[o2 := x2]> m))).
  { intros Hp. exists o2, x2. split; [|exact Hp].
    rewrite lookup_insert_ne by exact Hne. apply lookup_insert_eq. }
  destruct (decide (o1 = o')) as [<-|Hn1];
    [destruct (H1 b Hob Hb); auto|].
  destruct (decide (o2 = o')) as [<-|Hn2];
    [destruct (H2 b Hob Hb); auto|].
  exists o', b. split; [now rewrite !lookup_insert_ne | exact Hb].
Qed.

(** An object goes that did not have the property. *)
Lemma in_use_delete m o :
  (forall b0, m !! o = Some b0 -> ~ P b0) ->
  in_use P m -> in_use P (delete o m).
Proof.
  intros Hx (o' & b & Hob & Hb). exists o', b. split; [|exact Hb].
  rewrite lookup_delete_ne; [exact Hob|]. intros <-. exact (Hx b Hob Hb).
Qed.

End InUse.

Section NoGarbage.
Context {T : Type}.
Implicit Types (A : gmap positive (block T)) (C : gmap positive (option Z)).
Implicit Types (B : gmap positive Buffer) (S : gmap positive SharedBuffer).

(** A call on [Buffer] objects: the counters and the instances stay. *)
Lemma no_garbage_buffer_step A A' C B B' S :
  no_garbage (State A C B S) ->
  (forall d, is_Some (A' !! d) ->
     is_Some (A !! d) \/ in_use (fun b => Buffer_data b = Some d) B') ->
  (forall d, is_Some (A' !! d) ->
     in_use (fun b => Buffer_data b = Some d) B ->
     in_use (fun b => Buffer_data b = Some d) B') ->
  no_garbage (State A' C B' S).
Proof.
  intros [Ha Hc] Hnew Hold. split; [|exact Hc]. intros d Hd. cbn in *.
  destruct (Hnew d Hd) as [HA|HB]; [|now left].
  destruct (Ha d HA) as [HB|HS]; [left; now apply Hold | now right].
Qed.

(** A call on [SharedBuffer] instances: the [Buffer] objects stay. *)
Lemma no_garbage_shared_step A A' C C' B S S' :
  no_garbage (State A C B S) ->
  (forall d, is_Some (A' !! d) ->
     is_Some (A !! d) \/ in_use (fun b => SharedBuffer_data b = Some d) S') ->
  (forall r, is_Some (C' !! r) ->
     is_Some (C !! r) \/
     in_use (fun b => SharedBuffer_refcount b = Some r) S') ->
  (forall d, is_Some (A' !! d) ->
     in_use (fun b => SharedBuffer_data b = Some d) S ->
     in_use (fun b => SharedBuffer_data b = Some d) S') ->
  (forall r, is_Some (C' !! r) ->
     in_use (fun b => SharedBuffer_refcount b = Some r) S ->
     in_use (fun b => SharedBuffer_refcount b = Some r) S') ->
  no_garbage (State A' C' B S').
Proof.
  intros [Ha Hc] Hnewa Hnewc Holda Holdc. split; cbn in *.
  - intros d Hd. destruct (Hnewa d Hd) as [HA|HS]; [|now right].
    destruct (Ha d HA) as [HB|HS]; [now left | right; now apply Holda].
  - intros r Hr. destruct (Hnewc r Hr) as [HC|HS]; [|exact HS].
    apply Holdc; [exact Hr | exact (Hc r HC)].
Qed.

(** An element is assigned. *)
Lemma no_garbage_store A C B S a blk blk' :
  no_garbage (State A C B S) -> A !! a = Some blk ->
  no_garbage (State (<[a := blk']> A) C B S).
Proof.
  intros H Ha. apply (no_garbage_buffer_step A _ C B B S H).
  - intros d Hd. left. apply lookup_insert_is_Some in Hd as [<-|[_ Hd]]; eauto.
  - auto.
Qed.

End NoGarbage.

Lemma free_array_gone {T} (m : gmap positive (block T)) d :
  ~ is_Some (free_array (Some d) m !! d).
Proof. cbn. rewrite lookup_delete_eq. now intros [x Hx]. Qed.

Lemma free_array_is_Some {T} (q : ptr) (m : gmap positive (block T)) d :
  is_Some (free_array q m !! d) -> is_Some (m !! d).
Proof. intros [x Hx]. apply lookup_free_array_Some in Hx. eauto. Qed.

Lemma Buffer_moved_keeps b d :
  Buffer_data b = Some d ->
  Buffer_data (Buffer_moved_from b) = Some d \/
  Buffer_data (Buffer_moved_to b) = Some d.
Proof.
  intros H. unfold Buffer_moved_from, Buffer_moved_to.
  destruct (Buffer_m_size b =? 0); [now left | now right].
Qed.

(** A counter with two holders or more has a holder besides any given
    one. *)
Lemma holders_other r o b (m : gmap positive SharedBuffer) :
  m !! o = Some b -> SharedBuffer_refcount b = Some r ->
  (2 <= holders r m)%nat ->
  in_use (fun b' => SharedBuffer_refcount b' = Some r) (delete o m).
Proof.
  intros Ho Hr H2. rewrite (holders_delete r o b m Ho) in H2.
  rewrite decide_True in H2 by exact Hr.
  assert (Hnz : holders r (delete o m) <> 0%nat) by lia.
  unfold holders in Hnz. apply map_size_ne_0_lookup in Hnz as [o' [b' Hob']].
  apply map_lookup_filter_Some in Hob' as [Hob' Hp]. cbn in Hp.
  now exists o', b'.
Qed.

Lemma SharedBuffer_joined_cells {T} (s : state T) this b r :
  is_Some (cells (SharedBuffer_joined this b s) !! r) ->
  is_Some (cells s !! r).
Proof.
  unfold SharedBuffer_joined. cbn [cells].
  destruct (SharedBuffer_refcount b) as [r0|]; [|easy].
  destruct (cells s !! r0) as [[v|]|] eqn:Hv; try easy.
  intros H. apply lookup_insert_is_Some in H as [<-|[_ H]]; [|exact H].
  rewrite Hv. eauto.
Qed.

Lemma no_garbage_span {T} (s s' : state T) this t size :
  no_garbage s ->
  Buffer_ctor_span this t size s = Ok tt s' ->
  no_garbage s'.
Proof.
  intros Hng H. destruct s as [A C B S].
  apply Buffer_ctor_span_inv in H as [Ht [-> | (a & blk & _ & _ & ->)]];
    cbn in *.
  - apply (no_garbage_buffer_step A _ C B _ S Hng); [now left|].
    intros d _. apply in_use_insert. intros b0 Hb0. congruence.
  - apply (no_garbage_buffer_step A _ C B _ S Hng).
    + intros d Hd. apply lookup_insert_is_Some in Hd as [<-|[_ Hd]];
        [right|now left].
      eexists this, _. split; [apply lookup_insert_eq | reflexivity].
    + intros d _. apply in_use_insert. intros b0 Hb0. congruence.
Qed.

Lemma no_garbage_shared_span {T} (s s' : state T) this t size :
  no_garbage s ->
  SharedBuffer_ctor_span this t size s = Ok tt s' ->
  no_garbage s'.
Proof.
  intros Hng H. destruct s as [A C B S].
  apply SharedBuffer_ctor_span_inv in H
    as [Ht [-> | (a & blk & _ & _ & ->)]]; cbn in *.
  - apply (no_garbage_shared_step A _ C _ B S _ Hng);
      try (intros; now left);
      intros x _; apply in_use_insert; intros b0 Hb0; congruence.
  - apply (no_garbage_shared_step A _ C _ B S _ Hng).
    + intros d Hd. apply lookup_insert_is_Some in Hd as [<-|[_ Hd]];
        [right|now left].
      eexists this, _. split; [apply lookup_insert_eq | reflexivity].
    + intros r Hr. apply lookup_insert_is_Some in Hr as [<-|[_ Hr]];
        [right|now left].
      eexists this, _. split; [apply lookup_insert_eq | reflexivity].
    + intros d _. apply in_use_insert. intros b0 Hb0. congruence.
    + intros r _. apply in_use_insert. intros b0 Hb0. congruence.
Qed.

(** An instance goes: what it shared stays in use by the other holders,
    and what it held alone is deleted. *)
Lemma no_garbage_released {T} (s : state T) this b :
  counted s -> few_shareds s -> coherent s -> no_garbage s ->
  shareds s !! this = Some b ->
  no_garbage (State (arrays (SharedBuffer_released b s))
                    (cells (SharedBuffer_released b s))
                    (buffers s) (delete this (shareds s))).
Proof.
  intros Hc Hfew [Hsen Hco] Hng Hb. destruct s as [A C B S]. cbn in Hb.
  destruct (Hc this b Hb) as [_ Hcnt]. cbn in Hcnt, Hsen, Hco.
  unfold SharedBuffer_released. cbn [arrays cells buffers shareds].
  destruct (SharedBuffer_refcount b) as [r|] eqn:Hr.
  - rewrite (Hcnt r eq_refl).
    pose proof (holders_positive r this b S Hb Hr) as Hpos.
    pose proof (holders_le_size r S) as Hle.
    unfold few_shareds in Hfew. cbn in Hfew.
    rewrite to_u32_small by lia.
    destruct (Z.eqb_spec (Z.of_nat (holders r S) - 1) 0) as [E|E];
      cbn [arrays cells].
    + apply (no_garbage_shared_step A _ C _ B S _ Hng).
      * intros d Hd. left. now apply free_array_is_Some in Hd.
      * intros r' Hr'. left. rewrite lookup_delete_is_Some in Hr'. easy.
      * intros d Hd. apply in_use_delete. intros b0 Hb0 Hd0.
        assert (b0 = b) by congruence. subst b0. rewrite Hd0 in Hd.
        exact (free_array_gone _ _ Hd).
      * intros r' Hr'. apply in_use_delete. intros b0 Hb0 Hr0.
        assert (b0 = b) by congruence. subst b0.
        assert (r' = r) by congruence. subst r'.
        rewrite lookup_delete_eq in Hr'. now destruct Hr'.
    + assert (Hother : in_use (fun b' => SharedBuffer_refcount b' = Some r)
                         (delete this S))
        by (apply (holders_other r this b S Hb Hr); lia).
      apply (no_garbage_shared_step A _ C _ B S _ Hng).
      * intros d Hd. now left.
      * intros r' Hr'. left.
        apply lookup_insert_is_Some in Hr' as [<-|[_ Hr']]; [|exact Hr'].
        rewrite (Hcnt r eq_refl). eauto.
      * intros d _ (o & b0 & Ho & Hd0).
        destruct (decide (o = this)) as [->|Hne].
        -- assert (b0 = b) by congruence. subst b0.
           destruct Hother as (o' & b' & Ho' & Hr').
           exists o', b'. split; [exact Ho'|].
           apply lookup_delete_Some in Ho' as [_ Ho'].
           rewrite <- Hd0. exact (Hco o' this b' b r Ho' Hb Hr' Hr).
        -- exists o, b0. split; [now rewrite lookup_delete_ne | exact Hd0].
      * intros r' _ (o & b0 & Ho & Hr0).
        destruct (decide (o = this)) as [->|Hne].
        -- assert (b0 = b) by congruence. subst b0.
           assert (r' = r) by congruence. subst r'. exact Hother.
        -- exists o, b0. split; [now rewrite lookup_delete_ne | exact Hr0].
  - apply (no_garbage_shared_step A _ C _ B S _ Hng);
      try (intros; now left).
    + intros d _. apply in_use_delete. intros b0 Hb0 Hd0.
      assert (b0 = b) by congruence. subst b0.
      rewrite (Hsen this b Hb Hr) in Hd0. discriminate.
    + intros r' _. apply in_use_delete. intros b0 Hb0 Hr0.
      assert (b0 = b) by congruence. subst b0. congruence.
Qed.

(** Every call that returns leaves nothing allocated that is not in use. *)
Lemma exec_no_garbage {T} (zero : T) NDEBUG (c : call) (s s' : state T) :
  exec zero NDEBUG c s = Ok tt s' ->
  counted s -> few_shareds s -> coherent s ->
  no_garbage s -> no_garbage s'.
Proof.
  intros H Hc Hfew Hco Hng.
  destruct c; cbn [exec] in H.
  - destruct s as [A C B S].
    apply Buffer_ctor_inv in H as [Ht ->]; cbn in *.
    apply (no_garbage_buffer_step A _ C B _ S Hng); [now left|].
    intros d _. apply in_use_insert. intros b0 Hb0. congruence.
  - destruct s as [A C B S].
    apply Buffer_ctor_size_inv in H as [Ht [-> | ->]]; cbn in *.
    + apply (no_garbage_buffer_step A _ C B _ S Hng); [now left|].
      intros d _. apply in_use_insert. intros b0 Hb0. congruence.
    + apply (no_garbage_buffer_step A _ C B _ S Hng).
      * intros d Hd. apply lookup_insert_is_Some in Hd as [<-|[_ Hd]];
          [right|now left].
        eexists this, _. split; [apply lookup_insert_eq | reflexivity].
      * intros d _. apply in_use_insert. intros b0 Hb0. congruence.
  - destruct s as [A C B S].
    apply Buffer_ctor_move_inv in H as (b & Hb & Ht & ->); cbn in *.
    apply (no_garbage_buffer_step A _ C B _ S Hng); [now left|].
    intros d _. apply in_use_insert2; [congruence| |].
    + intros b0 Hb0 Hd0. assert (b0 = b) by congruence. subst b0.
      now apply Buffer_moved_keeps.
    + intros b0 Hb0. congruence.
  - eauto using no_garbage_span.
  - destruct s as [A C B S].
    apply Buffer_dtor_inv in H as (b & Hb & Hd & ->); cbn in *.
    apply (no_garbage_buffer_step A _ C B _ S Hng).
    + intros d Hd'. left. now apply free_array_is_Some in Hd'.
    + intros d Hd'. apply in_use_delete. intros b0 Hb0 Hd0.
      assert (b0 = b) by congruence. subst b0. rewrite Hd0 in Hd'.
      exact (free_array_gone _ _ Hd').
  - destruct s as [A C B S].
    apply Buffer_assign_inv in H
      as [[_ ->] | (Hne & bt & b & Ht & Hb & Hd & ->)]; [exact Hng|].
    cbn in *.
    apply (no_garbage_buffer_step A _ C B _ S Hng).
    + intros d Hd'. left. now apply free_array_is_Some in Hd'.
    + intros d Hd'. apply in_use_insert2; [congruence| |].
      * intros b0 Hb0 Hd0. assert (b0 = b) by congruence. subst b0.
        now apply Buffer_moved_keeps.
      * intros b0 Hb0 Hd0. assert (b0 = bt) by congruence. subst b0.
        rewrite Hd0 in Hd'. now elim (free_array_gone _ _ Hd').
  - destruct s as [A C B S].
    apply Buffer_copyTo_inv in H
      as (bt & bb & Ht & Hb & Hd & [-> | [blk' ->]]); cbn in *.
    + apply (no_garbage_buffer_step A _ C B _ S Hng).
      * intros d Hd'. left. now apply free_array_is_Some in Hd'.
      * intros d Hd'. apply in_use_insert. intros b0 Hb0 Hd0.
        assert (b0 = bb) by congruence. subst b0.
        rewrite Hd0 in Hd'. now elim (free_array_gone _ _ Hd').
    + apply (no_garbage_buffer_step A _ C B _ S Hng).
      * intros d Hd'. apply lookup_insert_is_Some in Hd' as [<-|[_ Hd']].
        -- right. eexists buffer, _.
           split; [apply lookup_insert_eq | reflexivity].
        -- left. now apply free_array_is_Some in Hd'.
      * intros d Hd'. apply in_use_insert. intros b0 Hb0 Hd0.
        assert (b0 = bb) by congruence. subst b0. cbn.
        apply lookup_insert_is_Some in Hd' as [<-|[_ Hd']]; [reflexivity|].
        rewrite Hd0 in Hd'. now elim (free_array_gone _ _ Hd').
  - destruct s as [A C B S].
    apply Buffer_at_put_inv in H as (a & blk & blk' & Ha & ->); cbn in *.
    now apply no_garbage_store with blk.
  - destruct s as [A C B S].
    apply Buffer_shrinkSize_inv in H as (b & Hb & [-> | ->]); cbn in *;
      [exact Hng|].
    apply (no_garbage_buffer_step A _ C B _ S Hng); [now left|].
    intros d _. apply in_use_insert. intros b0 Hb0 Hd0. cbn. congruence.
  - destruct s as [A C B S].
    apply SharedBuffer_ctor_inv in H as [Ht ->]; cbn in *.
    apply (no_garbage_shared_step A _ C _ B S _ Hng);
      try (intros; now left);
      intros x _; apply in_use_insert; intros b0 Hb0; congruence.
  - destruct s as [A C B S].
    apply SharedBuffer_ctor_size_inv in H as [Ht [-> | ->]]; cbn in *.
    + apply (no_garbage_shared_step A _ C _ B S _ Hng);
        try (intros; now left);
        intros x _; apply in_use_insert; intros b0 Hb0; congruence.
    + apply (no_garbage_shared_step A _ C _ B S _ Hng).
      * intros d Hd. apply lookup_insert_is_Some in Hd as [<-|[_ Hd]];
          [right|now left].
        eexists this, _. split; [apply lookup_insert_eq | reflexivity].
      * intros r Hr. apply lookup_insert_is_Some in Hr as [<-|[_ Hr]];
          [right|now left].
        eexists this, _. split; [apply lookup_insert_eq | reflexivity].
      * intros d _. apply in_use_insert. intros b0 Hb0. congruence.
      * intros r _. apply in_use_insert. intros b0 Hb0. congruence.
  - apply SharedBuffer_ctor_copy_inv in H as (b & Hb & Ht & Hj & ->).
    pose proof (SharedBuffer_joined_cells s this b) as Hcells.
    destruct s as [A C B S]. unfold SharedBuffer_joined in *. cbn in *.
    apply (no_garbage_shared_step A _ C _ B S _ Hng).
    + now left.
    + intros r Hr. left. now apply Hcells.
    + intros d _. apply in_use_insert. intros b0 Hb0. congruence.
    + intros r _. apply in_use_insert. intros b0 Hb0. congruence.
  - destruct s as [A C B S].
    apply SharedBuffer_ctor_move_inv in H as (b & Hb & Ht & ->); cbn in *.
    apply (no_garbage_shared_step A _ C _ B S _ Hng);
      try (intros; now left).
    + intros d _. apply in_use_insert2; [congruence| |].
      * intros b0 Hb0 Hd0. assert (b0 = b) by congruence. subst b0.
        now right.
      * intros b0 Hb0. congruence.
    + intros r _. apply in_use_insert2; [congruence| |].
      * intros b0 Hb0 Hd0. assert (b0 = b) by congruence. subst b0.
        now right.
      * intros b0 Hb0. congruence.
  - eauto using no_garbage_shared_span.
  - apply SharedBuffer_ctor_Buffer_inv in H as (bb & _ & H).
    eauto using no_garbage_shared_span.
  - apply SharedBuffer_dtor_inv in H as (b & Hb & Hrel & ->).
    now apply no_garbage_released.
  - apply SharedBuffer_assign_inv in H
      as [(_ & _ & ->) | (Hne & bt & b & Ht & Hb & Hrel & Hj & ->)];
      [exact Hng|].
    pose proof (no_garbage_released s this bt Hc Hfew Hco Hng Ht) as H1.
    pose proof (SharedBuffer_joined_cells (SharedBuffer_released bt s) this b)
      as Hcells.
    destruct (SharedBuffer_released_objects bt s) as [Hsh Hbu].
    revert H1 Hcells. unfold SharedBuffer_joined.
    cbn [arrays cells buffers shareds]. rewrite Hsh, Hbu.
    generalize (arrays (SharedBuffer_released bt s)).
    generalize (cells (SharedBuffer_released bt s)).
    intros C1 A1 H1 Hcells.
    rewrite <- (insert_delete_eq (shareds s)).
    apply (no_garbage_shared_step A1 _ C1 _ _ (delete this (shareds s)) _ H1).
    + now left.
    + intros r Hr. left. now apply Hcells.
    + intros d _. apply in_use_insert. intros b0 Hb0.
      rewrite lookup_delete_eq in Hb0. discriminate.
    + intros r _. apply in_use_insert. intros b0 Hb0.
      rewrite lookup_delete_eq in Hb0. discriminate.
  - destruct s as [A C B S].
    apply SharedBuffer_at_put_inv in H as (a & blk & blk' & Ha & ->).
    cbn in *. now apply no_garbage_store with blk.
  - destruct s as [A C B S].
    apply SharedBuffer_shrinkSize_inv in H as (b & Hb & [-> | [Hle ->]]);
      cbn in *; [exact Hng|].
    apply (no_garbage_shared_step A _ C _ B S _ Hng);
      try (intros; now left);
      intros x _; apply in_use_insert; intros b0 Hb0 Hd0; cbn; congruence.
  - apply SharedBuffer_operator_Buffer_inv in H as (b & _ & H).
    eauto using no_garbage_span.
  - destruct s as [A C B S].
    apply store_elem_inv in H as (a & blk & blk' & Ha & ->); cbn in *.
    now apply no_garbage_store with blk.
Qed.

Lemma no_garbage_initial {T} : no_garbage (initial T).
Proof.
  split; intros x [y Hy]; cbn in Hy; rewrite lookup_empty in Hy;
    discriminate.
Qed.

Lemma reachable_no_garbage {T} (zero : T) NDEBUG (s : state T) :
  reachable_in zero NDEBUG few_shareds s -> no_garbage s.
Proof.
  intros H. induction H as [Hi | s c s' Hs IH Hwt Hexec Hfew'].
  - apply no_garbage_initial.
  - destruct (reachable_invariant zero NDEBUG s Hs) as [Hc _].
    pose proof (reachable_in_inside zero NDEBUG _ s Hs) as Hfew.
    pose proof (reachable_coherent zero NDEBUG s Hs) as Hco.
    exact (exec_no_garbage zero NDEBUG c s s' Hexec Hc Hfew Hco IH).
Qed.

(** ** What holds in every state of an execution *)

Lemma few_shareds_small (s : state Byte.byte) :
  (size (shareds s) <=? 2)%nat = true -> few_shareds s.
Proof.
  intros Hs. apply Nat.leb_le in Hs. unfold few_shareds, U32_MOD. lia.
Qed.

Lemma sample_reachable : reachable_in Byte.x00 false few_shareds sample.
Proof.
  apply (reachable_call Byte.x00 false few_shareds
           (after (Buffer_ctor_size 1 4 >> SharedBuffer_ctor_size Byte.x00 1 4)
                  (initial Byte.byte))
           (new_SharedBuffer_copy 2 1));
    [|exact I|reflexivity|apply few_shareds_small; reflexivity].
  apply (reachable_call Byte.x00 false few_shareds
           (after (Buffer_ctor_size 1 4) (initial Byte.byte))
           (new_SharedBuffer_size 1 4));
    [|unfold well_typed, is_size_t, SIZE_MOD; lia|reflexivity
     |apply few_shareds_small; reflexivity].
  apply (reachable_call Byte.x00 false few_shareds (initial Byte.byte)
           (new_Buffer_size 1 4));
    [|unfold well_typed, is_size_t, SIZE_MOD; lia|reflexivity
     |apply few_shareds_small; reflexivity].
  apply reachable_initial. apply few_shareds_small. reflexivity.
Qed.

Lemma sample_destroyed_reachable :
  reachable_in Byte.x00 false few_shareds sample_destroyed.
Proof.
  apply (reachable_call Byte.x00 false few_shareds
           (after (Buffer_dtor 1 >> SharedBuffer_dtor false 1) sample)
           (delete_SharedBuffer 2));
    [|exact I|reflexivity|apply few_shareds_small; reflexivity].
  apply (reachable_call Byte.x00 false few_shareds
           (after (Buffer_dtor 1) sample) (delete_SharedBuffer 1));
    [|exact I|reflexivity|apply few_shareds_small; reflexivity].
  apply (reachable_call Byte.x00 false few_shareds sample (delete_Buffer 1));
    [|exact I|reflexivity|apply few_shareds_small; reflexivity].
  apply sample_reachable.
Qed.

(** X14: in every state of an execution that never has [2^32] or more live
    [SharedBuffer] instances, every index below the size of a live object
    lies in the allocated array that the object points to.  There, reading
    and assigning through [operator[]] of either class return, in either
    build: the read gives the element of the array, and the behaviour is
    never undefined. *)
Theorem element_access_in_bounds {T} (zero : T) (NDEBUG : bool)
    (s : state T) :
  reachable_in zero NDEBUG few_shareds s ->
  (forall this b i,
     buffers s !! this = Some b ->
     0 <= i < Buffer_m_size b ->
     exists d blk,
       Buffer_data b = Some d /\ arrays s !! d = Some blk /\
       Buffer_m_size b <= blen blk /\
       Buffer_at this i s = Ok (bval blk i) s /\
       forall v, exists s', Buffer_at_put this i v s = Ok tt s') /\
  (forall this b i,
     shareds s !! this = Some b ->
     0 <= i < SharedBuffer_m_size b ->
     exists d blk,
       SharedBuffer_data b = Some d /\ arrays s !! d = Some blk /\
       SharedBuffer_m_size b <= blen blk /\
       SharedBuffer_at NDEBUG this i s = Ok (bval blk i) s /\
       forall v, exists s', SharedBuffer_at_put NDEBUG this i v s = Ok tt s').
Proof.
  intros Hreach.
  destruct (reachable_in_bounds zero NDEBUG s Hreach) as [HB HS]. split.
  - intros this b i Hb Hi. destruct (HB this b Hb) as [_ Hfit].
    destruct (Hfit ltac:(lia)) as (d & blk & Hd & Hblk & Hle).
    exists d, blk. split; [exact Hd|]. split; [exact Hblk|].
    split; [exact Hle|]. split.
    + run. rewrite Hd. unfold_members. rewrite Hblk.
      now rewrite below_true by lia.
    + intros v. eexists. run. rewrite Hd. unfold_members. rewrite Hblk.
      rewrite below_true by lia. reflexivity.
  - intros this b i Hb Hi. destruct (HS this b Hb) as [_ Hfit].
    destruct (Hfit ltac:(lia)) as (d & blk & Hd & Hblk & Hle).
    exists d, blk. split; [exact Hd|]. split; [exact Hblk|].
    split; [exact Hle|]. split.
    + destruct NDEBUG; run; rewrite Hd; unfold_members; rewrite Hblk;
        now rewrite below_true by lia.
    + intros v. eexists.
      destruct NDEBUG; run; rewrite Hd; unfold_members; rewrite Hblk;
        rewrite below_true by lia; reflexivity.
Qed.

Lemma element_access_in_bounds_witness :
  Buffer_at 1 3 sample = Ok None sample /\
  SharedBuffer_at false 2 3 sample = Ok (Some Byte.x00) sample.
Proof.
  destruct (element_access_in_bounds Byte.x00 false sample sample_reachable)
    as [HB HS]. split.
  - destruct (HB 1%positive (mkBuffer (Some 1%positive) 4) 3 eq_refl)
      as (d & blk & Hd & Hblk & _ & Hat & _); [cbn; lia|].
    rewrite Hat. injection Hd as <-.
    vm_compute in Hblk. injection Hblk as <-. reflexivity.
  - destruct (HS 2%positive
                (mkSharedBuffer (Some 2%positive) 4 (Some 1%positive)) 3
                eq_refl)
      as (d & blk & Hd & Hblk & _ & Hat & _); [cbn; lia|].
    rewrite Hat. injection Hd as <-.
    vm_compute in Hblk. injection Hblk as <-. reflexivity.
Defined.

(** X15: in every state of an execution that never has [2^32] or more live
    [SharedBuffer] instances, the view that [operator std::string_view]
    returns for a live [Buffer] consists of the [data] pointer and
    [getSize()] elements, which lie in the allocated array.  The test for a
    null [data] in the conversion does not change this: a buffer without
    data has size 0. *)
Theorem Buffer_string_view_reflects_size {T} (zero : T) (NDEBUG : bool)
    (s : state T) (this : obj) (b : Buffer) :
  reachable_in zero NDEBUG few_shareds s ->
  buffers s !! this = Some b ->
  Buffer_string_view this s = Ok (Buffer_data b, Buffer_m_size b) s /\
  Buffer_getSize this s = Ok (Buffer_m_size b) s /\
  (Buffer_data b = None -> Buffer_m_size b = 0) /\
  fits (Buffer_data b) (Buffer_m_size b) (arrays s).
Proof.
  intros Hreach Hb.
  destruct (reachable_in_bounds zero NDEBUG s Hreach) as [HB _].
  destruct (HB this b Hb) as [_ Hfit].
  assert (Hnull : Buffer_data b = None -> Buffer_m_size b = 0).
  { intros Hd. destruct (Z.eq_dec (Buffer_m_size b) 0) as [E|E]; [exact E|].
    destruct (Hfit E) as (d & blk & Hd' & _). congruence. }
  split; [|split; [|split]]; [| |exact Hnull|exact Hfit].
  - unfold Buffer_string_view. run.
    destruct (Buffer_data b) as [d|] eqn:Hd; cbn.
    + run. reflexivity.
    + now rewrite Hnull.
  - now run.
Qed.

Lemma Buffer_string_view_reflects_size_witness :
  Buffer_string_view 1 sample = Ok (Some 1%positive, 4) sample.
Proof.
  exact (proj1 (Buffer_string_view_reflects_size Byte.x00 false sample 1
                  (mkBuffer (Some 1%positive) 4) sample_reachable eq_refl)).
Defined.

(** X16: in every state of an execution that never has [2^32] or more live
    [SharedBuffer] instances, a live [Buffer] is the only owner of its
    array: the array is allocated, and no other [Buffer] and no
    [SharedBuffer] has it as [data].  Its destructor returns, deletes this
    array and nothing else, and changes no other object. *)
Theorem Buffer_exclusive_ownership {T} (zero : T) (NDEBUG : bool)
    (s : state T) (this : obj) (b : Buffer) :
  reachable_in zero NDEBUG few_shareds s ->
  buffers s !! this = Some b ->
  (forall d, Buffer_data b = Some d ->
     is_Some (arrays s !! d) /\
     (forall o' b', buffers s !! o' = Some b' ->
        Buffer_data b' = Some d -> o' = this) /\
     (forall o' b', shareds s !! o' = Some b' ->
        SharedBuffer_data b' <> Some d)) /\
  Buffer_dtor this s =
  Ok tt (State (free_array (Buffer_data b) (arrays s)) (cells s)
               (delete this (buffers s)) (shareds s)).
Proof.
  intros Hreach Hb.
  destruct (reachable_invariant zero NDEBUG s Hreach)
    as [Hc (G & Hi & Hbu & Hsh)].
  destruct (reachable_coherent zero NDEBUG s Hreach) as [Hsen _].
  assert (Hown : forall d, Buffer_data b = Some d -> is_Some (arrays s !! d)).
  { intros d Hd. exact (Hi d _ (Hbu this b d Hb Hd)). }
  split.
  - intros d Hd. pose proof (Hbu this b d Hb Hd) as Hg.
    split; [now apply Hown|]. split.
    + intros o' b' Ho' Hd'. pose proof (Hbu o' b' d Ho' Hd'). congruence.
    + intros o' b' Ho' Hd'.
      destruct (SharedBuffer_refcount b') as [r|] eqn:Hr.
      * destruct (Hsh o' b' r Ho' Hr) as (d' & Hd'' & Hg'). congruence.
      * rewrite (Hsen o' b' Ho' Hr) in Hd'. discriminate.
  - apply Buffer_dtor_ok; [exact Hb|].
    destruct (Buffer_data b) as [d|]; [now apply Hown | exact I].
Qed.

Lemma Buffer_exclusive_ownership_witness :
  Buffer_dtor 1 sample =
  Ok tt (State (delete 1%positive (arrays sample)) (cells sample)
               (delete 1%positive (buffers sample)) (shareds sample)).
Proof.
  exact (proj2 (Buffer_exclusive_ownership Byte.x00 false sample 1
                  (mkBuffer (Some 1%positive) 4) sample_reachable eq_refl)).
Defined.

(** X17: in every state of an execution that never has [2^32] or more live
    [SharedBuffer] instances, nothing is allocated that no live object
    refers to: every allocated array is the [data] of a live [Buffer] or
    [SharedBuffer], and every allocated counter is the [refcount] of a live
    [SharedBuffer].  So when every object has been destroyed, no array and
    no counter is left: nothing has leaked. *)
Theorem nothing_leaks {T} (zero : T) (NDEBUG : bool) (s : state T) :
  reachable_in zero NDEBUG few_shareds s ->
  (forall d, is_Some (arrays s !! d) -> array_in_use s d) /\
  (forall r, is_Some (cells s !! r) -> cell_in_use s r) /\
  (buffers s = ∅ -> shareds s = ∅ -> arrays s = ∅ /\ cells s = ∅).
Proof.
  intros Hreach.
  destruct (reachable_no_garbage zero NDEBUG s Hreach) as [Ha Hc].
  split; [exact Ha|]. split; [exact Hc|].
  intros HB HS. split; apply map_empty; intros x.
  - destruct (arrays s !! x) as [blk|] eqn:E; [|reflexivity].
    destruct (Ha x ltac:(eauto)) as [(o & b & Hob & _)|(o & b & Hob & _)].
    + rewrite HB, lookup_empty in Hob. discriminate.
    + rewrite HS, lookup_empty in Hob. discriminate.
  - destruct (cells s !! x) as [v|] eqn:E; [|reflexivity].
    destruct (Hc x ltac:(eauto)) as (o & b & Hob & _).
    rewrite HS, lookup_empty in Hob. discriminate.
Qed.

Lemma nothing_leaks_witness :
  arrays sample_destroyed = ∅ /\ cells sample_destroyed = ∅.
Proof.
  destruct (nothing_leaks Byte.x00 false sample_destroyed
              sample_destroyed_reachable) as (_ & _ & H).
  apply H; reflexivity.
Defined.

(** X18: in every state of an execution that never has [2^32] or more live
    [SharedBuffer] instances, an instance without a counter is the empty
    sentinel, with no data and size 0, and an instance with a counter has
    data, in an allocated array, and an allocated counter.  Two instances
    share the counter exactly when they share the array. *)
Theorem SharedBuffer_families {T} (zero : T) (NDEBUG : bool) (s : state T)
    (o : obj) (b : SharedBuffer) :
  reachable_in zero NDEBUG few_shareds s ->
  shareds s !! o = Some b ->
  (SharedBuffer_refcount b = None -> b = SharedBuffer_default) /\
  (forall r, SharedBuffer_refcount b = Some r ->
     is_Some (cells s !! r) /\
     exists d, SharedBuffer_data b = Some d /\ is_Some (arrays s !! d)) /\
  (forall o' b', shareds s !! o' = Some b' ->
     SharedBuffer_refcount b <> None ->
     (SharedBuffer_refcount b' = SharedBuffer_refcount b <->
      SharedBuffer_data b' = SharedBuffer_data b)).
Proof.
  intros Hreach Hb.
  destruct (reachable_invariant zero NDEBUG s Hreach)
    as [Hc (G & Hi & Hbu & Hsh)].
  destruct (reachable_coherent zero NDEBUG s Hreach) as [Hsen Hco].
  destruct (Hc o b Hb) as [Hnz Hcnt].
  split; [|split].
  - intros Hr. pose proof (Hsen o b Hb Hr) as Hd.
    assert (Hz : SharedBuffer_m_size b = 0).
    { destruct (Z.eq_dec (SharedBuffer_m_size b) 0) as [E|E]; [exact E|].
      now elim (Hnz E). }
    destruct b as [d n r]. cbn in *. subst. reflexivity.
  - intros r Hr. split; [rewrite (Hcnt r Hr); eauto|].
    destruct (Hsh o b r Hb Hr) as (d & Hd & Hg).
    exists d. split; [exact Hd | exact (Hi d _ Hg)].
  - intros o' b' Hb' Hr.
    destruct (SharedBuffer_refcount b) as [r|] eqn:Hrb; [|congruence].
    destruct (Hsh o b r Hb Hrb) as (d & Hd & Hg). split.
    + intros Hr'. exact (Hco o' o b' b r Hb' Hb Hr' Hrb).
    + intros Hd'. rewrite Hd in Hd'.
      destruct (SharedBuffer_refcount b') as [r'|] eqn:Hrb'.
      * destruct (Hsh o' b' r' Hb' Hrb') as (d' & Hd'' & Hg'). congruence.
      * rewrite (Hsen o' b' Hb' Hrb') in Hd'. discriminate.
Qed.

Lemma SharedBuffer_families_witness :
  is_Some (cells sample !! 1%positive) /\
  exists d,
    SharedBuffer_data (mkSharedBuffer (Some 2%positive) 4 (Some 1%positive)) =
      Some d /\
    is_Some (arrays sample !! d).
Proof.
  destruct (SharedBuffer_families Byte.x00 false sample 1
              (mkSharedBuffer (Some 2%positive) 4 (Some 1%positive))
              sample_reachable eq_refl) as (_ & H & _).
  exact (H 1%positive eq_refl).
Defined.

(** The element assignments change the array of the object they are
    called on. *)
Lemma Buffer_at_put_inv_data {T} (s s' : state T) this i (v : T) :
  Buffer_at_put this i v s = Ok tt s' ->
  exists b a blk blk',
    buffers s !! this = Some b /\ Buffer_data b = Some a /\
    arrays s !! a = Some blk /\
    s' = State (<[a := blk']> (arrays s)) (cells s) (buffers s) (shareds s).
Proof.
  intros H. destruct (buffers s !! this) as [b|] eqn:Hb; [|invert_run H].
  destruct b as [[a|] n]; [|invert_run H].
  invert_run H. eexists _, _, _, _.
  split; [reflexivity|]. split; [reflexivity|].
  split; [eassumption | reflexivity].
Qed.

Lemma SharedBuffer_at_put_inv_data {T} NDEBUG (s s' : state T) this i (v : T) :
  SharedBuffer_at_put NDEBUG this i v s = Ok tt s' ->
  exists b a blk blk',
    shareds s !! this = Some b /\ SharedBuffer_data b = Some a /\
    arrays s !! a = Some blk /\
    s' = State (<[a := blk']> (arrays s)) (cells s) (buffers s) (shareds s).
Proof.
  intros H. destruct (shareds s !! this) as [b|] eqn:Hb; [|invert_run H].
  destruct b as [[a|] n r]; [|invert_run H].
  invert_run H; eexists _, _, _, _;
    (split; [reflexivity|]; split; [reflexivity|];
     split; [eassumption | reflexivity]).
Qed.

(** X19: in every state of an execution that never has [2^32] or more live
    [SharedBuffer] instances, an element assignment through [operator[]]
    that returns changes one array, the one of the object it is called on,
    and nothing else.  For a [Buffer] no other object has this array.  For a
    [SharedBuffer] no [Buffer] has it, and the instances that have it are
    the ones that share the counter of the instance: the assignment is seen
    through them and through nothing else. *)
Theorem writes_are_confined {T} (zero : T) (NDEBUG : bool) (s : state T) :
  reachable_in zero NDEBUG few_shareds s ->
  (forall this i v s',
     Buffer_at_put this i v s = Ok tt s' ->
     exists b d,
       buffers s !! this = Some b /\ Buffer_data b = Some d /\
       cells s' = cells s /\ buffers s' = buffers s /\
       shareds s' = shareds s /\
       (forall d', d' <> d -> arrays s' !! d' = arrays s !! d') /\
       (forall o b', buffers s !! o = Some b' ->
          Buffer_data b' = Some d -> o = this) /\
       (forall o b', shareds s !! o = Some b' ->
          SharedBuffer_data b' <> Some d)) /\
  (forall this i v s',
     SharedBuffer_at_put NDEBUG this i v s = Ok tt s' ->
     exists b d,
       shareds s !! this = Some b /\ SharedBuffer_data b = Some d /\
       cells s' = cells s /\ buffers s' = buffers s /\
       shareds s' = shareds s /\
       (forall d', d' <> d -> arrays s' !! d' = arrays s !! d') /\
       (forall o b', buffers s !! o = Some b' ->
          Buffer_data b' <> Some d) /\
       (forall o b', shareds s !! o = Some b' ->
          SharedBuffer_data b' = Some d ->
          SharedBuffer_refcount b' = SharedBuffer_refcount b)).
Proof.
  intros Hreach.
  destruct (reachable_invariant zero NDEBUG s Hreach)
    as [Hc (G & Hi & Hbu & Hsh)].
  destruct (reachable_coherent zero NDEBUG s Hreach) as [Hsen Hco].
  split.
  - intros this i v s' H.
    apply Buffer_at_put_inv_data in H as (b & d & blk & blk' & Hb & Hd & _ & ->).
    exists b, d. cbn [arrays cells buffers shareds].
    pose proof (Hbu this b d Hb Hd) as Hg.
    repeat split; try assumption.
    + intros d' Hne. now rewrite lookup_insert_ne.
    + intros o b' Ho Hd'. pose proof (Hbu o b' d Ho Hd'). congruence.
    + intros o b' Ho Hd'.
      destruct (SharedBuffer_refcount b') as [r|] eqn:Hr.
      * destruct (Hsh o b' r Ho Hr) as (d' & Hd'' & Hg'). congruence.
      * rewrite (Hsen o b' Ho Hr) in Hd'. discriminate.
  - intros this i v s' H.
    apply SharedBuffer_at_put_inv_data in H
      as (b & d & blk & blk' & Hb & Hd & _ & ->).
    exists b, d. cbn [arrays cells buffers shareds].
    destruct (SharedBuffer_refcount b) as [r|] eqn:Hr;
      [|rewrite (Hsen this b Hb Hr) in Hd; discriminate].
    destruct (Hsh this b r Hb Hr) as (d0 & Hd0 & Hg).
    assert (d0 = d) by congruence. subst d0.
    repeat split; try assumption.
    + intros d' Hne. now rewrite lookup_insert_ne.
    + intros o b' Ho Hd'. pose proof (Hbu o b' d Ho Hd'). congruence.
    + intros o b' Ho Hd'.
      destruct (SharedBuffer_refcount b') as [r'|] eqn:Hr'.
      * destruct (Hsh o b' r' Ho Hr') as (d' & Hd'' & Hg'). congruence.
      * rewrite (Hsen o b' Ho Hr') in Hd'. discriminate.
Qed.

Lemma writes_are_confined_witness :
  exists s',
    SharedBuffer_at_put false 1 0 Byte.x41 sample = Ok tt s' /\
    arrays s' !! 1%positive = arrays sample !! 1%positive /\
    buffers s' = buffers sample.
Proof.
  set (s' := after (SharedBuffer_at_put false 1 0 Byte.x41) sample).
  assert (Hrun : SharedBuffer_at_put false 1 0 Byte.x41 sample = Ok tt s')
    by (vm_compute; reflexivity).
  exists s'. split; [exact Hrun|].
  destruct (writes_are_confined Byte.x00 false sample sample_reachable)
    as [_ H].
  destruct (H 1%positive 0 Byte.x41 s' Hrun)
    as (b & d & Hb & Hd & _ & Hbu & _ & Harr & _).
  split; [|exact Hbu]. apply Harr. intros <-.
  assert (Hs : shareds sample !! 1%positive =
               Some (mkSharedBuffer (Some 2%positive) 4 (Some 1%positive)))
    by (vm_compute; reflexivity).
  rewrite Hs in Hb. injection Hb as <-. discriminate Hd.
Defined.

(** ** The two classes do not interfere *)

Lemma lookup_released_other {T} G (s : state T) this b o bo d :
  owned_by G s ->
  shareds s !! this = Some b ->
  buffers s !! o = Some bo -> Buffer_data bo = Some d ->
  arrays (SharedBuffer_released b s) !! d = arrays s !! d.
Proof.
  intros (Hi & Hbu & Hsh) Hb Ho Hd. unfold SharedBuffer_released.
  destruct (SharedBuffer_refcount b) as [r|] eqn:Hr; [|reflexivity].
  destruct (cells s !! r) as [[v|]|]; try reflexivity.
  destruct (to_u32 (v - 1) =? 0); cbn [arrays]; [|reflexivity].
  apply lookup_free_array_ne.
  destruct (Hsh this b r Hb Hr) as (d' & -> & Hg).
  pose proof (Hbu o bo d Ho Hd). congruence.
Qed.

(** X20: a call that constructs, destroys or assigns no [SharedBuffer] and
    does not change the size of one (every member of [Buffer], the
    assignment of an element, the conversion of a [SharedBuffer] to a
    [Buffer]) leaves every [SharedBuffer] instance and every counter as it
    is.  And in a state of an execution that never has [2^32] or more live
    [SharedBuffer] instances, a call of a member of [SharedBuffer] that
    returns leaves every [Buffer] object as it is, and
    its array with every element. *)
Theorem classes_do_not_interfere {T} (zero : T) (NDEBUG : bool)
    (c : call) (s s' : state T) :
  exec zero NDEBUG c s = Ok tt s' ->
  (changes_SharedBuffer c = false -> same_counters s s') /\
  (on_SharedBuffer c = true ->
   reachable_in zero NDEBUG few_shareds s ->
   buffers s' = buffers s /\
   forall o b d, buffers s !! o = Some b -> Buffer_data b = Some d ->
     arrays s' !! d = arrays s !! d).
Proof.
  intros H. split.
  - intros Hc.
    destruct c; cbn [exec] in H; try discriminate Hc;
      eauto using Buffer_ctor_frame, Buffer_ctor_size_frame,
        Buffer_ctor_move_frame, Buffer_ctor_span_frame, Buffer_dtor_frame,
        Buffer_assign_frame, Buffer_copyTo_frame, Buffer_at_put_frame,
        Buffer_shrinkSize_frame, SharedBuffer_at_put_frame,
        SharedBuffer_operator_Buffer_frame, store_elem_frame.
  - intros Hc Hreach.
    destruct (reachable_invariant zero NDEBUG s Hreach) as [_ [G Hown]].
    pose proof Hown as (Hi & Hbu & Hsh).
    destruct (reachable_coherent zero NDEBUG s Hreach) as [Hsen _].
    assert (Hfresh : forall o b d blk,
              buffers s !! o = Some b -> Buffer_data b = Some d ->
              <[fresh (dom (arrays s)) := blk]> (arrays s) !! d =
              arrays s !! d).
    { intros o b d blk Ho Hd. apply lookup_insert_ne.
      destruct (Hi d _ (Hbu o b d Ho Hd)) as [x Hx].
      exact (fresh_ne _ _ _ Hx). }
    destruct c; cbn [exec] in H; try discriminate Hc.
    + apply SharedBuffer_ctor_inv in H as [_ ->]. now split.
    + apply SharedBuffer_ctor_size_inv in H as [_ [-> | ->]];
        (split; [reflexivity|]); cbn [arrays]; eauto.
    + apply SharedBuffer_ctor_copy_inv in H as (b & _ & _ & _ & ->).
      now split.
    + apply SharedBuffer_ctor_move_inv in H as (b & _ & _ & ->). now split.
    + apply SharedBuffer_ctor_span_inv in H
        as [_ [-> | (a & blk & _ & _ & ->)]];
        (split; [reflexivity|]); cbn [arrays]; eauto.
    + apply SharedBuffer_ctor_Buffer_inv in H as (bb & _ & H).
      apply SharedBuffer_ctor_span_inv in H
        as [_ [-> | (a & blk & _ & _ & ->)]];
        (split; [reflexivity|]); cbn [arrays]; eauto.
    + apply SharedBuffer_dtor_inv in H as (b & Hb & _ & ->).
      split; [reflexivity|]. cbn [arrays]. intros o bo d Ho Hd.
      exact (lookup_released_other G s this b o bo d Hown Hb Ho Hd).
    + apply SharedBuffer_assign_inv in H
        as [(_ & _ & ->) | (_ & bt & b & Ht & _ & _ & _ & ->)];
        [now split|].
      destruct (SharedBuffer_released_objects bt s) as [_ Hbuf].
      unfold SharedBuffer_joined. cbn [arrays buffers].
      split; [exact Hbuf|]. intros o bo d Ho Hd.
      exact (lookup_released_other G s this bt o bo d Hown Ht Ho Hd).
    + apply SharedBuffer_at_put_inv_data in H
        as (b & a & blk & blk' & Hb & Ha & _ & ->).
      split; [reflexivity|]. cbn [arrays]. intros o bo d Ho Hd.
      apply lookup_insert_ne. intros <-.
      pose proof (Hbu o bo a Ho Hd) as Hg.
      destruct (SharedBuffer_refcount b) as [r|] eqn:Hr.
      * destruct (Hsh this b r Hb Hr) as (d' & Hd' & Hg'). congruence.
      * rewrite (Hsen this b Hb Hr) in Ha. discriminate.
    + apply SharedBuffer_shrinkSize_inv in H as (b & _ & [-> | [_ ->]]);
        now split.
Qed.

Lemma classes_do_not_interfere_witness :
  exists s',
    exec Byte.x00 false (delete_SharedBuffer 1) sample = Ok tt s' /\
    buffers s' = buffers sample /\
    arrays s' !! 1%positive = arrays sample !! 1%positive.
Proof.
  exists (after (SharedBuffer_dtor false 1) sample).
  assert (Hrun : exec Byte.x00 false (delete_SharedBuffer 1) sample =
                 Ok tt (after (SharedBuffer_dtor false 1) sample))
    by reflexivity.
  split; [exact Hrun|].
  destruct (classes_do_not_interfere Byte.x00 false (delete_SharedBuffer 1)
              sample _ Hrun) as [_ H].
  destruct (H eq_refl sample_reachable) as [Hb Ha]. split; [exact Hb|].
  exact (Ha 1%positive (mkBuffer (Some 1%positive) 4) 1%positive
            eq_refl eq_refl).
Defined.

(** ** Every call on live objects returns *)

Lemma counted_releasable {T} NDEBUG (s : state T) this b :
  counted s -> owned s -> shareds s !! this = Some b ->
  SharedBuffer_releasable NDEBUG b s.
Proof.
  intros Hc (G & Hi & _ & Hs) Hb. destruct (Hc this b Hb) as [_ Hcnt].
  unfold SharedBuffer_releasable.
  destruct (SharedBuffer_refcount b) as [r|] eqn:Hr; [|exact I].
  exists (Z.of_nat (holders r (shareds s))).
  split; [now apply Hcnt|].
  pose proof (holders_positive r this b _ Hb Hr). split; [right; lia|].
  intros _. destruct (Hs this b r Hb Hr) as (d & -> & Hg). exact (Hi d _ Hg).
Qed.

Lemma holders_two r o o' b b' (m : gmap positive SharedBuffer) :
  m !! o = Some b -> m !! o' = Some b' -> o <> o' ->
  SharedBuffer_refcount b = Some r -> SharedBuffer_refcount b' = Some r ->
  (2 <= holders r m)%nat.
Proof.
  intros Ho Ho' Hne Hr Hr'. rewrite (holders_delete r o b m Ho).
  rewrite decide_True by exact Hr.
  assert (Hd : delete o m !! o' = Some b') by now rewrite lookup_delete_ne.
  pose proof (holders_positive r o' b' _ Hd Hr'). lia.
Qed.

(** After an instance has given up its stake, the counter of any other
    live instance is still there. *)
Lemma counted_joinable {T} (s : state T) this buffer bt b :
  counted s -> few_shareds s ->
  shareds s !! this = Some bt -> shareds s !! buffer = Some b ->
  this <> buffer ->
  SharedBuffer_joinable b (SharedBuffer_released bt s).
Proof.
  intros Hc Hfew Ht Hb Hne. unfold SharedBuffer_joinable.
  destruct (SharedBuffer_refcount b) as [rb|] eqn:Hrb; [|exact I].
  destruct (Hc buffer b Hb) as [_ Hcb]. pose proof (Hcb rb Hrb) as Hcell.
  destruct (Hc this bt Ht) as [_ Hct].
  unfold SharedBuffer_released.
  destruct (SharedBuffer_refcount bt) as [r|] eqn:Hr; [|eauto].
  rewrite (Hct r eq_refl).
  pose proof (holders_positive r this bt _ Ht Hr) as Hpos.
  pose proof (holders_le_size r (shareds s)) as Hle.
  unfold few_shareds in Hfew. rewrite to_u32_small by lia.
  destruct (Z.eqb_spec (Z.of_nat (holders r (shareds s)) - 1) 0) as [E|E];
    cbn [cells].
  - assert (rb <> r).
    { intros ->.
      pose proof (holders_two r this buffer bt b _ Ht Hb Hne Hr Hrb). lia. }
    rewrite lookup_delete_ne by congruence. eauto.
  - destruct (decide (r = rb)) as [<-|Hn].
    + rewrite lookup_insert_eq. eauto.
    + rewrite lookup_insert_ne by exact Hn. eauto.
Qed.

Lemma Buffer_copyTo_zero {T} (s : state T) this buffer bt bb :
  buffers s !! this = Some bt ->
  buffers s !! buffer = Some bb ->
  Buffer_m_size bt = 0 ->
  deletable (Buffer_data bb) (arrays s) ->
  exists s', Buffer_copyTo this buffer s = Ok tt s'.
Proof.
  intros Ht Hb Hz Hdel. destruct (decide (this = buffer)) as [->|Hne].
  - rewrite Ht in Hb. injection Hb as <-.
    destruct bt as [[a'|] n]; cbn [Buffer_data Buffer_m_size deletable] in *;
      subst n.
    + destruct Hdel as [blk0 Ha']. eexists. run. reflexivity.
    + eexists. run. reflexivity.
  - destruct bt as [dt n]. cbn in Hz. subst n.
    destruct bb as [[a'|] m]; cbn [Buffer_data deletable] in Hdel.
    + destruct Hdel as [blk0 Ha']. eexists. run. reflexivity.
    + eexists. run. reflexivity.
Qed.

Lemma Buffer_copyTo_nonzero {T} (s : state T) this buffer bt bb a blk :
  this <> buffer ->
  buffers s !! this = Some bt ->
  buffers s !! buffer = Some bb ->
  deletable (Buffer_data bb) (arrays s) ->
  Buffer_data bt = Some a ->
  Buffer_data bb <> Some a ->
  arrays s !! a = Some blk ->
  0 < Buffer_m_size bt <= blen blk ->
  exists s', Buffer_copyTo this buffer s = Ok tt s'.
Proof.
  intros Hne Ht Hb Hdel Hda Hnea Ha Hn. destruct bt as [dt n].
  cbn [Buffer_data Buffer_m_size] in *. subst dt.
  destruct bb as [[a'|] m]; cbn [Buffer_data deletable] in *.
  - destruct Hdel as [blk0 Ha'].
    assert (Haa : a' <> a) by congruence.
    assert (Ha2 : delete a' (arrays s) !! a = Some blk)
      by now rewrite lookup_delete_ne.
    pose proof (fresh_ne _ _ _ Ha2) as Hf.
    eexists. run. reflexivity.
  - pose proof (fresh_ne _ _ _ Ha) as Hf. eexists. run. reflexivity.
Qed.

Lemma to_u32_le z : 0 <= z -> to_u32 z <= z.
Proof.
  intros H. unfold to_u32, U32_MOD.
  apply Z.mod_le; lia.
Qed.

(** X21: in every state of an execution that never has [2^32] or more live
    [SharedBuffer] instances, every call returns whose arguments are what
    the call requires: constructors at addresses that hold no live object,
    the other members on live objects, spans of allocated elements, indices
    below the size, [shrinkSize] with a size that is not larger, [copyTo]
    to another buffer.  No such call has undefined behaviour, and none
    fails an assertion: no pointer that a live object holds is dangling, no
    array is deleted twice, and every counter is positive when it is
    decremented. *)
Theorem calls_on_live_objects_return {T} (zero : T) (NDEBUG : bool)
    (c : call) (s : state T) :
  reachable_in zero NDEBUG few_shareds s ->
  well_typed c ->
  applicable c s ->
  exists s', exec zero NDEBUG c s = Ok tt s'.
Proof.
  intros Hreach Hwt Happ.
  destruct (reachable_invariant zero NDEBUG s Hreach) as [Hc Hown].
  pose proof Hown as (G & Hi & Hbu & Hsh).
  pose proof (reachable_in_inside zero NDEBUG _ s Hreach) as Hfew.
  destruct (reachable_in_bounds zero NDEBUG s Hreach) as [HB HS].
  assert (Hdel : forall o b, buffers s !! o = Some b ->
            deletable (Buffer_data b) (arrays s)).
  { intros o b Hb. destruct (Buffer_data b) as [d|] eqn:Hd; [|exact I].
    exact (Hi d _ (Hbu o b d Hb Hd)). }
  destruct c; cbn [exec applicable well_typed] in *.
  - eexists. run. reflexivity.
  - destruct (Z.eq_dec size 0); eexists; run; reflexivity.
  - destruct Happ as [Ht [b Hb]].
    rewrite (Buffer_ctor_move_ok s this buffer b Hb Ht). eauto.
  - destruct Happ as [Ht Hspan]. destruct (Z.eq_dec size 0) as [->|E].
    + rewrite (Buffer_ctor_span_zero s this t Ht). eauto.
    + destruct (Hspan E) as (a & blk & -> & Ha & Hle).
      rewrite (Buffer_ctor_span_nonzero s this a blk size Ht E Ha Hle). eauto.
  - destruct Happ as [b Hb].
    rewrite (Buffer_dtor_ok s this b Hb (Hdel this b Hb)). eauto.
  - destruct Happ as [[bt Ht] [b Hb]].
    destruct (decide (this = buffer)) as [->|Hne].
    + rewrite (Buffer_assign_self s buffer b Hb). eauto.
    + rewrite (Buffer_assign_ok s this buffer bt b Hne Ht Hb (Hdel this bt Ht)).
      eauto.
  - destruct Happ as [[bb Hb] (bt & Ht & Hself)].
    destruct (Z.eq_dec (Buffer_m_size bt) 0) as [E|E].
    + exact (Buffer_copyTo_zero s this buffer bt bb Ht Hb E (Hdel buffer bb Hb)).
    + assert (Hne : this <> buffer) by (intros Heq; now elim E; apply Hself).
      destruct (HB this bt Ht) as [[Hlo _] Hfit].
      destruct (Hfit E) as (a & blk & Hda & Ha & Hle).
      apply (Buffer_copyTo_nonzero s this buffer bt bb a blk Hne Ht Hb
               (Hdel buffer bb Hb) Hda); [|exact Ha|lia].
      intros Hdb. pose proof (Hbu this bt a Ht Hda).
      pose proof (Hbu buffer bb a Hb Hdb). congruence.
  - destruct Happ as (b & Hb & Hi').
    destruct (HB this b Hb) as [_ Hfit].
    destruct (Hfit ltac:(lia)) as (d & blk & Hd & Hblk & Hle).
    eexists. run. rewrite Hd. unfold_members. rewrite Hblk.
    rewrite below_true by lia. reflexivity.
  - destruct Happ as (b & Hb & Hle).
    rewrite (Buffer_shrinkSize_ok NDEBUG s this b new_size Hb Hle). eauto.
  - eexists. run. reflexivity.
  - destruct (Z.eq_dec (to_u32 size) 0) as [E|E].
    + rewrite (SharedBuffer_ctor_size_zero zero s this size Happ E). eauto.
    + rewrite (SharedBuffer_ctor_size_nonzero zero s this size Happ E). eauto.
  - destruct Happ as [Ht [b Hb]].
    rewrite (SharedBuffer_ctor_copy_ok NDEBUG s this buffer b Hb Ht); [eauto|].
    unfold SharedBuffer_joinable.
    destruct (SharedBuffer_refcount b) as [r|] eqn:Hr; [|exact I].
    destruct (Hc buffer b Hb) as [_ Hcnt]. eauto.
  - destruct Happ as [Ht [b Hb]].
    rewrite (SharedBuffer_ctor_move_ok s this buffer b Hb Ht). eauto.
  - destruct Happ as [Ht Hspan].
    destruct (Z.eq_dec (to_u32 size) 0) as [E|E].
    + rewrite (SharedBuffer_ctor_span_zero s this t size Ht E). eauto.
    + destruct (Hspan E) as (a & blk & -> & Ha & Hle).
      rewrite (SharedBuffer_ctor_span_nonzero s this a blk size Ht E Ha Hle).
      eauto.
  - destruct Happ as [Ht [bb Hb]].
    rewrite (SharedBuffer_ctor_Buffer_eq s this buffer bb Hb).
    destruct (Z.eq_dec (to_u32 (Buffer_m_size bb)) 0) as [E|E].
    + rewrite (SharedBuffer_ctor_span_zero s this _ _ Ht E). eauto.
    + destruct (HB buffer bb Hb) as [[Hlo _] Hfit].
      assert (Hnz : Buffer_m_size bb <> 0) by (intros Hz; now rewrite Hz in E).
      destruct (Hfit Hnz) as (a & blk & Hda & Ha & Hle). rewrite Hda.
      pose proof (to_u32_le _ Hlo) as Hu.
      rewrite (SharedBuffer_ctor_span_nonzero s this a blk _ Ht E Ha)
        by lia.
      eauto.
  - destruct Happ as [b Hb].
    rewrite (SharedBuffer_dtor_ok NDEBUG s this b Hb
               (counted_releasable NDEBUG s this b Hc Hown Hb)).
    eauto.
  - destruct Happ as [[bt Ht] [b Hb]].
    destruct (decide (this = buffer)) as [->|Hne].
    + rewrite (SharedBuffer_assign_self NDEBUG s buffer b Hb). eauto.
    + rewrite (SharedBuffer_assign_ok NDEBUG s this buffer bt b Hne Ht Hb
                 (counted_releasable NDEBUG s this bt Hc Hown Ht)
                 (counted_joinable s this buffer bt b Hc Hfew Ht Hb Hne)).
      eauto.
  - destruct Happ as (b & Hb & Hi').
    destruct (HS this b Hb) as [_ Hfit].
    destruct (Hfit ltac:(lia)) as (d & blk & Hd & Hblk & Hle).
    eexists. destruct NDEBUG; run; rewrite Hd; unfold_members; rewrite Hblk;
      rewrite below_true by lia; reflexivity.
  - destruct Happ as (b & Hb & Hle). destruct Hwt as [Hlo _].
    destruct (HS this b Hb) as [Hrange _].
    rewrite (SharedBuffer_shrinkSize_ok NDEBUG s this b new_size Hb)
      by lia.
    eauto.
  - destruct Happ as [[b Hb] Hr].
    rewrite (SharedBuffer_operator_Buffer_eq s this result b Hb).
    destruct (Z.eq_dec (SharedBuffer_m_size b) 0) as [E|E].
    + rewrite E, (Buffer_ctor_span_zero s result _ Hr). eauto.
    + destruct (HS this b Hb) as [_ Hfit].
      destruct (Hfit E) as (a & blk & Hda & Ha & Hle). rewrite Hda.
      rewrite (Buffer_ctor_span_nonzero s result a blk _ Hr E Ha Hle). eauto.
  - destruct Happ as (a & blk & -> & Ha & Hi').
    eexists. run. rewrite below_true by lia. reflexivity.
Qed.

Lemma calls_on_live_objects_return_witness :
  exists s',
    exec Byte.x00 false (call_SharedBuffer_assign 2 1) sample = Ok tt s'.
Proof.
  apply (calls_on_live_objects_return Byte.x00 false
           (call_SharedBuffer_assign 2 1) sample sample_reachable).
  - exact I.
  - split; vm_compute; eexists; reflexivity.
Defined.

(** X22: in every state of an execution that never has [2^32] or more live
    [SharedBuffer] instances, the assignment [a = b] between two distinct
    instances that share a counter, or that both have none, returns and
    changes nothing but the members of [a], which become those of [b]: the
    counter is decremented and incremented again, and in between it does
    not reach 0, so that nothing is deleted. *)
Theorem SharedBuffer_assign_within_family {T} (zero : T) (NDEBUG : bool)
    (s : state T) (this buffer : obj) (bt b : SharedBuffer) :
  reachable_in zero NDEBUG few_shareds s ->
  this <> buffer ->
  shareds s !! this = Some bt ->
  shareds s !! buffer = Some b ->
  SharedBuffer_refcount bt = SharedBuffer_refcount b ->
  SharedBuffer_assign NDEBUG this buffer s =
  Ok tt (State (arrays s) (cells s) (buffers s)
               (<[this := b]> (shareds s))).
Proof.
  intros Hreach Hne Ht Hb Heq.
  destruct (reachable_invariant zero NDEBUG s Hreach) as [Hc Hown].
  pose proof (reachable_in_inside zero NDEBUG _ s Hreach) as Hfew.
  rewrite (SharedBuffer_assign_ok NDEBUG s this buffer bt b Hne Ht Hb
             (counted_releasable NDEBUG s this bt Hc Hown Ht)
             (counted_joinable s this buffer bt b Hc Hfew Ht Hb Hne)).
  f_equal. unfold SharedBuffer_joined, SharedBuffer_released.
  rewrite Heq.
  destruct (SharedBuffer_refcount b) as [r|] eqn:Hr; [|reflexivity].
  destruct (Hc buffer b Hb) as [_ Hcnt]. rewrite (Hcnt r Hr).
  pose proof (holders_two r this buffer bt b _ Ht Hb Hne Heq Hr) as H2.
  pose proof (holders_le_size r (shareds s)) as Hle.
  unfold few_shareds in Hfew.
  rewrite to_u32_small by lia.
  destruct (Z.eqb_spec (Z.of_nat (holders r (shareds s)) - 1) 0) as [E|E];
    [lia|].
  cbn [arrays cells buffers shareds]. rewrite lookup_insert_eq.
  rewrite insert_insert_eq.
  replace (Z.of_nat (holders r (shareds s)) - 1 + 1)
    with (Z.of_nat (holders r (shareds s))) by lia.
  rewrite to_u32_small by lia.
  now rewrite (insert_id (cells s) r _ (Hcnt r Hr)).
Qed.

Lemma SharedBuffer_assign_within_family_witness :
  SharedBuffer_assign false 2 1 sample = Ok tt sample.
Proof.
  rewrite (SharedBuffer_assign_within_family Byte.x00 false sample 2 1
             (mkSharedBuffer (Some 2%positive) 4 (Some 1%positive))
             (mkSharedBuffer (Some 2%positive) 4 (Some 1%positive))
             sample_reachable).
  - reflexivity.
  - discriminate.
  - reflexivity.
  - reflexivity.
  - reflexivity.
Defined.

Lemma convert_roundtrip_small_witness :
  exists s' d3 blk3,
    (SharedBuffer_ctor_Buffer 5 1 >> SharedBuffer_operator_Buffer 5 6)
      sample_buffers = Ok tt s' /\
    buffers s' !! 6%positive = Some (mkBuffer (Some d3) 2) /\
    arrays s' !! d3 = Some blk3 /\
    bval blk3 0 = Some Byte.x41 /\ bval blk3 1 = Some Byte.x42 /\
    d3 <> 1%positive.
Proof.
  edestruct (convert_roundtrip_small sample_buffers 1 5 6 1)
    with (n := 2)
    as (s' & d2 & d3 & blk3 & Hrun & _ & Hb3 & _ & _ & Ha3 & _ & Hval & _ &
        Hd3 & _).
  - reflexivity.
  - vm_compute. reflexivity.
  - cbn. lia.
  - unfold U32_MOD. lia.
  - reflexivity.
  - reflexivity.
  - exists s', d3, blk3. split; [exact Hrun|]. split; [exact Hb3|].
    split; [exact Ha3|].
    split; [exact (Hval 0 ltac:(lia))|].
    split; [exact (Hval 1 ltac:(lia)) | exact Hd3].
Defined.

Lemma convert_empty_witness :
  SharedBuffer_ctor_Buffer 5 1 (sample_shrunk false) =
  Ok tt (State (arrays (sample_shrunk false)) (cells (sample_shrunk false))
               (buffers (sample_shrunk false))
               (<[5%positive := SharedBuffer_default]>
                  (shareds (sample_shrunk false)))) /\
  SharedBuffer_operator_Buffer 2 5 sample_pair =
  Ok tt (State (arrays sample_pair) (cells sample_pair)
               (<[5%positive := mkBuffer None 0]> (buffers sample_pair))
               (shareds sample_pair)).
Proof.
  split.
  - apply (proj1 (convert_empty (sample_shrunk false) 1 5)
             (mkBuffer (Some 1%positive) 0)); reflexivity.
  - apply (proj2 (convert_empty sample_pair 2 5) SharedBuffer_default);
      reflexivity.
Defined.

(** ** An element is assigned and read back *)

(** X23: in every state of an execution that never has [2^32] or more live
    [SharedBuffer] instances, for a live object and an index [i] below its
    size, the assignment of [v] through [operator[]]
    returns and keeps the size; afterwards [operator[]] reads [v] at [i],
    and at every other index below the size it reads what it read before.
    This holds for [Buffer] and for [SharedBuffer], in either build. *)
Theorem element_write_then_read {T} (zero : T) (NDEBUG : bool)
    (s : state T) :
  reachable_in zero NDEBUG few_shareds s ->
  (forall this b i v,
     buffers s !! this = Some b ->
     0 <= i < Buffer_m_size b ->
     exists s',
       Buffer_at_put this i v s = Ok tt s' /\
       Buffer_getSize this s' = Ok (Buffer_m_size b) s' /\
       Buffer_at this i s' = Ok (Some v) s' /\
       forall j, 0 <= j < Buffer_m_size b -> j <> i ->
         exists x, Buffer_at this j s = Ok x s /\
                   Buffer_at this j s' = Ok x s') /\
  (forall this b i v,
     shareds s !! this = Some b ->
     0 <= i < SharedBuffer_m_size b ->
     exists s',
       SharedBuffer_at_put NDEBUG this i v s = Ok tt s' /\
       SharedBuffer_getSize this s' = Ok (SharedBuffer_m_size b) s' /\
       SharedBuffer_at NDEBUG this i s' = Ok (Some v) s' /\
       forall j, 0 <= j < SharedBuffer_m_size b -> j <> i ->
         exists x, SharedBuffer_at NDEBUG this j s = Ok x s /\
                   SharedBuffer_at NDEBUG this j s' = Ok x s').
Proof.
  intros Hreach.
  destruct (reachable_in_bounds zero NDEBUG s Hreach) as [HB HS]. split.
  - intros this b i v Hb Hi. destruct (HB this b Hb) as [_ Hfit].
    destruct (Hfit ltac:(lia)) as (d & blk & Hd & Hblk & Hle).
    destruct b as [p n]. cbn [Buffer_data Buffer_m_size] in *. subst p.
    eexists. split; [|split; [|split]].
    + run. rewrite below_true by lia. reflexivity.
    + now run.
    + run. rewrite below_true by lia. reflexivity.
    + intros j Hj Hji. exists (bval blk j). split.
      * run. now rewrite below_true by lia.
      * run. now rewrite below_true by lia.
  - intros this b i v Hb Hi. destruct (HS this b Hb) as [_ Hfit].
    destruct (Hfit ltac:(lia)) as (d & blk & Hd & Hblk & Hle).
    destruct b as [p n r]. cbn [SharedBuffer_data SharedBuffer_m_size] in *.
    subst p.
    eexists. split; [|split; [|split]].
    + destruct NDEBUG; run; rewrite below_true by lia; reflexivity.
    + now run.
    + destruct NDEBUG; run; rewrite below_true by lia; reflexivity.
    + intros j Hj Hji. exists (bval blk j). split.
      * destruct NDEBUG; run; now rewrite below_true by lia.
      * destruct NDEBUG; run; now rewrite below_true by lia.
Qed.

Lemma element_write_then_read_witness :
  exists s',
    SharedBuffer_at_put false 2 1 Byte.x41 sample = Ok tt s' /\
    SharedBuffer_at false 2 1 s' = Ok (Some Byte.x41) s'.
Proof.
  destruct (element_write_then_read Byte.x00 false sample sample_reachable)
    as [_ H].
  destruct (H 2%positive
              (mkSharedBuffer (Some 2%positive) 4 (Some 1%positive))
              1 Byte.x41 eq_refl)
    as (s' & Hput & _ & Hat & _); [cbn; lia|].
  exists s'. split; [exact Hput | exact Hat].
Defined.
